(** * buddy-timelapse: capture manager and print monitor

    A shallow embedding of [src/timelapse/index.ts] (class
    [TimelapseCapture] and [assembleVideo]) and of [src/monitor/index.ts]
    (class [PrintMonitor]), together with the properties of the
    capture life cycle, the resume logic, the watchdog and the poll tick.

    Conventions of the embedding.
    - Job identifiers, millisecond time stamps and the watchdog timeout
      are integers in [Z]. A frame number is what [parseInt] reads off a
      file name: the double nearest to the value of the digits, which is
      that value below 2^53, and [Infinity] past the largest double; it
      is a [Js.Num], and so is the start number computed from it.
    - An [async] method is a computation in the monad [M]: it runs to
      completion on a state and returns a value or a thrown error; the
      state survives the throw, as object fields do in JavaScript.
    - Everything the code asks of its environment (the HTTP client, the
      file system, [child_process], [Date]) is answered by an oracle
      record [Env]; calls that leave the program are recorded, in order,
      in the [trace] of the [World].
    - The temp directory is the list [readdirSync] returns, or [None]
      when the directory does not exist. [mkdirSync] and [unlinkSync] may
      fail, as the code provides for; a call with more arguments than the
      engine accepts throws, as [Math.max(...frameNumbers)] does on a
      large directory.
    - [checkWatchdog] does not await [handlePrintFinished]; the
      completion sequence is nevertheless run to its end inside the tick
      that fires it.
    - Console output is not modelled, nor is the outcome of the
      notification command, which [sendNotification] swallows. *)

From Stdlib Require Import ZArith List String Ascii Bool Lia DecimalString.
From Stdlib Require Import Orders OrdersEx Sorted DecimalPos QArith.
Import ListNotations.
Local Open Scope string_scope.
Local Open Scope list_scope.
Local Open Scope Z_scope.

(** ** JavaScript string helpers *)

Module Js.

(** [s.startsWith(p)] *)
Definition startsWith (s p : string) : bool := String.prefix p s.

(** [s.endsWith(p)] *)
Definition endsWith (s p : string) : bool :=
  let n := String.length s in
  let m := String.length p in
  (m <=? n)%nat && String.eqb (String.substring (n - m) m s) p.

(** The character class [\d]. *)
Definition isDigit (c : ascii) : bool :=
  let n := nat_of_ascii c in ((48 <=? n) && (n <=? 57))%nat.

(** The longest run of digits at the head of [s], and what follows it. *)
Fixpoint spanDigits (s : string) : string * string :=
  match s with
  | String c t =>
      if isDigit c then let (d, r) := spanDigits t in (String c d, r)
      else (EmptyString, s)
  | EmptyString => (EmptyString, EmptyString)
  end.

Fixpoint dropChars (n : nat) (s : string) : string :=
  match n, s with
  | O, _ => s
  | S k, String _ t => dropChars k t
  | S _, EmptyString => EmptyString
  end.

(** The integer a run of decimal digits denotes. *)
Fixpoint parseDigits (acc : Z) (d : string) : Z :=
  match d with
  | EmptyString => acc
  | String c t => parseDigits (10 * acc + (Z.of_nat (nat_of_ascii c) - 48)) t
  end.

(** A JavaScript number that is a non-negative integer, or [Infinity]. *)
Inductive Num :=
| Fin (z : Z)
| Infinity.

(** The double nearest to the integer [z >= 0], ties to the even
    significand: [z] itself below 2^53, a multiple of the unit in the last
    place above, [Infinity] from 2^1024 - 2^970 on. *)
Definition roundDouble (z : Z) : Num :=
  if z <? 2 ^ 53 then Fin z else
  let e := Z.log2 z - 52 in
  let q := Z.shiftr z e in
  let r := z - Z.shiftl q e in
  let half := Z.shiftl 1 (e - 1) in
  let q' := if r <? half then q
            else if half <? r then q + 1
            else if Z.even q then q else q + 1 in
  let v := Z.shiftl q' e in
  if v <? 2 ^ 1024 then Fin v else Infinity.

(** [parseInt(d, 10)] on a run of decimal digits. *)
Definition parseInt (d : string) : Num := roundDouble (parseDigits 0 d).

Definition Num_max (a b : Num) : Num :=
  match a, b with
  | Fin x, Fin y => Fin (Z.max x y)
  | _, _ => Infinity
  end.

(** [Math.max(x, ...xs)] on a non-empty argument list. *)
Definition Math_max (x : Num) (xs : list Num) : Num := fold_left Num_max xs x.

(** [n + 1] *)
Definition addOne (n : Num) : Num :=
  match n with
  | Fin z => roundDouble (z + 1)
  | Infinity => Infinity
  end.

(** [a <= b] and [a < b] *)
Definition Num_le (a b : Num) : Prop :=
  match a, b with
  | Fin x, Fin y => x <= y
  | _, Infinity => True
  | Infinity, Fin _ => False
  end.

Definition Num_lt (a b : Num) : Prop :=
  match a, b with
  | Fin x, Fin y => x < y
  | Fin _, Infinity => True
  | Infinity, _ => False
  end.

(** A JavaScript string is truthy when it is not empty. *)
Definition truthy (s : string) : bool := negb (String.eqb s "").

Fixpoint mapChars (f : ascii -> ascii) (s : string) : string :=
  match s with
  | String c t => String (f c) (mapChars f t)
  | EmptyString => EmptyString
  end.

Fixpoint allChars (f : ascii -> bool) (s : string) : bool :=
  match s with
  | String c t => f c && allChars f t
  | EmptyString => true
  end.

Definition charIn (codes : list nat) (c : ascii) : bool :=
  existsb (Nat.eqb (nat_of_ascii c)) codes.

(** [s.slice(0, -k)] *)
Definition sliceEnd (k : nat) (s : string) : string :=
  String.substring 0 (String.length s - k) s.

(** [n.toString()] for an integer. *)
Definition toString (n : Z) : string := NilZero.string_of_int (Z.to_int n).

End Js.

(** ** The world outside the program *)

(** A spawned capture subprocess, as the operating system sees it. *)
Inductive ProcState := Running | SpawnFailed | Exited.

Inductive Signal := SIGTERM | SIGKILL.

(** Calls that leave the program, in the order they are issued. *)
Inductive Event :=
| EUnlink (file : string)                 (* unlinkSync(join(tempDir, file)) *)
| EUnlinkFailed (file : string)           (* the same call, when it throws *)
| ESpawnCapture (startNumber : Js.Num)    (* spawn ffmpeg, -start_number n *)
| EKill (pid : nat) (sig : Signal)        (* captureProcess.kill(sig) *)
| ESetTimeout (ms : Z)                    (* setTimeout(..., ms) *)
| ESpawnAssemble (outputDir outputFile : string)  (* spawn ffmpeg, encoder *)
| ENotify (outputDir outputFile : string). (* the notification command *)

(** Callbacks that [stopCapture] leaves behind once its promise has
    resolved: the grace timer is never cancelled, and the exit listener
    stays registered on the subprocess. *)
Inductive Callback :=
| CbGraceTimer
| CbStopExit (pid : nat).

Record World := mkWorld {
  tempDir : option (list string);  (* readdirSync(tempDir); None: it throws *)
  procs : list ProcState;          (* capture subprocesses, by handle *)
  pending : list Callback;
  trace : list Event
}.

Definition setTempDir (d : option (list string)) (w : World) : World :=
  mkWorld d (procs w) (pending w) (trace w).
Definition setProcs (p : list ProcState) (w : World) : World :=
  mkWorld (tempDir w) p (pending w) (trace w).
Definition setPending (c : list Callback) (w : World) : World :=
  mkWorld (tempDir w) (procs w) c (trace w).
Definition emit (es : list Event) (w : World) : World :=
  mkWorld (tempDir w) (procs w) (pending w) (trace w ++ es).

Fixpoint setNth {A} (n : nat) (x : A) (l : list A) : list A :=
  match n, l with
  | O, _ :: t => x :: t
  | S k, y :: t => y :: setNth k x t
  | _, [] => []
  end.

Definition procState (w : World) (pid : nat) : ProcState :=
  nth pid (procs w) Exited.

Definition markExited (pid : nat) (w : World) : World :=
  setProcs (setNth pid Exited (procs w)) w.

(** ** Errors and the state-and-exception monad *)

Inductive Err :=
| CaptureInProgress      (* TimelapseError("Capture already in progress") *)
| TempDirFailed          (* TimelapseError("Failed to create temp directory") *)
| SpawnThrew             (* spawn() threw *)
| KillThrew              (* kill() threw *)
| OutputDirFailed        (* TimelapseError("Failed to create output directory") *)
| NoFramesCaptured       (* TimelapseError("No frames captured to assemble video") *)
| AssembleError          (* 'error' event of the encoder *)
| AssembleExit (code : option Z)  (* encoder exit with code !== 0 *)
| ApiFailure.            (* getStatus()/getJob() rejected *)

Inductive Res (A : Type) :=
| Val (a : A)
| Exn (e : Err).
Arguments Val {A} a.
Arguments Exn {A} e.

Definition M (S A : Type) : Type := S -> Res A * S.

Definition ret {S A} (a : A) : M S A := fun s => (Val a, s).
Definition throw {S A} (e : Err) : M S A := fun s => (Exn e, s).
Definition bind {S A B} (m : M S A) (k : A -> M S B) : M S B :=
  fun s => match m s with
           | (Val a, s') => k a s'
           | (Exn e, s') => (Exn e, s')
           end.
(** [try { m } catch (error) { h error }] *)
Definition tryCatch {S A} (m : M S A) (h : Err -> M S A) : M S A :=
  fun s => match m s with
           | (Val a, s') => (Val a, s')
           | (Exn e, s') => h e s'
           end.
(** [try { m } finally { f }], for a [finally] block that cannot throw. *)
Definition tryFinally {S A} (m : M S A) (f : S -> S) : M S A :=
  fun s => let (r, s') := m s in (r, f s').
Definition gets {S A} (f : S -> A) : M S A := fun s => (Val (f s), s).
Definition modify {S} (f : S -> S) : M S unit := fun s => (Val tt, f s).

Declare Scope m_scope.
Delimit Scope m_scope with m.
Notation "x <- m ;; k" := (bind m (fun x => k))
  (at level 61, m at next level, right associativity) : m_scope.
Notation "m ;; k" := (bind m (fun _ => k))
  (at level 61, right associativity) : m_scope.
Local Open Scope m_scope.

(** ** What the environment answers *)

Inductive PrinterState :=
| IDLE | BUSY | PRINTING | PAUSED | FINISHED | STOPPED | ERROR | ATTENTION | READY.

Definition PrinterState_eqb (a b : PrinterState) : bool :=
  match a, b with
  | IDLE, IDLE | BUSY, BUSY | PRINTING, PRINTING | PAUSED, PAUSED
  | FINISHED, FINISHED | STOPPED, STOPPED | ERROR, ERROR
  | ATTENTION, ATTENTION | READY, READY => true
  | _, _ => false
  end.

(** [StatusJob]: only [id?: number] is read. *)
Record StatusJob := mkStatusJob { job_id : option Z }.

(** [StatusResponse]: [printer.state] and [job?]. *)
Record StatusResponse := mkStatus {
  printer_state : PrinterState;
  job : option StatusJob
}.

(** [spawn("ffmpeg", ...)] either throws, or returns a handle; when the
    subprocess could not be launched the handle is returned all the same
    and its 'error' event is emitted later. *)
Inductive SpawnOutcome := SpawnThrows | SpawnReturns (launched : bool).

(** What follows [kill("SIGTERM")] in [stopCapture]: the call throws, the
    subprocess exits inside the grace window, or the window elapses. *)
Inductive StopOutcome := KillThrows | ExitsInGrace | GraceElapses.

(** How the encoder subprocess of [assembleVideo] ends. *)
Inductive EncoderOutcome := EncoderExit (code : option Z) | EncoderErrorEvent.

(** [apiClient.getJob()]: rejects, or yields [job.file.display_name] if any. *)
Inductive JobOutcome := JobThrows | JobInfo (display_name : option string).

Record Env := mkEnv {
  status_result : option StatusResponse;  (* getStatus(); None: it rejects *)
  job_result : JobOutcome;
  mkdir_temp_ok : bool;                   (* mkdirSync(tempDir) *)
  spawn_outcome : SpawnOutcome;
  stop_outcome : StopOutcome;
  mkdir_out_ok : bool;                    (* mkdirSync(dirname(outputPath)) *)
  encoder_outcome : EncoderOutcome;
  now_arm : Z;                            (* Date.now() in start/resetWatchdog *)
  now_check : Z;                          (* Date.now() in checkWatchdog *)
  iso_now : string;                       (* new Date().toISOString() *)
  unlink_ok : string -> bool;             (* unlinkSync(join(tempDir, file)) *)
  max_arguments : Z     (* a call with more arguments throws RangeError *)
}.

(** ** [src/timelapse/index.ts] *)

Module Timelapse.

(** The mutable fields of [class TimelapseCapture]; a [ChildProcess] handle
    is the index of its subprocess in [procs]. *)
Record TimelapseCapture := mkCapture {
  captureProcess : option nat;
  isCapturing : bool
}.

Definition St : Type := TimelapseCapture * World.

Definition onWorld (f : World -> World) (s : St) : St := (fst s, f (snd s)).
Definition onCapture (f : TimelapseCapture -> TimelapseCapture) (s : St) : St :=
  (f (fst s), snd s).

(** [file.startsWith("img_") && file.endsWith(".jpg")] *)
Definition isFrame (file : string) : bool :=
  Js.startsWith file "img_" && Js.endsWith file ".jpg".

(** [/img_(\d+)\.jpg/] tried at the head of [s]: the digit run is greedy
    and must be followed by [.jpg], so only the longest run can match. *)
Definition matchHere (s : string) : option string :=
  if Js.startsWith s "img_" then
    let (d, r) := Js.spanDigits (Js.dropChars 4 s) in
    if Js.truthy d && Js.startsWith r ".jpg" then Some d else None
  else None.

(** [file.match(/img_(\d+)\.jpg/)]: the leftmost match, group 1. *)
Fixpoint matchFrame (s : string) : option string :=
  match matchHere s with
  | Some d => Some d
  | None => match s with
            | String _ t => matchFrame t
            | EmptyString => None
            end
  end.

(** [match ? parseInt(match[1], 10) : 0] *)
Definition frameNumber (file : string) : Js.Num :=
  match matchFrame file with
  | Some d => Js.parseInt d
  | None => Js.Fin 0
  end.

(** [readdirSync(tempDir).filter(...)], empty when the read throws. *)
Definition frameFiles (w : World) : list string :=
  match tempDir w with
  | Some files => filter isFrame files
  | None => []
  end.

Definition getCapturedFrameCount (w : World) : Z :=
  Z.of_nat (List.length (frameFiles w)).

Definition canResume (w : World) : bool := 0 <? getCapturedFrameCount w.

(** [getHighestFrameNumber()]: 0 without frame files; 0 again, from the
    [catch], when the spread call [Math.max(...frameNumbers)] is given
    more arguments than the engine accepts. *)
Definition getHighestFrameNumber (env : Env) (w : World) : Js.Num :=
  match map frameNumber (frameFiles w) with
  | [] => Js.Fin 0
  | x :: xs =>
      if max_arguments env <? Z.of_nat (List.length (x :: xs))
      then Js.Fin 0
      else Js.Math_max x xs
  end.

(** The loop of [clearFrames()] over the directory listing: the calls it
    issues, and the files that are left. It ends at the first
    [unlinkSync] that throws. *)
Fixpoint unlinkFrames (ok : string -> bool) (files : list string)
  : list Event * list string :=
  match files with
  | [] => ([], [])
  | f :: rest =>
      if isFrame f then
        if ok f then
          let (es, left) := unlinkFrames ok rest in (EUnlink f :: es, left)
        else ([EUnlinkFailed f], f :: rest)
      else
        let (es, left) := unlinkFrames ok rest in (es, f :: left)
  end.

(** [clearFrames()]: unlink the frame files, in directory order; the
    [catch] swallows the first failure, and a directory that cannot be
    read is left alone. *)
Definition clearFramesW (env : Env) (w : World) : World :=
  match tempDir w with
  | Some files =>
      let (es, left) := unlinkFrames (unlink_ok env) files in
      emit es (setTempDir (Some left) w)
  | None => w
  end.

Definition clearFrames (env : Env) : M St unit :=
  modify (onWorld (clearFramesW env)).
Definition clearTempDirectory (env : Env) : M St unit := clearFrames env.

(** [mkdirSync(tempDir, { recursive: true })] when it succeeds. *)
Definition mkdirTemp (w : World) : World :=
  match tempDir w with
  | Some _ => w
  | None => setTempDir (Some []) w
  end.

(** [spawn("ffmpeg", [..., "-start_number", n, ...])] *)
Definition spawnCapture (env : Env) (startNumber : Js.Num) : M St nat :=
  fun s =>
    let w1 := emit [ESpawnCapture startNumber] (snd s) in
    match spawn_outcome env with
    | SpawnThrows => (Exn SpawnThrew, (fst s, w1))
    | SpawnReturns launched =>
        (Val (List.length (procs w1)),
         (fst s,
          setProcs (procs w1 ++ [if launched then Running else SpawnFailed]) w1))
    end.

Definition startCapture (env : Env) (resumeIfPossible : bool) : M St unit :=
  capturing <- gets (fun s : St => isCapturing (fst s)) ;;
  if capturing then throw CaptureInProgress else
  ((if mkdir_temp_ok env then modify (onWorld mkdirTemp)
    else throw TempDirFailed) ;;
   existingFrameCount <- gets (fun s : St => getCapturedFrameCount (snd s)) ;;
   let isResuming := resumeIfPossible && (0 <? existingFrameCount) in
   startNumber <-
     (if isResuming
      then (h <- gets (fun s : St => getHighestFrameNumber env (snd s)) ;;
            ret (Js.addOne h))
      else (clearTempDirectory env ;; ret (Js.Fin 1))) ;;
   p <- spawnCapture env startNumber ;;
   modify (onCapture (fun c => mkCapture (Some p) (isCapturing c))) ;;
   modify (onCapture (fun c => mkCapture (captureProcess c) true))).

(** The listeners [startCapture] registers on the subprocess. *)
Definition onError (c : TimelapseCapture) : TimelapseCapture :=
  mkCapture (captureProcess c) false.
Definition onExit (c : TimelapseCapture) : TimelapseCapture :=
  mkCapture (captureProcess c) false.

(** The exit listener [stopCapture] registers. *)
Definition onStopExit (c : TimelapseCapture) : TimelapseCapture :=
  mkCapture None false.

(** The grace timer of [stopCapture]: it kills whatever handle the manager
    holds when it fires. *)
Definition onGraceTimer (s : St) : St :=
  (mkCapture None false,
   match captureProcess (fst s) with
   | Some q => emit [EKill q SIGKILL] (snd s)
   | None => snd s
   end).

Definition graceMs : Z := 5000.

Definition stopCapture (env : Env) : M St unit :=
  fun s =>
    match isCapturing (fst s), captureProcess (fst s) with
    | true, Some p =>
        let w1 := emit [EKill p SIGTERM] (snd s) in
        match stop_outcome env with
        | KillThrows => (Exn KillThrew, (fst s, w1))
        | ExitsInGrace =>
            let w2 := markExited p (emit [ESetTimeout graceMs] w1) in
            (Val tt,
             (onStopExit (onExit (fst s)),
              setPending (pending w2 ++ [CbGraceTimer]) w2))
        | GraceElapses =>
            let s3 := onGraceTimer (fst s, emit [ESetTimeout graceMs] w1) in
            (Val tt,
             (fst s3, setPending (pending (snd s3) ++ [CbStopExit p]) (snd s3)))
        end
    | _, _ => (Val tt, s)
    end.

Definition isCurrentlyCapturing (c : TimelapseCapture) : bool := isCapturing c.

(** [assembleVideo(config, outputPath)]; [outputPath] is kept as the pair
    of the output directory and the file name that [resolve] joins. *)
Definition assembleVideo (env : Env) (outputDir outputFile : string)
  : M World unit :=
  if negb (mkdir_out_ok env) then throw OutputDirFailed else
  (frameCount <- gets getCapturedFrameCount ;;
   if frameCount =? 0 then throw NoFramesCaptured else
   (modify (emit [ESpawnAssemble outputDir outputFile]) ;;
    match encoder_outcome env with
    | EncoderErrorEvent => throw AssembleError
    | EncoderExit (Some 0) => ret tt
    | EncoderExit code => throw (AssembleExit code)
    end)).

(** *** The capture manager as a transition system

    The methods are called one at a time, each awaited. Between two calls
    the event loop may deliver the 'exit' events of the subprocesses and
    run what [stopCapture] left pending; the capture subprocess writes
    frame files on its own. The 'error' event of a subprocess that could
    not be launched is emitted on the next tick after [spawn]: while it
    is due, nothing else runs. *)

Definition Callback_eqb (a b : Callback) : bool :=
  match a, b with
  | CbGraceTimer, CbGraceTimer => true
  | CbStopExit p, CbStopExit q => Nat.eqb p q
  | _, _ => false
  end.

Fixpoint removeFirst (cb : Callback) (l : list Callback) : list Callback :=
  match l with
  | [] => []
  | x :: t => if Callback_eqb cb x then t else x :: removeFirst cb t
  end.

(** The 'exit' event of subprocess [p]: the listener of [startCapture]
    runs, then the one of [stopCapture] if it is still registered. *)
Definition exitEvent (p : nat) (s : St) : St :=
  let w := markExited p (snd s) in
  if existsb (Callback_eqb (CbStopExit p)) (pending w)
  then (onStopExit (onExit (fst s)),
        setPending (removeFirst (CbStopExit p) (pending w)) w)
  else (onExit (fst s), w).

(** The 'error' event of a subprocess that could not be launched. *)
Definition errorEvent (p : nat) (s : St) : St :=
  (onError (fst s), markExited p (snd s)).

(** A grace timer of an earlier [stopCapture] fires. *)
Definition timerEvent (s : St) : St :=
  let s' := onGraceTimer s in
  (fst s', setPending (removeFirst CbGraceTimer (pending (snd s'))) (snd s')).

(** Some subprocess could not be launched and its 'error' event has not
    been delivered yet. *)
Definition errorDue (w : World) : bool :=
  existsb (fun st => match st with SpawnFailed => true | _ => false end)
          (procs w).

Inductive step : St -> St -> Prop :=
| step_start (env : Env) (resume : bool) (s : St) :
    errorDue (snd s) = false ->
    step s (snd (startCapture env resume s))
| step_stop (env : Env) (s : St) :
    errorDue (snd s) = false ->
    step s (snd (stopCapture env s))
| step_clear (env : Env) (s : St) :
    errorDue (snd s) = false ->
    step s (snd (clearFrames env s))
| step_frame (s : St) (files : list string) (f : string) :
    tempDir (snd s) = Some files ->
    step s (onWorld (setTempDir (Some (files ++ [f]))) s)
| step_error (s : St) (p : nat) :
    procState (snd s) p = SpawnFailed ->
    step s (errorEvent p s)
| step_exit (s : St) (p : nat) :
    errorDue (snd s) = false ->
    procState (snd s) p = Running ->
    step s (exitEvent p s)
| step_timer (s : St) :
    errorDue (snd s) = false ->
    In CbGraceTimer (pending (snd s)) ->
    step s (timerEvent s).



End Timelapse.

(** ** [src/monitor/index.ts] *)

Module Monitor.

Import Timelapse.

(** The fields of [AppConfig] that the monitor's decisions read. *)
Record Config := mkConfig {
  watchdogTimeout : Z;        (* seconds; <= 0 disables the watchdog *)
  outputDirectory : string    (* config.timelapse.outputDirectory *)
}.

(** The mutable fields of [class PrintMonitor] that [checkStatus] uses. *)
Record PrintMonitor := mkMonitor {
  currentPrintId : option Z;
  currentPrintFilename : option string;
  lastPrinterState : option PrinterState;
  watchdogExpiry : option Z;
  isFirstCheck : bool;
  timelapseCapture : TimelapseCapture
}.

Definition St : Type := PrintMonitor * World.

Definition setCurrentPrintId (v : option Z) (m : PrintMonitor) :=
  mkMonitor v (currentPrintFilename m) (lastPrinterState m) (watchdogExpiry m)
            (isFirstCheck m) (timelapseCapture m).
Definition setCurrentPrintFilename (v : option string) (m : PrintMonitor) :=
  mkMonitor (currentPrintId m) v (lastPrinterState m) (watchdogExpiry m)
            (isFirstCheck m) (timelapseCapture m).
Definition setLastPrinterState (v : option PrinterState) (m : PrintMonitor) :=
  mkMonitor (currentPrintId m) (currentPrintFilename m) v (watchdogExpiry m)
            (isFirstCheck m) (timelapseCapture m).
Definition setWatchdogExpiry (v : option Z) (m : PrintMonitor) :=
  mkMonitor (currentPrintId m) (currentPrintFilename m) (lastPrinterState m) v
            (isFirstCheck m) (timelapseCapture m).
Definition setIsFirstCheck (v : bool) (m : PrintMonitor) :=
  mkMonitor (currentPrintId m) (currentPrintFilename m) (lastPrinterState m)
            (watchdogExpiry m) v (timelapseCapture m).
Definition setTimelapseCapture (v : TimelapseCapture) (m : PrintMonitor) :=
  mkMonitor (currentPrintId m) (currentPrintFilename m) (lastPrinterState m)
            (watchdogExpiry m) (isFirstCheck m) v.

Definition onMonitor (f : PrintMonitor -> PrintMonitor) (s : St) : St :=
  (f (fst s), snd s).

(** A method of [this.timelapseCapture], run on the monitor's state. *)
Definition liftC {A} (m : M Timelapse.St A) : M St A :=
  fun s =>
    let (r, s') := m (timelapseCapture (fst s), snd s) in
    (r, (setTimelapseCapture (fst s') (fst s), snd s')).

(** A function of the world alone, run on the monitor's state. *)
Definition liftW {A} (m : M World A) : M St A :=
  fun s => let (r, w') := m (snd s) in (r, (fst s, w')).

(** The state of a monitor just constructed. *)
Definition newMonitor : PrintMonitor :=
  mkMonitor None None None None true (mkCapture None false).

(** [status.job?.id || null]: a missing job, a missing id and the id 0
    all give [null]. *)
Definition jobIdOf (status : StatusResponse) : option Z :=
  match job status with
  | Some j => match job_id j with
              | Some n => if n =? 0 then None else Some n
              | None => None
              end
  | None => None
  end.

(** [state === "PRINTING"], also for the [null] of [lastPrinterState]. *)
Definition isPrinting (s : option PrinterState) : bool :=
  match s with
  | Some st => PrinterState_eqb st PRINTING
  | None => false
  end.

(** [printName.replace(/\.[^/.]+$/, "")]: drop the last dot and what
    follows it, when that is a non-empty run without slash or dot. *)
Fixpoint stripExtension (s : string) : string :=
  match s with
  | String c t =>
      if Js.charIn [46%nat] c && Js.truthy t
         && Js.allChars (fun x => negb (Js.charIn [47%nat; 46%nat] x)) t
      then EmptyString
      else String c (stripExtension t)
  | EmptyString => EmptyString
  end.

(** The sanitising [replace] of [generateOutputPath]: each of the nine
    characters less-than, greater-than, colon, double quote, slash,
    backslash, bar, question mark and star becomes an underscore. *)
Definition sanitize (s : string) : string :=
  Js.mapChars
    (fun c => if Js.charIn [60; 62; 58; 34; 47; 92; 124; 63; 42]%nat c
              then "_"%char else c) s.

(** [toISOString().replace(/[:.]/g, "-").slice(0, -5)] *)
Definition timestampOf (iso : string) : string :=
  Js.sliceEnd 5
    (Js.mapChars (fun c => if Js.charIn [58; 46]%nat c then "-"%char else c) iso).

Section WithEnvironment.

Variable cfg : Config.
Variable env : Env.

Definition getStatus : M St StatusResponse :=
  fun s => match status_result env with
           | Some status => (Val status, s)
           | None => (Exn ApiFailure, s)
           end.

Definition getJob : M St (option string) :=
  fun s => match job_result env with
           | JobInfo name => (Val name, s)
           | JobThrows => (Exn ApiFailure, s)
           end.

Definition capturing : M St bool :=
  gets (fun s : St => isCurrentlyCapturing (timelapseCapture (fst s))).

Definition startWatchdog (jobId : Z) : M St unit :=
  if watchdogTimeout cfg <=? 0 then ret tt else
  modify (onMonitor
            (setWatchdogExpiry (Some (now_arm env + watchdogTimeout cfg * 1000)))).

Definition resetWatchdog : M St unit :=
  c <- capturing ;;
  if (watchdogTimeout cfg <=? 0) || negb c then ret tt else
  modify (onMonitor
            (setWatchdogExpiry (Some (now_arm env + watchdogTimeout cfg * 1000)))).

Definition clearWatchdog : M St unit :=
  modify (onMonitor (setWatchdogExpiry None)).

Definition stopTimelapseCapture : M St unit :=
  tryCatch (liftC (stopCapture env)) (fun error => throw error).

(** [jobId ? `_job${jobId}` : ""] *)
Definition jobSuffix (jobId : option Z) : string :=
  match jobId with
  | Some j => if j =? 0 then "" else ("_job" ++ Js.toString j)%string
  | None => ""
  end.

(** The file name [generateOutputPath] builds from
    [this.currentPrintFilename], the clock and the job identifier. *)
Definition outputFileName (name : option string) (jobId : option Z) : string :=
  let timestamp := timestampOf (iso_now env) in
  let fallback :=
    ("timelapse_" ++ timestamp ++ jobSuffix jobId ++ ".mp4")%string in
  match name with
  | Some n =>
      if Js.truthy n
      then ("timelapse_" ++ sanitize (stripExtension n) ++ "_"
            ++ timestamp ++ ".mp4")%string
      else fallback
  | None => fallback
  end.

(** [generateOutputPath(jobId)]; the directory the name is resolved
    against is [outputDirectory cfg]. *)
Definition generateOutputPath (jobId : option Z) : M St string :=
  name <- gets (fun s : St => currentPrintFilename (fst s)) ;;
  ret (outputFileName name jobId).

(** [sendNotification] catches its own failures; only the call is kept. *)
Definition sendNotification (outputFile : string) : M St unit :=
  modify (fun s : St => (fst s, emit [ENotify (outputDirectory cfg) outputFile] (snd s))).

Definition handlePrintStarted (jobId : Z) (shouldResume : bool) : M St unit :=
  c <- capturing ;;
  if c then ret tt else
  tryCatch
    (name <- getJob ;;
     match name with
     | Some n => if Js.truthy n
                 then modify (onMonitor (setCurrentPrintFilename (Some n)))
                 else ret tt
     | None => ret tt
     end ;;
     r <- gets (fun s : St => canResume (snd s)) ;;
     (if shouldResume && r then ret tt
      else if negb shouldResume then liftC (clearFrames env)
      else ret tt) ;;
     liftC (startCapture env shouldResume) ;;
     startWatchdog jobId)
    (fun _ => ret tt).

Definition handlePrintFinished (jobId : option Z) : M St unit :=
  clearWatchdog ;;
  c <- capturing ;;
  if negb c then modify (onMonitor (setCurrentPrintFilename None)) else
  tryFinally
    (tryCatch
       (stopTimelapseCapture ;;
        outputFile <- generateOutputPath jobId ;;
        liftW (assembleVideo env (outputDirectory cfg) outputFile) ;;
        liftC (clearFrames env) ;;
        sendNotification outputFile)
       (fun _ => ret tt))
    (onMonitor (setCurrentPrintFilename None)).

Definition checkWatchdog : M St unit :=
  c <- capturing ;;
  expiry <- gets (fun s : St => watchdogExpiry (fst s)) ;;
  if (watchdogTimeout cfg <=? 0) || negb c then ret tt else
  match expiry with
  | None => ret tt
  | Some deadline =>
      if now_check env >=? deadline
      then tryCatch
             (id <- gets (fun s : St => currentPrintId (fst s)) ;;
              handlePrintFinished id)
             (fun _ => ret tt)
      else ret tt
  end.

(** The [try] block of [checkStatus] once the status has been fetched. *)
Definition processStatus (status : StatusResponse) : M St unit :=
  let currentState := Some (printer_state status) in
  let currentJobId := jobIdOf status in
  previousState <- gets (fun s : St => lastPrinterState (fst s)) ;;
  first <- gets (fun s : St => isFirstCheck (fst s)) ;;
  (if first then
     modify (onMonitor (setIsFirstCheck false)) ;;
     match isPrinting currentState, currentJobId with
     | true, Some jobId =>
         r <- gets (fun s : St => canResume (snd s)) ;;
         if r then handlePrintStarted jobId true
         else handlePrintStarted jobId false
     | _, _ =>
         r <- gets (fun s : St => canResume (snd s)) ;;
         if r then liftC (clearFrames env) else ret tt
     end
   else
     match negb (isPrinting previousState) && isPrinting currentState,
           currentJobId with
     | true, Some jobId => handlePrintStarted jobId false
     | _, _ =>
         if isPrinting previousState && negb (isPrinting currentState)
         then handlePrintFinished currentJobId
         else
           (c <- capturing ;;
            if c && isPrinting currentState then resetWatchdog else ret tt)
     end) ;;
  modify (onMonitor (setLastPrinterState currentState)) ;;
  modify (onMonitor (setCurrentPrintId currentJobId)) ;;
  checkWatchdog.

Definition checkStatus : M St unit :=
  tryCatch
    (status <- getStatus ;; processStatus status)
    (fun _ => checkWatchdog).

End WithEnvironment.

End Monitor.


(** ** Derived notions used in the statements *)

Module Scenario.

Import Timelapse Monitor.

(** A world with no temp directory yet, and one holding frames 1 to 3. *)
Definition emptyWorld : World := mkWorld None [] [] [].
Definition framesWorld : World :=
  mkWorld (Some ["img_00001.jpg"; "img_00002.jpg"; "img_00003.jpg"]) [] [] [].

(** A world whose one frame is numbered 2^53. *)
Definition hugeFrameWorld : World :=
  mkWorld (Some ["img_9007199254740992.jpg"]) [] [] [].

(** An environment in which every call succeeds: the device reports
    PRINTING with job 7. *)
Definition smooth : Env :=
  mkEnv (Some (mkStatus PRINTING (Some (mkStatusJob (Some 7)))))
        (JobInfo (Some "benchy.gcode")) true (SpawnReturns true)
        ExitsInGrace true (EncoderExit (Some 0)) 1000 1001
        "2024-01-02T03:04:05.678Z" (fun _ => true) 120000.

Definition withStatus (v : option StatusResponse) (e : Env) : Env :=
  mkEnv v (job_result e) (mkdir_temp_ok e) (spawn_outcome e) (stop_outcome e)
        (mkdir_out_ok e) (encoder_outcome e) (now_arm e) (now_check e) (iso_now e)
        (unlink_ok e) (max_arguments e).
Definition withSpawn (v : SpawnOutcome) (e : Env) : Env :=
  mkEnv (status_result e) (job_result e) (mkdir_temp_ok e) v (stop_outcome e)
        (mkdir_out_ok e) (encoder_outcome e) (now_arm e) (now_check e) (iso_now e)
        (unlink_ok e) (max_arguments e).
Definition withStop (v : StopOutcome) (e : Env) : Env :=
  mkEnv (status_result e) (job_result e) (mkdir_temp_ok e) (spawn_outcome e) v
        (mkdir_out_ok e) (encoder_outcome e) (now_arm e) (now_check e) (iso_now e)
        (unlink_ok e) (max_arguments e).
Definition withMkdirOut (v : bool) (e : Env) : Env :=
  mkEnv (status_result e) (job_result e) (mkdir_temp_ok e) (spawn_outcome e)
        (stop_outcome e) v (encoder_outcome e) (now_arm e) (now_check e) (iso_now e)
        (unlink_ok e) (max_arguments e).
Definition withNowCheck (v : Z) (e : Env) : Env :=
  mkEnv (status_result e) (job_result e) (mkdir_temp_ok e) (spawn_outcome e)
        (stop_outcome e) (mkdir_out_ok e) (encoder_outcome e) (now_arm e) v (iso_now e)
        (unlink_ok e) (max_arguments e).

Definition withJob (v : JobOutcome) (e : Env) : Env :=
  mkEnv (status_result e) v (mkdir_temp_ok e) (spawn_outcome e) (stop_outcome e)
        (mkdir_out_ok e) (encoder_outcome e) (now_arm e) (now_check e) (iso_now e)
        (unlink_ok e) (max_arguments e).
Definition withUnlink (v : string -> bool) (e : Env) : Env :=
  mkEnv (status_result e) (job_result e) (mkdir_temp_ok e) (spawn_outcome e)
        (stop_outcome e) (mkdir_out_ok e) (encoder_outcome e) (now_arm e)
        (now_check e) (iso_now e) v (max_arguments e).

(** An environment in which frame 2 cannot be unlinked. *)
Definition stuck : Env :=
  withUnlink (fun f => negb (String.eqb f "img_00002.jpg")) smooth.

Definition newCapture : TimelapseCapture := mkCapture None false.

(** A watchdog of 60 seconds. *)
Definition cfg60 : Config := mkConfig 60 "/out".

Definition status7 : StatusResponse :=
  mkStatus PRINTING (Some (mkStatusJob (Some 7))).

(** The device reports PRINTING with job id 0. *)
Definition statusJobZero : StatusResponse :=
  mkStatus PRINTING (Some (mkStatusJob (Some 0))).

(** The device reports PRINTING and no job at all. *)
Definition statusNoJob : StatusResponse := mkStatus PRINTING None.

(** The status fetch fails, 70 seconds into the capture. *)
Definition outage : Env := withNowCheck 70000 (withStatus None smooth).

(** The monitor after a first poll that resumed a capture. *)
Definition resumed : Monitor.St :=
  snd (checkStatus cfg60 smooth (newMonitor, framesWorld)).

(** The capture subprocess has written these frame files. *)
Definition writeFrames (files : list string) (s : Monitor.St) : Monitor.St :=
  (fst s,
   setTempDir (Some (match tempDir (snd s) with
                     | Some old => old ++ files
                     | None => files
                     end)) (snd s)).

(** The device reports [state] with job 9, at time [now]. *)
Definition report (state : PrinterState) (now : Z) : Env :=
  mkEnv (Some (mkStatus state (Some (mkStatusJob (Some 9)))))
        (JobInfo (Some "benchy.gcode")) true (SpawnReturns true)
        ExitsInGrace true (EncoderExit (Some 0)) now now
        "2024-01-02T03:04:05.678Z" (fun _ => true) 120000.

(** An idle monitor past its first poll. *)
Definition idle : Monitor.St :=
  (setIsFirstCheck false newMonitor, framesWorld).




(** The manager in the middle of a capture. *)
Definition midCapture : Timelapse.St :=
  snd (startCapture smooth true (newCapture, framesWorld)).

End Scenario.

(** The names in the temp directory, none when it is missing. *)
Definition dirFiles (w : World) : list string :=
  match tempDir w with
  | Some files => files
  | None => []
  end.

(** A frame file, by its name: [img_], anything, [.jpg]. *)
Definition frameFileName (f : string) : Prop :=
  exists body, f = ("img_" ++ body ++ ".jpg")%string.

(** The frame file numbered [n]: [img_], the decimal digits of [n] after
    any number of zeros, [.jpg]. *)
Definition numbered (f : string) (n : Z) : Prop :=
  0 <= n
  /\ exists zeros,
       f = ("img_" ++ string_of_list_ascii (repeat "0"%char zeros)
            ++ NilZero.string_of_int (Z.to_int n) ++ ".jpg")%string.

Fixpoint takeWhile {A} (p : A -> bool) (l : list A) : list A :=
  match l with
  | x :: t => if p x then x :: takeWhile p t else []
  | [] => []
  end.

Fixpoint dropWhile {A} (p : A -> bool) (l : list A) : list A :=
  match l with
  | x :: t => if p x then dropWhile p t else l
  | [] => []
  end.

(** What an attempt to clear the temp directory does to the frame files:
    those before the first one that cannot be unlinked are unlinked, that
    one and those after it are kept. *)
Definition unlinkedFrames (env : Env) (w : World) : list string :=
  takeWhile (unlink_ok env) (Timelapse.frameFiles w).
Definition keptFrames (env : Env) (w : World) : list string :=
  dropWhile (unlink_ok env) (Timelapse.frameFiles w).

(** The [unlinkSync] calls of the attempt, in order; the last one is the
    call that threw, if one did. *)
Definition clearingEvents (env : Env) (w : World) : list Event :=
  map EUnlink (unlinkedFrames env w)
  ++ match keptFrames env w with
     | f :: _ => [EUnlinkFailed f]
     | [] => []
     end.


(** The number of capture subprocesses a trace has asked for. *)
Fixpoint spawnCount (t : list Event) : nat :=
  match t with
  | ESpawnCapture _ :: r => S (spawnCount r)
  | _ :: r => spawnCount r
  | [] => O
  end.

(** A computation that never throws. *)
Definition noThrow {S A} (m : M S A) : Prop :=
  forall s, exists a, fst (m s) = Val a.

(** A computation whose final state is always related to its initial one. *)
Definition preserves {S A} (R : S -> S -> Prop) (m : M S A) : Prop :=
  forall s, R s (snd (m s)).

(** No capture subprocess was asked for or created between two states. *)
Definition capturingOf (s : Monitor.St) : bool :=
  Timelapse.isCapturing (Monitor.timelapseCapture (fst s)).

Definition noSpawn (s s' : Monitor.St) : Prop :=
  spawnCount (trace (snd s')) = spawnCount (trace (snd s))
  /\ List.length (procs (snd s')) = List.length (procs (snd s))
  /\ (capturingOf s' = true -> capturingOf s = true).

(** The monitor's record of the last poll is the same in two states. *)
Definition sameObservation (s s' : Monitor.St) : Prop :=
  Monitor.lastPrinterState (fst s') = Monitor.lastPrinterState (fst s)
  /\ Monitor.currentPrintId (fst s') = Monitor.currentPrintId (fst s).

(** The frame files are the same in two states, and none was unlinked. *)
Definition framesKept (s s' : Monitor.St) : Prop :=
  tempDir (snd s') = tempDir (snd s)
  /\ exists es, trace (snd s') = trace (snd s) ++ es
                /\ forall f, ~ In (EUnlink f) es.

(** The watchdog deadline is the same in two states. *)
Definition expiryKept (s s' : Monitor.St) : Prop :=
  Monitor.watchdogExpiry (fst s') = Monitor.watchdogExpiry (fst s).

(** The stop and assemble steps of the completion sequence succeed in
    this environment: [kill] does not throw, the output directory can be
    created, there is a frame, and the encoder exits with code 0. *)
Definition completes (env : Env) (w : World) : bool :=
  match stop_outcome env, encoder_outcome env with
  | (ExitsInGrace | GraceElapses), EncoderExit (Some 0) =>
      mkdir_out_ok env && negb (Timelapse.getCapturedFrameCount w =? 0)
  | _, _ => false
  end.


(** ** More of [src/timelapse/index.ts]: frame information *)

Module TimelapseInfo.

Import Timelapse.

(** The order [Array.prototype.sort] uses by default on strings: code
    unit by code unit, a proper prefix first. *)
Definition strLe (a b : string) : bool :=
  match String_as_OT.compare a b with
  | Gt => false
  | _ => true
  end.

Fixpoint insertSorted (x : string) (l : list string) : list string :=
  match l with
  | [] => [x]
  | y :: t => if strLe x y then x :: l else y :: insertSorted x t
  end.

(** [files.sort()] *)
Definition sort (l : list string) : list string :=
  fold_right insertSorted [] l.

(** The value of [getFrameInfo()]: [{ count, lastFrame }]. *)
Record FrameInfo := mkFrameInfo {
  count : Z;
  lastFrame : option string
}.

Definition getFrameInfo (w : World) : FrameInfo :=
  match tempDir w with
  | Some files =>
      let jpgFiles := filter isFrame files in
      match jpgFiles with
      | [] => mkFrameInfo 0 None
      | _ :: _ =>
          let sorted := sort jpgFiles in
          mkFrameInfo (Z.of_nat (List.length jpgFiles))
                      (Some (last sorted ""))
      end
  | None => mkFrameInfo 0 None
  end.

End TimelapseInfo.

(** ** Ticks of the poll loop *)

Module Ticks.

Import Timelapse Monitor.

(** A sequence of poll ticks that do not overlap, each with its own
    answers from the environment: every tick, and the completion a firing
    watchdog sets off in it, has settled before the next tick begins.
    What ticks do that [setInterval] starts while an earlier one is still
    awaited is not described by this function. *)
Definition runTicks (cfg : Config) (envs : list Env) (s : Monitor.St)
  : Monitor.St :=
  fold_left (fun st env => snd (checkStatus cfg env st)) envs s.

(** The one situation in which [checkStatus] calls [handlePrintStarted]
    on a monitor that is not capturing: the fetch succeeded with PRINTING
    and a job identifier, on the first poll or after a state other than
    PRINTING. *)
Definition startCondition (s : Monitor.St) (env : Env) : bool :=
  match status_result env with
  | Some st =>
      isPrinting (Some (printer_state st))
      && match jobIdOf st with Some _ => true | None => false end
      && (isFirstCheck (fst s) || negb (isPrinting (lastPrinterState (fst s))))
      && negb (capturingOf s)
  | None => false
  end.

(** The start of a capture fails in this environment: [getJob] rejects,
    the temp directory cannot be created, or [spawn] throws. *)
Definition startFails (env : Env) : bool :=
  match job_result env, spawn_outcome env with
  | JobThrows, _ => true
  | JobInfo _, SpawnThrows => true
  | JobInfo _, SpawnReturns _ => negb (mkdir_temp_ok env)
  end.

(** The device keeps reporting PRINTING, or cannot be reached. *)
Definition stillPrinting (env : Env) : bool :=
  match status_result env with
  | Some st => isPrinting (Some (printer_state st))
  | None => true
  end.

(** Once the first poll is behind, it stays behind. *)
Definition firstDone (s s' : Monitor.St) : Prop :=
  isFirstCheck (fst s) = false -> isFirstCheck (fst s') = false.

(** The transition handling of [checkStatus] when the new state is not
    PRINTING: the first-poll clearing, or the finish after PRINTING. *)
Definition inactiveTransition (cfg : Config) (env : Env) (jobId : option Z)
  : M Monitor.St unit :=
  (previousState <- gets (fun s : Monitor.St => lastPrinterState (fst s)) ;;
   first <- gets (fun s : Monitor.St => isFirstCheck (fst s)) ;;
   if first then
     modify (onMonitor (setIsFirstCheck false)) ;;
     r <- gets (fun s : Monitor.St => canResume (snd s)) ;;
     if r then liftC (clearFrames env) else ret tt
   else if isPrinting previousState then handlePrintFinished cfg env jobId
   else ret tt)%m.

End Ticks.

(** ** Characters of the output file name *)

Module OutputName.

(** A character [sanitize] lets through: none of the nine it replaces. *)
Definition allowed (c : ascii) : bool :=
  negb (Js.charIn [60; 62; 58; 34; 47; 92; 124; 63; 42]%nat c).

(** A character of [Date.prototype.toISOString()]: a digit, or one of
    [-], [:], [.], [T], [Z], [+]. *)
Definition isoChar (c : ascii) : bool :=
  Js.isDigit c || Js.charIn [45; 58; 46; 84; 90; 43]%nat c.

(** Neither a dot nor a slash: what the extension pattern of
    [generateOutputPath] accepts after the last dot. *)
Definition extChar (c : ascii) : bool :=
  negb (Js.charIn [47; 46]%nat c).

End OutputName.

(** ** [startMonitoring] and [stopMonitoring], and the shutdown handler
       of [src/index.ts] *)

Module Service.

Import Timelapse Monitor.

(** [PrintMonitor] with the two fields the poll tick does not touch. *)
Record Service := mkService {
  isMonitoring : bool;
  monitoringInterval : option Z;   (* the period of the interval timer, ms *)
  core : PrintMonitor
}.

Definition St : Type := Service * World.

(** How a call ends: normally, with [MonitorError], or with an error
    passed on from below. *)
Inductive Outcome :=
| Done
| MonitorError
| Thrown (e : Err).

Definition startMonitoring (cfg : Config) (pollInterval : Z) (env : Env)
  (s : St) : Outcome * St :=
  if isMonitoring (fst s) then (MonitorError, s) else
  let sv := mkService true (monitoringInterval (fst s)) (core (fst s)) in
  match checkStatus cfg env (core sv, snd s) with
  | (Val _, (m, w)) =>
      (Done, (mkService true (Some (pollInterval * 1000)) m, w))
  | (Exn e, (m, w)) =>
      (Thrown e, (mkService true (monitoringInterval sv) m, w))
  end.




End Service.

(** ** [validateConfig] and [loadConfig] of [src/config] *)

Module ConfigFile.

(** The values [JSON.parse] produces.  A number is its exact value; the
    infinity an overflowing literal parses to is truthy and above zero,
    like any positive number. *)
Local Unset Elimination Schemes.
Inductive Json :=
| JNull
| JBool (b : bool)
| JNum (q : Q)
| JStr (s : string)
| JArr (items : list Json)
| JObj (fields : list (string * Json)).
Local Set Elimination Schemes.

Fixpoint lookup (k : string) (fields : list (string * Json)) : option Json :=
  match fields with
  | [] => None
  | (k', v) :: rest => if String.eqb k k' then Some v else lookup k rest
  end.

(** [v.k] for the keys the validator reads, none of which is a property
    of a string, a number, a boolean or an array; [None] is [undefined]. *)
Definition prop (v : option Json) (k : string) : option Json :=
  match v with
  | Some (JObj fields) => lookup k fields
  | _ => None
  end.

(** JavaScript truthiness. *)
Definition truthy (v : option Json) : bool :=
  match v with
  | None | Some JNull => false
  | Some (JBool b) => b
  | Some (JNum q) => negb (Qeq_bool q 0)
  | Some (JStr s) => negb (String.eqb s "")
  | Some (JArr _) | Some (JObj _) => true
  end.

(** [typeof v === "string"], [typeof v === "number"] *)
Definition isString (v : option Json) : bool :=
  match v with Some (JStr _) => true | _ => false end.
Definition isNumber (v : option Json) : bool :=
  match v with Some (JNum _) => true | _ => false end.

(** [v <= 0] for a value known to be a number. *)
Definition leZero (v : option Json) : bool :=
  match v with Some (JNum q) => Qle_bool q 0 | _ => false end.

(** [!v || typeof v !== "string"] *)
Definition badString (v : option Json) : bool :=
  negb (truthy v) || negb (isString v).

(** [!v || typeof v !== "number" || v <= 0] *)
Definition badNumber (v : option Json) : bool :=
  negb (truthy v) || negb (isNumber v) || leZero v.

(** What the body of [loadConfig] can throw. *)
Inductive Exc :=
| ConfigError (message : string)
| SyntaxError (message : string)
| OtherError (message : string).

Definition validateConfig (config : Json) : Exc + Json :=
  if negb (truthy (Some config)) then
    inl (ConfigError "Configuration is empty") else
  if negb (truthy (prop (Some config) "prusaLink")) then
    inl (ConfigError "Missing prusaLink configuration section") else
  let prusaLink := prop (Some config) "prusaLink" in
  if badString (prop prusaLink "host") then
    inl (ConfigError "Invalid or missing prusaLink.host") else
  if badNumber (prop prusaLink "port") then
    inl (ConfigError "Invalid or missing prusaLink.port") else
  if badString (prop prusaLink "username") then
    inl (ConfigError "Invalid or missing prusaLink.username") else
  if badString (prop prusaLink "password") then
    inl (ConfigError "Invalid or missing prusaLink.password") else
  if negb (truthy (prop (Some config) "timelapse")) then
    inl (ConfigError "Missing timelapse configuration section") else
  let timelapse := prop (Some config) "timelapse" in
  if badString (prop timelapse "rtspUrl") then
    inl (ConfigError "Invalid or missing timelapse.rtspUrl") else
  if badNumber (prop timelapse "captureInterval") then
    inl (ConfigError "Invalid or missing timelapse.captureInterval") else
  if badNumber (prop timelapse "outputFramerate") then
    inl (ConfigError "Invalid or missing timelapse.outputFramerate") else
  if badString (prop timelapse "outputDirectory") then
    inl (ConfigError "Invalid or missing timelapse.outputDirectory") else
  if badString (prop timelapse "tempDirectory") then
    inl (ConfigError "Invalid or missing timelapse.tempDirectory") else
  if negb (truthy (prop (Some config) "notification")) then
    inl (ConfigError "Missing notification configuration section") else
  let notification := prop (Some config) "notification" in
  if badString (prop notification "command") then
    inl (ConfigError "Invalid or missing notification.command") else
  if badNumber (prop (Some config) "pollInterval") then
    inl (ConfigError "Invalid or missing pollInterval") else
  inr config.

(** What reading and parsing the file gives: [readFileSync] throws,
    [JSON.parse] throws a [SyntaxError], or a value is parsed. *)
Inductive FileOutcome :=
| ReadThrows (message : string)
| ParseThrows (message : string)
| Parsed (config : Json).

(** The [try] block of [loadConfig]. *)
Definition loadBody (file : FileOutcome) : Exc + Json :=
  match file with
  | ReadThrows msg => inl (OtherError msg)
  | ParseThrows msg => inl (SyntaxError msg)
  | Parsed config => validateConfig config
  end.

Definition loadConfig (configPath : string) (file : FileOutcome)
  : Exc + Json :=
  match loadBody file with
  | inr config => inr config
  | inl (ConfigError msg) => inl (ConfigError msg)
  | inl (SyntaxError msg) =>
      inl (ConfigError ("Invalid JSON in config file: " ++ msg))
  | inl (OtherError msg) =>
      inl (ConfigError
             ("Failed to load config file '" ++ configPath ++ "': " ++ msg))
  end.

(** The fields of a configuration as the service reads them. *)
Definition textAt (v : option Json) (k : string) : option string :=
  match prop v k with Some (JStr s) => Some s | _ => None end.
Definition numberAt (v : option Json) (k : string) : option Q :=
  match prop v k with Some (JNum q) => Some q | _ => None end.

Definition nonEmptyText (v : option Json) (k : string) : Prop :=
  exists s, textAt v k = Some s /\ s <> "".
Definition positiveNumber (v : option Json) (k : string) : Prop :=
  exists q, numberAt v k = Some q /\ (0 < q)%Q.

(** Every setting the validator demands is present, of the right type,
    and non-empty or positive. *)
Definition wellFormed (config : Json) : Prop :=
  let c := Some config in
  nonEmptyText (prop c "prusaLink") "host"
  /\ positiveNumber (prop c "prusaLink") "port"
  /\ nonEmptyText (prop c "prusaLink") "username"
  /\ nonEmptyText (prop c "prusaLink") "password"
  /\ nonEmptyText (prop c "timelapse") "rtspUrl"
  /\ positiveNumber (prop c "timelapse") "captureInterval"
  /\ positiveNumber (prop c "timelapse") "outputFramerate"
  /\ nonEmptyText (prop c "timelapse") "outputDirectory"
  /\ nonEmptyText (prop c "timelapse") "tempDirectory"
  /\ nonEmptyText (prop c "notification") "command"
  /\ positiveNumber c "pollInterval".

(** The top-level keys the validator reads. *)
Definition checkedKeys : list string :=
  ["prusaLink"; "timelapse"; "notification"; "pollInterval"].

(** The verdict of the validator: the message of its error, if any. *)
Definition verdict (r : Exc + Json) : option string :=
  match r with
  | inl (ConfigError msg) | inl (SyntaxError msg) | inl (OtherError msg) =>
      Some msg
  | inr _ => None
  end.

(** The configuration of the README. *)
Definition exampleFields : list (string * Json) :=
  [("prusaLink",
    JObj [("host", JStr "192.168.1.100"); ("port", JNum (80 # 1));
          ("username", JStr "maker"); ("password", JStr "secret")]);
   ("timelapse",
    JObj [("rtspUrl", JStr "rtsp://192.168.1.100:554/live");
          ("captureInterval", JNum (30 # 1));
          ("outputFramerate", JNum (30 # 1));
          ("outputDirectory", JStr "./timelapses");
          ("tempDirectory", JStr "./temp")]);
   ("notification", JObj [("command", JStr "echo {outputPath}")]);
   ("pollInterval", JNum (10 # 1))].
Definition exampleConfig : Json := JObj exampleFields.

End ConfigFile.
(** * Properties of the capture manager *)

(** Tactic: run a monadic computation on a symbolic state. *)
Ltac run :=
  unfold bind, ret, throw, gets, modify, tryCatch, tryFinally; cbn.

Section CaptureManager.

Import Timelapse.


Lemma startCapture_guard env resume c w :
  isCapturing c = true ->
  startCapture env resume (c, w) = (Exn CaptureInProgress, (c, w)).
Proof.
  intros H. unfold startCapture. run. rewrite H. reflexivity.
Qed.

Lemma startCapture_mkdir_fails env resume c w :
  isCapturing c = false -> mkdir_temp_ok env = false ->
  startCapture env resume (c, w) = (Exn TempDirFailed, (c, w)).
Proof.
  intros H1 H2. unfold startCapture. run. rewrite H1, H2. reflexivity.
Qed.

(** What [startCapture] does once it is past its guard and the temp
    directory exists. *)
Lemma startCapture_launch env resume c w :
  isCapturing c = false -> mkdir_temp_ok env = true ->
  startCapture env resume (c, w) =
  let w0 := mkdirTemp w in
  let resuming := resume && canResume w0 in
  let w1 := if resuming then w0 else clearFramesW env w0 in
  let n := if resuming then Js.addOne (getHighestFrameNumber env w0)
           else Js.Fin 1 in
  let w2 := emit [ESpawnCapture n] w1 in
  match spawn_outcome env with
  | SpawnThrows => (Exn SpawnThrew, (c, w2))
  | SpawnReturns launched =>
      (Val tt,
       (mkCapture (Some (List.length (procs w2))) true,
        setProcs (procs w2 ++ [if launched then Running else SpawnFailed]) w2))
  end.
Proof.
  intros H1 H2. unfold startCapture, canResume, spawnCapture,
    clearTempDirectory, clearFrames, onWorld, onCapture.
  run. rewrite H1, H2. cbn.
  destruct (resume && (0 <? getCapturedFrameCount (mkdirTemp w))); cbn;
    destruct (spawn_outcome env); cbn; try rewrite H1; reflexivity.
Qed.

(** *** Numbers *)

Lemma Num_le_refl a : Js.Num_le a a.
Proof. destruct a; cbn; [lia|exact I]. Qed.

Lemma Num_le_trans a b c : Js.Num_le a b -> Js.Num_le b c -> Js.Num_le a c.
Proof. destruct a, b, c; cbn; try tauto; lia. Qed.

Lemma Num_max_l a b : Js.Num_le a (Js.Num_max a b).
Proof. destruct a, b; cbn; try exact I; lia. Qed.

Lemma Num_max_r a b : Js.Num_le b (Js.Num_max a b).
Proof. destruct a, b; cbn; try exact I; lia. Qed.

Lemma Math_max_lower xs : forall x, Js.Num_le x (Js.Math_max x xs).
Proof.
  unfold Js.Math_max. induction xs as [|y ys IH]; intros x; cbn;
    [apply Num_le_refl|].
  eapply Num_le_trans; [apply (Num_max_l x y)|apply IH].
Qed.

Lemma Math_max_upper xs : forall x y, In y xs -> Js.Num_le y (Js.Math_max x xs).
Proof.
  unfold Js.Math_max. induction xs as [|z zs IH]; intros x y Hin; cbn.
  - destruct Hin.
  - destruct Hin as [->|Hin].
    + eapply Num_le_trans; [apply (Num_max_r x y)|].
      apply (Math_max_lower zs (Js.Num_max x y)).
    + apply IH, Hin.
Qed.

Lemma roundDouble_small z : z < 2 ^ 53 -> Js.roundDouble z = Js.Fin z.
Proof.
  intros H. unfold Js.roundDouble.
  now replace (z <? 2 ^ 53) with true by (symmetry; apply Z.ltb_lt; exact H).
Qed.

(** From 2^53 on, rounding never goes below 2^53. *)
Lemma roundDouble_large z :
  2 ^ 53 <= z -> Js.Num_le (Js.Fin (2 ^ 53)) (Js.roundDouble z).
Proof.
  intros H. unfold Js.roundDouble.
  replace (z <? 2 ^ 53) with false by (symmetry; apply Z.ltb_ge; exact H).
  cbv zeta.
  set (e := Z.log2 z - 52).
  set (q := Z.shiftr z e).
  match goal with
  | |- context [Z.shiftl ?Q e <? 2 ^ 1024] => set (q' := Q)
  end.
  assert (Hz : 0 < z) by (pose proof (Z.pow_pos_nonneg 2 53); lia).
  assert (Hlog : 53 <= Z.log2 z).
  { apply Z.log2_le_pow2; [exact Hz|exact H]. }
  assert (He : 0 <= e) by (subst e; lia).
  destruct (Z.log2_spec z Hz) as [Hlo _].
  assert (Hq : 2 ^ 52 <= q).
  { subst q. rewrite Z.shiftr_div_pow2 by exact He.
    apply Z.div_le_lower_bound; [apply Z.pow_pos_nonneg; lia|].
    rewrite <- Z.pow_add_r by lia.
    replace (e + 52) with (Z.log2 z) by (subst e; lia). exact Hlo. }
  assert (Hq' : q <= q').
  { subst q'. destruct (_ <? _); [lia|].
    destruct (_ <? _); [lia|]. destruct (Z.even q); lia. }
  assert (Hv : 2 ^ 53 <= Z.shiftl q' e).
  { rewrite Z.shiftl_mul_pow2 by exact He.
    assert (Hp : 0 < 2 ^ e) by (apply Z.pow_pos_nonneg; lia).
    assert (H1 : 2 ^ 52 * 2 ^ e <= q' * 2 ^ e) by nia.
    assert (H2 : 2 ^ 53 <= 2 ^ 52 * 2 ^ e).
    { rewrite <- Z.pow_add_r by lia. apply Z.pow_le_mono_r; subst e; lia. }
    lia. }
  destruct (Z.shiftl q' e <? 2 ^ 1024); cbn; [exact Hv|exact I].
Qed.

(** Adding one to a number that is at least [n] gives more than [n],
    as long as [n] is below 2^53. *)
Lemma addOne_above n h :
  n < 2 ^ 53 -> Js.Num_le (Js.Fin n) h -> Js.Num_lt (Js.Fin n) (Js.addOne h).
Proof.
  intros Hn Hle. destruct h as [h|]; [|exact I]. cbn in Hle.
  unfold Js.addOne. destruct (Z.lt_ge_cases (h + 1) (2 ^ 53)) as [Hs|Hl].
  - rewrite roundDouble_small by exact Hs. cbn. lia.
  - pose proof (roundDouble_large (h + 1) Hl) as Hr.
    destruct (Js.roundDouble (h + 1)); cbn in *; [lia|exact I].
Qed.

Lemma highest_bounds_frames env w f :
  (max_arguments env <? getCapturedFrameCount w) = false ->
  In f (frameFiles w) ->
  Js.Num_le (frameNumber f) (getHighestFrameNumber env w).
Proof.
  unfold getHighestFrameNumber, getCapturedFrameCount. intros Hmax Hin.
  apply (in_map frameNumber) in Hin.
  rewrite <- (length_map frameNumber) in Hmax.
  destruct (map frameNumber (frameFiles w)) as [|x xs]; [destruct Hin|].
  rewrite Hmax.
  destruct Hin as [<-|Hin].
  - apply Math_max_lower.
  - apply Math_max_upper, Hin.
Qed.

Lemma highest_overflow env w :
  (max_arguments env <? getCapturedFrameCount w) = true ->
  getHighestFrameNumber env w = Js.Fin 0.
Proof.
  unfold getHighestFrameNumber, getCapturedFrameCount. intros Hmax.
  rewrite <- (length_map frameNumber) in Hmax.
  destruct (map frameNumber (frameFiles w)) as [|x xs]; [reflexivity|].
  now rewrite Hmax.
Qed.

(** *** Frame names *)

Lemma string_length_app a b :
  String.length (a ++ b) = (String.length a + String.length b)%nat.
Proof. induction a as [|c a IH]; cbn; [reflexivity|now rewrite IH]. Qed.

Lemma substring_all b : String.substring 0 (String.length b) b = b.
Proof. induction b as [|c b IH]; cbn; [reflexivity|now rewrite IH]. Qed.

Lemma substring_app_right a b :
  String.substring (String.length a) (String.length b) (a ++ b) = b.
Proof. induction a as [|c a IH]; cbn; [apply substring_all|exact IH]. Qed.

Lemma endsWith_app a b : Js.endsWith (a ++ b) b = true.
Proof.
  unfold Js.endsWith. rewrite string_length_app.
  replace (String.length a + String.length b - String.length b)%nat
    with (String.length a) by lia.
  rewrite substring_app_right, String.eqb_refl, andb_true_r.
  apply Nat.leb_le. lia.
Qed.

Lemma substring_split s : forall k,
  (k <= String.length s)%nat ->
  s = (String.substring 0 k s
       ++ String.substring k (String.length s - k) s)%string.
Proof.
  induction s as [|c s IH]; intros [|k] Hk; cbn in *; try reflexivity;
    try lia.
  - now rewrite substring_all.
  - f_equal. apply IH. lia.
Qed.

Lemma endsWith_split s p :
  Js.endsWith s p = true -> exists a, s = (a ++ p)%string.
Proof.
  unfold Js.endsWith. intros H. apply andb_prop in H as [Hlen Heq].
  apply Nat.leb_le in Hlen. apply String.eqb_eq in Heq.
  exists (String.substring 0 (String.length s - String.length p) s).
  rewrite (substring_split s (String.length s - String.length p)) at 1 by lia.
  f_equal. rewrite <- Heq at 3. f_equal. lia.
Qed.

Lemma append_assoc_string (a b c : string) :
  ((a ++ b) ++ c)%string = (a ++ (b ++ c))%string.
Proof. induction a as [|x a IH]; cbn; [reflexivity|now rewrite IH]. Qed.

Lemma allChars_app p a b :
  Js.allChars p (a ++ b) = Js.allChars p a && Js.allChars p b.
Proof.
  induction a as [|c a IH]; cbn; [reflexivity|].
  now rewrite IH, andb_assoc.
Qed.

Lemma startsWith_img d : Js.startsWith ("img_" ++ d) "img_" = true.
Proof. unfold Js.startsWith. cbn. now destruct d. Qed.

Lemma prefix_split p : forall s,
  String.prefix p s = true -> exists r, s = (p ++ r)%string.
Proof.
  induction p as [|c p IH]; intros s H; [now exists s|].
  destruct s as [|c' s]; cbn [String.prefix] in H; [discriminate|].
  destruct (ascii_dec c c') as [<-|]; [|discriminate].
  destruct (IH s H) as [r ->]. now exists r.
Qed.

(** The frame filter accepts exactly the names [img_], anything,
    [.jpg]. *)
Lemma isFrame_spec f : isFrame f = true <-> frameFileName f.
Proof.
  unfold isFrame, frameFileName. split.
  - intros H. apply andb_prop in H as [Hs He].
    destruct (endsWith_split _ _ He) as [a ->].
    destruct (prefix_split _ _ Hs) as [r Hr].
    destruct a as [|c1 [|c2 [|c3 [|c4 a]]]]; cbn in Hr; try discriminate.
    injection Hr as -> -> -> -> _. now exists a.
  - intros [body ->]. apply andb_true_intro. split; [apply startsWith_img|].
    change ("img_" ++ body ++ ".jpg")%string
      with (("img_" ++ body) ++ ".jpg")%string.
    apply endsWith_app.
Qed.

Lemma frameFiles_spec w f :
  In f (frameFiles w) <-> In f (dirFiles w) /\ frameFileName f.
Proof.
  unfold frameFiles, dirFiles. destruct (tempDir w) as [files|].
  - rewrite filter_In, isFrame_spec. tauto.
  - cbn. tauto.
Qed.

Lemma canResume_spec w :
  canResume w = true <-> exists f, In f (dirFiles w) /\ frameFileName f.
Proof.
  unfold canResume, getCapturedFrameCount. split.
  - intros H. destruct (frameFiles w) as [|f fs] eqn:E; [discriminate|].
    exists f. apply frameFiles_spec. rewrite E. now left.
  - intros [f Hf]. apply frameFiles_spec in Hf.
    destruct (frameFiles w); [destruct Hf|]. apply Z.ltb_lt. cbn. lia.
Qed.

Lemma spanDigits_run d :
  Js.allChars Js.isDigit d = true ->
  Js.spanDigits (d ++ ".jpg") = (d, ".jpg").
Proof.
  intros Hd. induction d as [|c d IH]; cbn in *; [reflexivity|].
  apply andb_prop in Hd as [Hc Hd]. rewrite Hc, (IH Hd). reflexivity.
Qed.

Lemma parseDigits_nonneg d : forall acc, 0 <= acc ->
  Js.allChars Js.isDigit d = true -> 0 <= Js.parseDigits acc d.
Proof.
  induction d as [|c d IH]; intros acc Hacc Hd;
    cbn [Js.parseDigits Js.allChars] in *; [exact Hacc|].
  apply andb_prop in Hd as [Hc Hd]. apply IH; [|exact Hd].
  unfold Js.isDigit in Hc. cbv zeta in Hc. apply andb_prop in Hc as [H1 H2].
  apply Nat.leb_le in H1. lia.
Qed.

(** A name [img_], digits, [.jpg] is a frame file, and the number read
    off it is [parseInt] of the digits. *)
Lemma digits_name d :
  Js.allChars Js.isDigit d = true ->
  Js.truthy d = true ->
  isFrame ("img_" ++ d ++ ".jpg") = true
  /\ frameNumber ("img_" ++ d ++ ".jpg") = Js.parseInt d
  /\ 0 <= Js.parseDigits 0 d.
Proof.
  intros Hd Hne. split; [|split].
  - apply isFrame_spec. now exists d.
  - unfold frameNumber.
    assert (E : matchFrame ("img_" ++ d ++ ".jpg") = Some d).
    { cbn [append matchFrame]. unfold matchHere.
      change (String "i" (String "m" (String "g" (String "_" (d ++ ".jpg")))))
        with ("img_" ++ (d ++ ".jpg"))%string.
      rewrite startsWith_img.
      cbn [append Js.dropChars]. rewrite spanDigits_run by exact Hd.
      rewrite Hne. reflexivity. }
    now rewrite E.
  - apply parseDigits_nonneg; [lia|exact Hd].
Qed.

Lemma parseDigits_zeros k d :
  Js.parseDigits 0 (string_of_list_ascii (repeat "0"%char k) ++ d)
  = Js.parseDigits 0 d.
Proof. induction k as [|k IH]; cbn; [reflexivity|exact IH]. Qed.

Lemma zeros_digits k :
  Js.allChars Js.isDigit (string_of_list_ascii (repeat "0"%char k)) = true.
Proof. induction k; cbn; auto. Qed.

Lemma uint_digits u :
  Js.allChars Js.isDigit (NilEmpty.string_of_uint u) = true.
Proof. induction u; cbn; auto. Qed.

Lemma parse_uint_acc u : forall acc,
  Js.parseDigits (Z.pos acc) (NilEmpty.string_of_uint u)
  = Z.pos (Pos.of_uint_acc u acc).
Proof.
  induction u; intros acc; cbn [NilEmpty.string_of_uint Js.parseDigits
                                 Pos.of_uint_acc]; try reflexivity;
    match goal with
    | |- Js.parseDigits ?a _ = Z.pos (Pos.of_uint_acc _ ?b) =>
        replace a with (Z.pos b)
          by (match goal with
              | |- context [Z.of_nat ?x] =>
                  let v := eval vm_compute in (Z.of_nat x) in
                  change (Z.of_nat x) with v
              end; lia)
    end; apply IHu.
Qed.

Lemma parse_uint u :
  Js.parseDigits 0 (NilEmpty.string_of_uint u) = Z.of_N (Pos.of_uint u).
Proof.
  induction u; cbn [NilEmpty.string_of_uint Js.parseDigits Pos.of_uint];
    try reflexivity;
    try exact IHu;
    match goal with
    | |- Js.parseDigits ?a _ = Z.of_N (N.pos (Pos.of_uint_acc _ ?b)) =>
        change a with (Z.pos b)
    end; apply parse_uint_acc.
Qed.

(** The decimal digits of [n >= 0] denote [n]. *)
Lemma decimal_digits n :
  0 <= n ->
  let d := NilZero.string_of_int (Z.to_int n) in
  Js.allChars Js.isDigit d = true
  /\ Js.truthy d = true
  /\ Js.parseDigits 0 d = n.
Proof.
  intros Hn. cbv zeta.
  destruct n as [|p|p]; [repeat split| |lia].
  cbn [Z.to_int NilZero.string_of_int].
  assert (E : NilZero.string_of_uint (Pos.to_uint p)
              = NilEmpty.string_of_uint (Pos.to_uint p)
              \/ Pos.to_uint p = Decimal.Nil).
  { destruct (Pos.to_uint p); auto. }
  destruct E as [E|E].
  - rewrite E. split; [apply uint_digits|]. split.
    + rewrite <- E. now destruct (Pos.to_uint p).
    + rewrite parse_uint, DecimalPos.Unsigned.of_to. reflexivity.
  - pose proof (DecimalPos.Unsigned.of_to p) as H. rewrite E in H.
    discriminate.
Qed.

(** The frame file numbered [n] passes the filter, and the number read
    off it is the double nearest to [n]. *)
Lemma numbered_reads f n :
  numbered f n ->
  frameFileName f /\ frameNumber f = Js.roundDouble n.
Proof.
  intros [Hn [k ->]].
  destruct (decimal_digits n Hn) as [H1 [H2 H3]]. cbv zeta in H1, H2, H3.
  set (d := NilZero.string_of_int (Z.to_int n)) in *.
  assert (E0 : ("img_" ++ string_of_list_ascii (repeat "0"%char k)
                ++ d ++ ".jpg")%string
               = ("img_" ++ (string_of_list_ascii (repeat "0"%char k) ++ d)
                  ++ ".jpg")%string)
    by now rewrite append_assoc_string.
  rewrite E0. split; [now eexists|].
  destruct (digits_name (string_of_list_ascii (repeat "0"%char k) ++ d))
    as [_ [E _]].
  - now rewrite allChars_app, zeros_digits, H1.
  - destruct k; [exact H2|reflexivity].
  - rewrite E. unfold Js.parseInt. now rewrite parseDigits_zeros, H3.
Qed.

(** *** Clearing the temp directory *)

Lemma canResume_dir w :
  canResume w = true -> mkdirTemp w = w.
Proof.
  unfold canResume, getCapturedFrameCount, frameFiles, mkdirTemp.
  destruct (tempDir w) eqn:E; [reflexivity|]. cbn. discriminate.
Qed.

Lemma canResume_mkdirTemp w : canResume (mkdirTemp w) = canResume w.
Proof.
  unfold canResume, getCapturedFrameCount, frameFiles, mkdirTemp.
  destruct (tempDir w) eqn:E; cbn; rewrite ?E; reflexivity.
Qed.

Lemma frameFiles_mkdirTemp w : frameFiles (mkdirTemp w) = frameFiles w.
Proof.
  unfold frameFiles, mkdirTemp.
  destruct (tempDir w) eqn:E; cbn; rewrite ?E; reflexivity.
Qed.

Lemma frameFiles_tempDir w w' :
  tempDir w = tempDir w' -> frameFiles w = frameFiles w'.
Proof. unfold frameFiles. now intros ->. Qed.

(** The loop of [clearFrames] issues the calls of [clearingEvents] and
    leaves the frames from the first failure on, and every other file. *)
Lemma unlinkFrames_spec ok files :
  fst (unlinkFrames ok files)
  = map EUnlink (takeWhile ok (filter isFrame files))
    ++ match dropWhile ok (filter isFrame files) with
       | f :: _ => [EUnlinkFailed f]
       | [] => []
       end
  /\ filter isFrame (snd (unlinkFrames ok files))
     = dropWhile ok (filter isFrame files)
  /\ filter (fun f => negb (isFrame f)) (snd (unlinkFrames ok files))
     = filter (fun f => negb (isFrame f)) files.
Proof.
  induction files as [|f rest [IH1 [IH2 IH3]]]; cbn; [auto|].
  destruct (isFrame f) eqn:Ef; cbn.
  - destruct (ok f) eqn:Eo; cbn.
    + destruct (unlinkFrames ok rest) as [es left]. cbn in *.
      rewrite IH1. auto.
    + rewrite Ef. cbn. auto.
  - destruct (unlinkFrames ok rest) as [es left]. cbn in *.
    rewrite Ef. cbn. rewrite IH3. auto.
Qed.

Lemma clearFramesW_trace_any env w :
  trace (clearFramesW env w) = trace w ++ clearingEvents env w.
Proof.
  unfold clearFramesW, clearingEvents, unlinkedFrames, keptFrames, frameFiles.
  destruct (tempDir w) as [files|] eqn:E; cbn; [|now rewrite app_nil_r].
  destruct (unlinkFrames_spec (unlink_ok env) files) as [H _].
  destruct (unlinkFrames (unlink_ok env) files) as [es left]. cbn in *.
  now rewrite H.
Qed.

Lemma clearFramesW_frames env w :
  frameFiles (clearFramesW env w) = keptFrames env w.
Proof.
  unfold clearFramesW, keptFrames, frameFiles.
  destruct (tempDir w) as [files|] eqn:E; cbn; [|now rewrite E].
  destruct (unlinkFrames_spec (unlink_ok env) files) as [_ [H _]].
  destruct (unlinkFrames (unlink_ok env) files) as [es left]. cbn in *.
  exact H.
Qed.

Lemma clearFramesW_trace env w :
  trace (clearFramesW env (mkdirTemp w)) = trace w ++ clearingEvents env w.
Proof.
  rewrite clearFramesW_trace_any.
  unfold clearingEvents, unlinkedFrames, keptFrames.
  rewrite frameFiles_mkdirTemp.
  unfold mkdirTemp. now destruct (tempDir w).
Qed.

Lemma takeWhile_dropWhile {A} (p : A -> bool) l :
  takeWhile p (dropWhile p l) = [].
Proof.
  induction l as [|x t IH]; cbn; [reflexivity|].
  destruct (p x) eqn:E; [exact IH|]. cbn. now rewrite E.
Qed.

Lemma dropWhile_twice {A} (p : A -> bool) l :
  dropWhile p (dropWhile p l) = dropWhile p l.
Proof.
  induction l as [|x t IH]; cbn; [reflexivity|].
  destruct (p x) eqn:E; [exact IH|]. cbn. now rewrite E.
Qed.

Lemma takeWhile_all {A} (p : A -> bool) l :
  forallb p l = true -> takeWhile p l = l /\ dropWhile p l = [].
Proof.
  induction l as [|x t IH]; cbn; [auto|].
  intros H. apply andb_prop in H as [Hx Ht]. rewrite Hx.
  destruct (IH Ht) as [-> ->]. auto.
Qed.

(** When no [unlinkSync] throws, an attempt unlinks every frame file. *)
Lemma clearing_succeeds env w :
  forallb (unlink_ok env) (frameFiles w) = true ->
  clearingEvents env w = map EUnlink (frameFiles w)
  /\ keptFrames env w = [].
Proof.
  intros H. unfold clearingEvents, unlinkedFrames, keptFrames.
  destruct (takeWhile_all _ _ H) as [-> ->]. now rewrite app_nil_r.
Qed.

(** C2, as amended. [startCapture(resumeIfPossible)] either launches
    nothing (it is already capturing, or the temp directory cannot be
    created) and then touches nothing; or, when resuming is asked for and
    a file [img_*.jpg] exists, it deletes nothing and launches the
    subprocess with start number [getHighestFrameNumber() + 1]; or else it
    attempts the clearing, which unlinks the frame files in directory
    order up to the first that cannot be unlinked, and launches with
    start number 1. The start number of a resume is above the number of
    every frame file numbered below 2^53, unless there are more frame
    files than a call takes arguments: then [getHighestFrameNumber()] is
    0. The frame files are the files named [img_*.jpg], and the number
    read off the file numbered [n] is the double nearest to [n]. *)
Theorem startCapture_resume_or_fresh env resume c w :
  let s' := snd (startCapture env resume (c, w)) in
  (forall f, In f (frameFiles w) <-> In f (dirFiles w) /\ frameFileName f)
  /\ (canResume w = true <-> exists f, In f (dirFiles w) /\ frameFileName f)
  /\ (forall f n, numbered f n ->
                  frameFileName f /\ frameNumber f = Js.roundDouble n)
  /\ if isCapturing c || negb (mkdir_temp_ok env) then s' = (c, w)
     else if resume && canResume w then
       trace (snd s')
       = trace w ++ [ESpawnCapture (Js.addOne (getHighestFrameNumber env w))]
       /\ tempDir (snd s') = tempDir w
       /\ if max_arguments env <? getCapturedFrameCount w
          then getHighestFrameNumber env w = Js.Fin 0
          else forall f n,
                 In f (dirFiles w) -> numbered f n -> n < 2 ^ 53 ->
                 Js.Num_lt (Js.Fin n)
                           (Js.addOne (getHighestFrameNumber env w))
     else
       trace (snd s')
       = trace w ++ clearingEvents env w ++ [ESpawnCapture (Js.Fin 1)]
       /\ frameFiles (snd s') = keptFrames env w.
Proof.
  cbv zeta. split; [apply frameFiles_spec|].
  split; [apply canResume_spec|]. split; [apply numbered_reads|].
  destruct (isCapturing c) eqn:Hc; cbn [orb negb].
  { now rewrite startCapture_guard. }
  destruct (mkdir_temp_ok env) eqn:Hm; cbn [orb negb].
  2:{ now rewrite startCapture_mkdir_fails. }
  rewrite startCapture_launch by assumption. cbv zeta.
  rewrite canResume_mkdirTemp.
  destruct (resume && canResume w) eqn:Hr.
  - apply andb_prop in Hr as [_ Hr]. rewrite (canResume_dir w Hr).
    split; [destruct (spawn_outcome env); reflexivity|].
    split; [destruct (spawn_outcome env); reflexivity|].
    destruct (max_arguments env <? getCapturedFrameCount w) eqn:Hmax.
    + now apply highest_overflow.
    + intros f n Hin Hnum Hn.
      destruct (numbered_reads f n Hnum) as [Hname Hread].
      apply addOne_above; [exact Hn|].
      rewrite <- (roundDouble_small n Hn), <- Hread.
      apply highest_bounds_frames; [exact Hmax|].
      apply frameFiles_spec. auto.
  - split.
    + destruct (spawn_outcome env); cbn; rewrite clearFramesW_trace;
        now rewrite <- app_assoc.
    + destruct (spawn_outcome env); cbn [snd];
        rewrite (frameFiles_tempDir _ (clearFramesW env (mkdirTemp w)))
          by reflexivity;
        rewrite clearFramesW_frames; unfold keptFrames;
        now rewrite frameFiles_mkdirTemp.
Qed.

(** C2, as stated, fails. A resume over the frame numbered 2^53 is
    launched at 2^53, the number of that frame; and a fresh start in a
    directory whose second frame cannot be unlinked leaves that frame and
    the one after it, and numbers from 1. *)
Lemma resume_or_fresh_claim_fails :
  (numbered "img_9007199254740992.jpg" 9007199254740992
   /\ trace (snd (snd (startCapture Scenario.smooth true
                         (Scenario.newCapture, Scenario.hugeFrameWorld))))
      = [ESpawnCapture (Js.Fin 9007199254740992)])
  /\ (let s' := snd (startCapture Scenario.stuck false
                       (Scenario.newCapture, Scenario.framesWorld)) in
      trace (snd s')
      = [EUnlink "img_00001.jpg"; EUnlinkFailed "img_00002.jpg";
         ESpawnCapture (Js.Fin 1)]
      /\ tempDir (snd s') = Some ["img_00002.jpg"; "img_00003.jpg"]).
Proof.
  split; [split|split].
  - split; [lia|]. exists 0%nat. reflexivity.
  - reflexivity.
  - reflexivity.
  - reflexivity.
Qed.


(** *** The flag and the handle *)

Lemma setNth_length {A} (x : A) l : forall n, List.length (setNth n x l) = List.length l.
Proof.
  induction l as [|y t IH]; intros [|n]; cbn; try reflexivity.
  now rewrite IH.
Qed.

Lemma markExited_procs p w :
  List.length (procs (markExited p w)) = List.length (procs w).
Proof. apply setNth_length. Qed.

Lemma clearFramesW_procs env w : procs (clearFramesW env w) = procs w.
Proof.
  unfold clearFramesW. destruct (tempDir w) as [files|]; [|reflexivity].
  now destruct (unlinkFrames (unlink_ok env) files).
Qed.

Lemma mkdirTemp_procs w : procs (mkdirTemp w) = procs w.
Proof. unfold mkdirTemp. now destruct (tempDir w). Qed.

(** What a call of [startCapture] leaves behind, case by case. *)
Lemma startCapture_cases env resume c w :
  let s' := snd (startCapture env resume (c, w)) in
  (fst s' = c /\ procs (snd s') = procs w)
  \/ (exists st, fst s' = mkCapture (Some (List.length (procs w))) true
                 /\ procs (snd s') = procs w ++ [st]).
Proof.
  cbv zeta. destruct (isCapturing c) eqn:Hc.
  { left. now rewrite startCapture_guard. }
  destruct (mkdir_temp_ok env) eqn:Hm.
  2:{ left. now rewrite startCapture_mkdir_fails. }
  rewrite startCapture_launch by assumption. cbv zeta.
  destruct (spawn_outcome env) as [|launched];
    destruct (resume && canResume (mkdirTemp w)); cbn;
    rewrite ?clearFramesW_procs, ?mkdirTemp_procs; eauto.
Qed.

Lemma stopCapture_cases env c w :
  let s' := snd (stopCapture env (c, w)) in
  (fst s' = c \/ fst s' = mkCapture None false)
  /\ List.length (procs (snd s')) = List.length (procs w).
Proof.
  cbv zeta. unfold stopCapture, onGraceTimer. cbn.
  destruct (isCapturing c); [|cbn; auto].
  destruct (captureProcess c) as [p|] eqn:Hp; [|cbn; auto].
  destruct (stop_outcome env); cbn; rewrite ?Hp; cbn;
    rewrite ?setNth_length; auto.
Qed.

Lemma procState_new w st :
  procState (setProcs (procs w ++ [st]) w) (List.length (procs w)) = st.
Proof.
  unfold procState. cbn. rewrite app_nth2 by lia.
  now rewrite Nat.sub_diag.
Qed.










(** *** Spawn outcomes *)

(** C6, as amended. [isCapturing] becomes true exactly when the [spawn]
    call returns a handle. When [spawn] throws, [startCapture] throws and
    leaves the flag and the handle as they were. When [spawn] returns,
    also for a subprocess that could not be launched, [startCapture]
    returns normally with the flag set and the new handle stored; for
    such a subprocess it is the later 'error' event that clears the flag,
    and nothing is reported to the caller of [startCapture]. *)
Theorem startCapture_spawn_outcomes env resume c w :
  isCapturing c = false -> mkdir_temp_ok env = true ->
  let r := startCapture env resume (c, w) in
  match spawn_outcome env with
  | SpawnThrows => fst r = Exn SpawnThrew /\ fst (snd r) = c
  | SpawnReturns launched =>
      fst r = Val tt
      /\ isCapturing (fst (snd r)) = true
      /\ exists p,
          captureProcess (fst (snd r)) = Some p
          /\ procState (snd (snd r)) p
             = (if launched then Running else SpawnFailed)
          /\ isCapturing (fst (errorEvent p (snd r))) = false
  end.
Proof.
  intros Hc Hm. cbv zeta. rewrite startCapture_launch by assumption. cbv zeta.
  destruct (spawn_outcome env) as [|launched]; cbn [fst snd].
  - split; reflexivity.
  - split; [reflexivity|]. split; [reflexivity|].
    eexists. split; [reflexivity|]. split; [|reflexivity].
    apply procState_new.
Qed.

Lemma startCapture_spawn_outcomes_witness :
  (isCapturing Scenario.newCapture = false
   /\ mkdir_temp_ok Scenario.smooth = true)
  /\ let r := startCapture Scenario.smooth true
                (Scenario.newCapture, Scenario.framesWorld) in
     fst r = Val tt
     /\ isCapturing (fst (snd r)) = true
     /\ exists p,
         captureProcess (fst (snd r)) = Some p
         /\ procState (snd (snd r)) p = Running
         /\ isCapturing (fst (errorEvent p (snd r))) = false.
Proof.
  split; [split; reflexivity|].
  apply (startCapture_spawn_outcomes Scenario.smooth true
           Scenario.newCapture Scenario.framesWorld); reflexivity.
Defined.

(** C6, as stated, fails: with a subprocess that could not be launched,
    [startCapture] returns normally and leaves [isCapturing] true. *)
Lemma spawn_failure_not_reported :
  let env := Scenario.withSpawn (SpawnReturns false) Scenario.smooth in
  let r := startCapture env true (Scenario.newCapture, Scenario.framesWorld) in
  spawn_outcome env = SpawnReturns false
  /\ fst r = Val tt
  /\ isCapturing (fst (snd r)) = true
  /\ procState (snd (snd r)) 0 = SpawnFailed.
Proof. repeat split. Qed.

(** *** Stopping *)

(** C7. [stopCapture] does nothing when no capture is active. Otherwise
    it sends SIGTERM and arms a timer of 5000 ms; SIGKILL is sent only
    when that grace window elapses; and whichever of the two ended the
    wait, when [stopCapture] resolves the handle is null and
    [isCapturing] is false. *)
Theorem stopCapture_clears env c w :
  let r := stopCapture env (c, w) in
  match isCapturing c, captureProcess c with
  | true, Some p =>
      match stop_outcome env with
      | KillThrows => fst r = Exn KillThrew
      | ExitsInGrace =>
          fst r = Val tt
          /\ fst (snd r) = mkCapture None false
          /\ trace (snd (snd r))
             = trace w ++ [EKill p SIGTERM; ESetTimeout 5000]
      | GraceElapses =>
          fst r = Val tt
          /\ fst (snd r) = mkCapture None false
          /\ trace (snd (snd r))
             = trace w ++ [EKill p SIGTERM; ESetTimeout 5000; EKill p SIGKILL]
      end
  | _, _ => r = (Val tt, (c, w))
  end.
Proof.
  cbv zeta. unfold stopCapture, onGraceTimer. cbn [fst snd].
  destruct (isCapturing c); [|reflexivity].
  destruct (captureProcess c) as [p|] eqn:Hp; [|reflexivity].
  destruct (stop_outcome env); cbn; rewrite ?Hp; cbn;
    rewrite <- ?app_assoc; repeat split.
Qed.

End CaptureManager.

(** * Reasoning about monadic code *)

Section MonadRules.

Context {S : Type} (R : S -> S -> Prop).
Hypothesis R_refl : forall s, R s s.
Hypothesis R_trans : forall a b c, R a b -> R b c -> R a c.

Lemma preserves_ret {A} (a : A) : preserves R (ret a).
Proof. intros s. apply R_refl. Qed.

Lemma preserves_throw {A} e : preserves R (@throw S A e).
Proof. intros s. apply R_refl. Qed.

Lemma preserves_gets {A} (f : S -> A) : preserves R (gets f).
Proof. intros s. apply R_refl. Qed.

Lemma preserves_modify (f : S -> S) :
  (forall s, R s (f s)) -> preserves R (modify f).
Proof. intros H s. apply H. Qed.

Lemma preserves_bind {A B} (m : M S A) (k : A -> M S B) :
  preserves R m -> (forall a, preserves R (k a)) -> preserves R (bind m k).
Proof.
  intros Hm Hk s. unfold bind. specialize (Hm s).
  destruct (m s) as [[a|e] s1]; cbn in *.
  - eapply R_trans; [exact Hm|apply Hk].
  - exact Hm.
Qed.

Lemma preserves_tryCatch {A} (m : M S A) (h : Err -> M S A) :
  preserves R m -> (forall e, preserves R (h e)) -> preserves R (tryCatch m h).
Proof.
  intros Hm Hh s. unfold tryCatch. specialize (Hm s).
  destruct (m s) as [[a|e] s1]; cbn in *.
  - exact Hm.
  - eapply R_trans; [exact Hm|apply Hh].
Qed.

Lemma preserves_tryFinally {A} (m : M S A) (f : S -> S) :
  preserves R m -> (forall s, R s (f s)) -> preserves R (tryFinally m f).
Proof.
  intros Hm Hf s. unfold tryFinally. specialize (Hm s).
  destruct (m s) as [r s1]; cbn in *.
  eapply R_trans; [exact Hm|apply Hf].
Qed.

End MonadRules.

Section NoThrowRules.

Context {S : Type}.

Lemma noThrow_ret {A} (a : A) : noThrow (@ret S A a).
Proof. intros s. now exists a. Qed.

Lemma noThrow_gets {A} (f : S -> A) : noThrow (gets f).
Proof. intros s. now exists (f s). Qed.

Lemma noThrow_modify (f : S -> S) : noThrow (modify f).
Proof. intros s. now exists tt. Qed.

Lemma noThrow_bind {A B} (m : M S A) (k : A -> M S B) :
  noThrow m -> (forall a, noThrow (k a)) -> noThrow (bind m k).
Proof.
  intros Hm Hk s. unfold bind. destruct (Hm s) as [a Ha].
  destruct (m s) as [[a'|e] s1]; cbn in Ha; [|discriminate].
  apply Hk.
Qed.

Lemma noThrow_tryCatch {A} (m : M S A) (h : Err -> M S A) :
  (forall e, noThrow (h e)) -> noThrow (tryCatch m h).
Proof.
  intros Hh s. unfold tryCatch.
  destruct (m s) as [[a|e] s1]; [now exists a|apply Hh].
Qed.

Lemma noThrow_tryFinally {A} (m : M S A) (f : S -> S) :
  noThrow m -> noThrow (tryFinally m f).
Proof.
  intros Hm s. unfold tryFinally. destruct (Hm s) as [a Ha].
  destruct (m s) as [r s1]. now exists a.
Qed.

Lemma bind_noThrow (m : M S unit) {B} (k : unit -> M S B) s :
  noThrow m -> bind m k s = k tt (snd (m s)).
Proof.
  intros Hm. unfold bind. destruct (Hm s) as [a Ha].
  destruct (m s) as [[[]|e] s1]; [reflexivity|discriminate].
Qed.

(** A [catch] around a computation that never throws is dead code. *)
Lemma tryCatch_noThrow {A} (m : M S A) (h : Err -> M S A) s :
  noThrow m -> tryCatch m h s = m s.
Proof.
  intros Hm. unfold tryCatch. destruct (Hm s) as [a Ha].
  destruct (m s) as [[a'|e] s1]; [reflexivity|discriminate].
Qed.

End NoThrowRules.

(** Tactic: split a goal [preserves R m] along the structure of [m]. *)
Ltac pres refl trans :=
  repeat (intros;
    match goal with
    | |- preserves _ (bind _ _) => apply (preserves_bind _ trans)
    | |- preserves _ (ret _) => apply (preserves_ret _ refl)
    | |- preserves _ (throw _) => apply (preserves_throw _ refl)
    | |- preserves _ (gets _) => apply (preserves_gets _ refl)
    | |- preserves _ (tryCatch _ _) => apply (preserves_tryCatch _ trans)
    | |- preserves _ (tryFinally _ _) => apply (preserves_tryFinally _ trans)
    | |- preserves _ (if ?b then _ else _) => destruct b
    | |- preserves _ (match ?x with _ => _ end) => destruct x
    | |- preserves _ _ => progress cbv beta iota
    end).

(** Tactic: the same for [noThrow m]. *)
Ltac total :=
  repeat (intros;
    match goal with
    | |- noThrow (bind _ _) => apply noThrow_bind
    | |- noThrow (ret _) => apply noThrow_ret
    | |- noThrow (gets _) => apply noThrow_gets
    | |- noThrow (modify _) => apply noThrow_modify
    | |- noThrow (tryCatch _ _) => apply noThrow_tryCatch
    | |- noThrow (tryFinally _ _) => apply noThrow_tryFinally
    | |- noThrow (if ?b then _ else _) => destruct b
    | |- noThrow (match ?x with _ => _ end) => destruct x
    | |- noThrow _ => progress cbv beta iota
    end).

(** * Properties of the print monitor *)

Section PrintMonitorFacts.

Import Timelapse Monitor.

Variable cfg : Config.
Variable env : Env.

Lemma noSpawn_refl s : noSpawn s s.
Proof. repeat split; auto. Qed.

Lemma noSpawn_trans a b c : noSpawn a b -> noSpawn b c -> noSpawn a c.
Proof.
  intros [H1 [H2 H3]] [H4 [H5 H6]]. repeat split; try congruence; auto.
Qed.

Lemma sameObservation_refl s : sameObservation s s.
Proof. split; reflexivity. Qed.

Lemma sameObservation_trans a b c :
  sameObservation a b -> sameObservation b c -> sameObservation a c.
Proof. intros [H1 H2] [H3 H4]. split; congruence. Qed.

Lemma spawnCount_app t u : spawnCount (t ++ u) = (spawnCount t + spawnCount u)%nat.
Proof.
  induction t as [|e t IH]; cbn; [reflexivity|].
  destruct e; cbn; rewrite IH; reflexivity.
Qed.

Lemma spawnCount_unlink l : spawnCount (map EUnlink l) = 0%nat.
Proof. induction l; cbn; auto. Qed.

Lemma spawnCount_clearing w : spawnCount (clearingEvents env w) = 0%nat.
Proof.
  unfold clearingEvents. rewrite spawnCount_app, spawnCount_unlink.
  now destruct (keptFrames env w).
Qed.

(** **** Effects of the capture manager's methods on the world *)

Lemma clearFramesW_noSpawn w :
  spawnCount (trace (clearFramesW env w)) = spawnCount (trace w)
  /\ procs (clearFramesW env w) = procs w.
Proof.
  rewrite clearFramesW_trace_any, clearFramesW_procs, spawnCount_app,
    spawnCount_clearing. split; [lia|reflexivity].
Qed.

Lemma stopCapture_noSpawn c w :
  let w' := snd (snd (stopCapture env (c, w))) in
  spawnCount (trace w') = spawnCount (trace w)
  /\ List.length (procs w') = List.length (procs w).
Proof.
  cbv zeta. unfold stopCapture, onGraceTimer. cbn [fst snd].
  destruct (isCapturing c); [|cbn; auto].
  destruct (captureProcess c) as [p|] eqn:Hp; [|cbn; auto].
  destruct (stop_outcome env); cbn; rewrite ?Hp; cbn;
    rewrite ?spawnCount_app, ?setNth_length; cbn; split; lia.
Qed.

Lemma stopCapture_tempDir c w :
  tempDir (snd (snd (stopCapture env (c, w)))) = tempDir w.
Proof.
  unfold stopCapture, onGraceTimer. cbn [fst snd].
  destruct (isCapturing c); [|reflexivity].
  destruct (captureProcess c) as [p|] eqn:Hp; [|reflexivity].
  destruct (stop_outcome env); cbn; rewrite ?Hp; reflexivity.
Qed.

Lemma assembleVideo_world dir file w :
  let w' := snd (assembleVideo env dir file w) in
  tempDir w' = tempDir w /\ procs w' = procs w
  /\ (w' = w \/ w' = emit [ESpawnAssemble dir file] w).
Proof.
  cbv zeta. unfold assembleVideo. run.
  destruct (mkdir_out_ok env); cbn; [|auto].
  destruct (getCapturedFrameCount w =? 0); cbn; [auto|].
  destruct (encoder_outcome env) as [[[|q|q]|]|]; cbn; auto.
Qed.

(** **** The lifted operations *)

Lemma liftC_sameObservation {A} (m : M Timelapse.St A) :
  preserves sameObservation (liftC m).
Proof.
  intros [pm w]. unfold liftC. cbn [fst snd].
  destruct (m (timelapseCapture pm, w)) as [r [c' w']]. split; reflexivity.
Qed.

Lemma liftW_sameObservation {A} (m : M World A) :
  preserves sameObservation (liftW m).
Proof.
  intros [pm w]. unfold liftW. cbn [fst snd].
  destruct (m w) as [r w']. split; reflexivity.
Qed.

Lemma stop_noSpawn : preserves noSpawn (liftC (stopCapture env)).
Proof.
  intros [pm w]. unfold liftC. cbn [fst snd].
  pose proof (stopCapture_noSpawn (timelapseCapture pm) w) as H. cbv zeta in H.
  pose proof (stopCapture_cases env (timelapseCapture pm) w) as [Hc _].
  destruct (stopCapture env (timelapseCapture pm, w)) as [r [c' w']].
  destruct H as [H1 H2]. repeat split; try assumption.
  unfold capturingOf. cbn in *. destruct Hc as [-> | ->]; [auto|discriminate].
Qed.

Lemma clear_noSpawn : preserves noSpawn (liftC (clearFrames env)).
Proof.
  intros [pm w]. unfold liftC, clearFrames, modify, onWorld, noSpawn.
  cbn [fst snd]. destruct (clearFramesW_noSpawn w) as [H1 H2].
  rewrite H1, H2. repeat split. unfold capturingOf. cbn.
  now destruct (timelapseCapture pm).
Qed.

Lemma assemble_noSpawn dir file :
  preserves noSpawn (liftW (assembleVideo env dir file)).
Proof.
  intros [pm w]. unfold liftW. cbn [fst snd].
  destruct (assembleVideo_world dir file w) as [_ [Hp [Hw|Hw]]];
    destruct (assembleVideo env dir file w) as [r w']; cbn in *; subst w';
    repeat split; cbn; rewrite ?spawnCount_app; cbn; auto; lia.
Qed.

Lemma onMonitor_noSpawn f :
  (forall m, timelapseCapture (f m) = timelapseCapture m) ->
  preserves noSpawn (modify (onMonitor f)).
Proof.
  intros Hf s. repeat split. unfold capturingOf. cbn. now rewrite Hf.
Qed.

Lemma notify_noSpawn file : preserves noSpawn (sendNotification cfg file).
Proof.
  intros [pm w]. unfold sendNotification, modify. cbn.
  repeat split; cbn; rewrite ?spawnCount_app; cbn; auto; lia.
Qed.

Lemma notify_sameObservation file :
  preserves sameObservation (sendNotification cfg file).
Proof. intros s. split; reflexivity. Qed.

(** **** The completion sequence *)

Lemma handlePrintFinished_noThrow jobId :
  noThrow (handlePrintFinished cfg env jobId).
Proof. unfold handlePrintFinished, clearWatchdog, capturing. total. Qed.

Lemma handlePrintFinished_noSpawn jobId :
  preserves noSpawn (handlePrintFinished cfg env jobId).
Proof.
  unfold handlePrintFinished, clearWatchdog, capturing, stopTimelapseCapture,
    generateOutputPath.
  pres noSpawn_refl noSpawn_trans;
    auto using onMonitor_noSpawn, stop_noSpawn, clear_noSpawn,
      assemble_noSpawn, notify_noSpawn.
  all: apply onMonitor_noSpawn; reflexivity.
Qed.

Lemma handlePrintFinished_sameObservation jobId :
  preserves sameObservation (handlePrintFinished cfg env jobId).
Proof.
  unfold handlePrintFinished, clearWatchdog, capturing, stopTimelapseCapture,
    generateOutputPath.
  pres sameObservation_refl sameObservation_trans;
    auto using liftC_sameObservation, liftW_sameObservation,
      notify_sameObservation.
  all: try (apply preserves_modify; intros s); split; reflexivity.
Qed.

Lemma checkWatchdog_noThrow : noThrow (checkWatchdog cfg env).
Proof. unfold checkWatchdog, capturing. total. Qed.

Lemma checkWatchdog_noSpawn : preserves noSpawn (checkWatchdog cfg env).
Proof.
  unfold checkWatchdog, capturing.
  pres noSpawn_refl noSpawn_trans; apply handlePrintFinished_noSpawn.
Qed.

Lemma checkWatchdog_sameObservation :
  preserves sameObservation (checkWatchdog cfg env).
Proof.
  unfold checkWatchdog, capturing.
  pres sameObservation_refl sameObservation_trans;
    apply handlePrintFinished_sameObservation.
Qed.

(** **** The poll tick *)

Lemma clear_noThrow : noThrow (liftC (clearFrames env)).
Proof. intros s. now exists tt. Qed.

Lemma handlePrintStarted_noThrow jobId resume :
  noThrow (handlePrintStarted cfg env jobId resume).
Proof. unfold handlePrintStarted, capturing. total. Qed.

Lemma resetWatchdog_noThrow : noThrow (resetWatchdog cfg env).
Proof. unfold resetWatchdog, capturing. total. Qed.

Lemma resetWatchdog_noSpawn : preserves noSpawn (resetWatchdog cfg env).
Proof.
  unfold resetWatchdog, capturing.
  pres noSpawn_refl noSpawn_trans. now apply onMonitor_noSpawn.
Qed.

(** Tactic: expose the transition handling [x] at the head of
    [processStatus]. *)
Ltac expose_transition x :=
  unfold processStatus;
  unfold bind at 1; unfold gets at 1; cbv beta iota;
  unfold bind at 1; unfold gets at 1; cbv beta iota;
  match goal with |- context [bind ?X _] => set (x := X) end.

(** Whatever the transition, the tick ends by recording the observed
    state and job identifier and then checking the watchdog. *)
Lemma processStatus_tail st s :
  exists t,
    processStatus cfg env st s
    = checkWatchdog cfg env
        (onMonitor (setCurrentPrintId (jobIdOf st))
           (onMonitor (setLastPrinterState (Some (printer_state st))) t)).
Proof.
  expose_transition x.
  assert (Hx : noThrow x).
  { subst x. unfold capturing. total;
      auto using clear_noThrow, handlePrintStarted_noThrow,
        handlePrintFinished_noThrow, resetWatchdog_noThrow. }
  exists (snd (x s)). now rewrite (bind_noThrow x) by exact Hx.
Qed.

Lemma processStatus_records st s :
  let s' := snd (processStatus cfg env st s) in
  lastPrinterState (fst s') = Some (printer_state st)
  /\ currentPrintId (fst s') = jobIdOf st.
Proof.
  cbv zeta. destruct (processStatus_tail st s) as [t ->].
  match goal with |- context [checkWatchdog cfg env ?u] =>
    destruct (checkWatchdog_sameObservation u) as [H1 H2] end.
  rewrite H1, H2. split; reflexivity.
Qed.

Lemma processStatus_noThrow st : noThrow (processStatus cfg env st).
Proof.
  unfold processStatus, capturing. total;
    auto using clear_noThrow, handlePrintStarted_noThrow,
      handlePrintFinished_noThrow, resetWatchdog_noThrow,
      checkWatchdog_noThrow.
Qed.

Lemma checkStatus_fetched st s :
  status_result env = Some st ->
  checkStatus cfg env s = processStatus cfg env st s.
Proof.
  intros H.
  rewrite <- (tryCatch_noThrow (processStatus cfg env st)
                (fun _ => checkWatchdog cfg env) s)
    by apply processStatus_noThrow.
  unfold checkStatus, tryCatch, bind, getStatus. now rewrite H.
Qed.

(** A status without a job identifier never leads to a [spawn]. *)
Lemma processStatus_noSpawn st :
  jobIdOf st = None -> preserves noSpawn (processStatus cfg env st).
Proof.
  intros H. unfold processStatus, capturing. rewrite H.
  pres noSpawn_refl noSpawn_trans;
    auto using clear_noSpawn, handlePrintFinished_noSpawn,
      resetWatchdog_noSpawn, checkWatchdog_noSpawn;
    now apply onMonitor_noSpawn.
Qed.

(** **** The watchdog *)

Lemma expiryKept_refl s : expiryKept s s.
Proof. reflexivity. Qed.

Lemma expiryKept_trans a b c :
  expiryKept a b -> expiryKept b c -> expiryKept a c.
Proof. unfold expiryKept. congruence. Qed.

Lemma liftC_expiryKept {A} (m : M Timelapse.St A) :
  preserves expiryKept (liftC m).
Proof.
  intros [pm w]. unfold liftC, expiryKept. cbn [fst snd].
  now destruct (m (timelapseCapture pm, w)) as [r [c' w']].
Qed.

Lemma liftW_expiryKept {A} (m : M World A) : preserves expiryKept (liftW m).
Proof.
  intros [pm w]. unfold liftW, expiryKept. cbn [fst snd].
  now destruct (m w) as [r w'].
Qed.

Lemma handlePrintFinished_clears_watchdog jobId s :
  watchdogExpiry (fst (snd (handlePrintFinished cfg env jobId s))) = None.
Proof.
  unfold handlePrintFinished.
  rewrite (bind_noThrow (clearWatchdog)) by (intros t; now exists tt).
  match goal with |- context [snd (?rest ?t)] =>
    assert (H : preserves expiryKept rest) end.
  { unfold capturing, stopTimelapseCapture, generateOutputPath,
      sendNotification.
    pres expiryKept_refl expiryKept_trans;
      auto using liftC_expiryKept, liftW_expiryKept;
      intros; try apply preserves_modify; intros; unfold expiryKept;
      reflexivity. }
  rewrite H. reflexivity.
Qed.

(** The completion sequence when every step succeeds: SIGTERM and the
    grace timer, SIGKILL if the window elapsed, the encoder on the
    generated output name, the attempt to unlink the frames, the
    notification. *)
Lemma handlePrintFinished_sequence jobId m w p :
  isCapturing (timelapseCapture m) = true ->
  captureProcess (timelapseCapture m) = Some p ->
  completes env w = true ->
  let file := outputFileName env (currentPrintFilename m) jobId in
  let s' := snd (handlePrintFinished cfg env jobId (m, w)) in
  capturingOf s' = false
  /\ trace (snd s')
     = trace w
       ++ [EKill p SIGTERM; ESetTimeout 5000]
       ++ match stop_outcome env with
          | GraceElapses => [EKill p SIGKILL]
          | _ => []
          end
       ++ [ESpawnAssemble (outputDirectory cfg) file]
       ++ clearingEvents env w
       ++ [ENotify (outputDirectory cfg) file]
  /\ frameFiles (snd s') = keptFrames env w.
Proof.
  intros Hc Hp Hok.
  assert (Henc : encoder_outcome env = EncoderExit (Some 0)
                 /\ mkdir_out_ok env = true
                 /\ (getCapturedFrameCount w =? 0) = false
                 /\ stop_outcome env <> KillThrows).
  { unfold completes in Hok.
    destruct (stop_outcome env); try discriminate;
      destruct (encoder_outcome env) as [[[|q|q]|]|]; try discriminate;
      apply andb_prop in Hok as [-> Hn]; apply negb_true_iff in Hn;
      repeat split; auto; discriminate. }
  destruct Henc as [Henc [Hmk [Hfr Hstop]]].
  destruct m as [pid fname lst exp first [cp cap]]. cbn in Hc, Hp. subst cp cap.
  cbv zeta.
  unfold handlePrintFinished, clearWatchdog, capturing, stopTimelapseCapture,
    generateOutputPath, sendNotification, liftC, liftW, stopCapture,
    assembleVideo, clearFrames, onGraceTimer.
  unfold bind, ret, throw, gets, modify, tryCatch, tryFinally. cbn.
  rewrite Hmk, Henc.
  destruct (stop_outcome env); [congruence| |]; cbn;
    match goal with |- context [getCapturedFrameCount ?W =? 0] =>
      change (getCapturedFrameCount W) with (getCapturedFrameCount w) end;
    rewrite Hfr; cbn;
    (split; [reflexivity|]);
    match goal with |- context [clearFramesW env ?W] =>
      rewrite (frameFiles_tempDir (emit _ (clearFramesW env W))
                 (clearFramesW env W)) by reflexivity;
      rewrite (clearFramesW_frames env W), (clearFramesW_trace_any env W);
      change (clearingEvents env W) with (clearingEvents env w);
      change (keptFrames env W) with (keptFrames env w)
    end; cbn; rewrite <- ?app_assoc; cbn; split; reflexivity.
Qed.

(** **** Frames and the completion sequence *)

Lemma framesKept_refl s : framesKept s s.
Proof.
  split; [reflexivity|]. exists []. split; [now rewrite app_nil_r|].
  intros f [].
Qed.

Lemma stopCapture_trace c w :
  exists es, trace (snd (snd (stopCapture env (c, w)))) = trace w ++ es
             /\ forall f, ~ In (EUnlink f) es.
Proof.
  unfold stopCapture, onGraceTimer. cbn [fst snd].
  destruct (isCapturing c);
    [|exists []; split; [now rewrite app_nil_r|intros f []]].
  destruct (captureProcess c) as [p|] eqn:Hp;
    [|exists []; split; [now rewrite app_nil_r|intros f []]].
  destruct (stop_outcome env); cbn; rewrite ?Hp; cbn;
    rewrite <- ?app_assoc; eexists; (split; [reflexivity|]);
    intros f Hin; cbn in Hin; intuition discriminate.
Qed.

Lemma checkWatchdog_unfold s :
  checkWatchdog cfg env s
  = if (watchdogTimeout cfg <=? 0)
       || negb (isCapturing (timelapseCapture (fst s)))
    then (Val tt, s)
    else match watchdogExpiry (fst s) with
         | None => (Val tt, s)
         | Some deadline =>
             if now_check env >=? deadline
             then handlePrintFinished cfg env (currentPrintId (fst s)) s
             else (Val tt, s)
         end.
Proof.
  unfold checkWatchdog, capturing.
  unfold bind at 1, gets at 1. cbv beta iota.
  unfold bind at 1, gets at 1. cbv beta iota.
  unfold isCurrentlyCapturing.
  destruct (_ || _); [reflexivity|].
  destruct (watchdogExpiry (fst s)); [|reflexivity].
  destruct (now_check env >=? z); [|reflexivity].
  rewrite tryCatch_noThrow by (total; apply handlePrintFinished_noThrow).
  reflexivity.
Qed.

Lemma not_expired :
  (now_check env <? now_arm env + watchdogTimeout cfg * 1000) = true ->
  (now_check env >=? now_arm env + watchdogTimeout cfg * 1000) = false.
Proof.
  intros H. apply Z.ltb_lt in H. rewrite Z.geb_leb. apply Z.leb_gt. lia.
Qed.

Lemma expired :
  (now_check env <? now_arm env + watchdogTimeout cfg * 1000) = false ->
  (now_check env >=? now_arm env + watchdogTimeout cfg * 1000) = true.
Proof.
  intros H. apply Z.ltb_ge in H. rewrite Z.geb_leb. apply Z.leb_le. lia.
Qed.

(** A start that fails leaves no capture: [getJob] rejects, the temp
    directory cannot be created, or [spawn] throws. *)
Lemma failed_start j r m w :
  isCapturing (timelapseCapture m) = false ->
  Ticks.startFails env = true ->
  let res := handlePrintStarted cfg env j r (m, w) in
  fst res = Val tt
  /\ capturingOf (snd res) = false
  /\ watchdogExpiry (fst (snd res)) = watchdogExpiry m
  /\ procs (snd (snd res)) = procs w.
Proof.
  intros Hc Hfail. cbv zeta.
  unfold Ticks.startFails in Hfail.
  unfold handlePrintStarted, capturing, getJob, startWatchdog, liftC,
    clearFrames, isCurrentlyCapturing, capturingOf.
  unfold bind, ret, throw, gets, modify, tryCatch.
  cbn [fst snd]. rewrite Hc.
  destruct (job_result env) as [|name].
  { cbn. repeat split; auto. }
  assert (Hstart : forall resume c' w',
            isCapturing c' = false ->
            exists e w'',
              startCapture env resume (c', w') = (Exn e, (c', w''))
              /\ procs w'' = procs w').
  { intros resume c' w' Hc'. destruct (spawn_outcome env) as [|l] eqn:Hsp.
    - destruct (mkdir_temp_ok env) eqn:Hmk.
      + rewrite startCapture_launch by assumption. cbv zeta. rewrite Hsp.
        eexists. eexists. split; [reflexivity|].
        destruct (resume && canResume (mkdirTemp w')); cbn;
          now rewrite ?clearFramesW_procs, ?mkdirTemp_procs.
      + rewrite startCapture_mkdir_fails by assumption.
        eexists. eexists. split; reflexivity.
    - apply negb_true_iff in Hfail.
      rewrite startCapture_mkdir_fails by assumption.
      eexists. eexists. split; reflexivity. }
  destruct m as [pid fname lst exp first c]. cbn [timelapseCapture] in Hc.
  destruct name as [n|]; [destruct (Js.truthy n)|];
    cbn -[startCapture clearFramesW canResume];
    destruct (r && canResume w); [|destruct (negb r)| |destruct (negb r)
                                  | |destruct (negb r)];
    cbn -[startCapture clearFramesW canResume];
    match goal with
    | |- context [startCapture env r (c, ?W)] =>
        destruct (Hstart r c W Hc) as [e [w2 [-> Hp]]]
    end;
    cbn [fst snd]; unfold setTimelapseCapture; cbn;
    rewrite ?Hp, ?clearFramesW_procs;
    repeat split; auto.
Qed.

End PrintMonitorFacts.

Section PollTick.

Import Timelapse Monitor.

(** C8. On a tick whose status fetch fails, the failure is caught
    ([checkStatus] returns normally), the tick does exactly what the
    watchdog check does, and the stored printer state and job identifier
    are the ones of the previous tick. *)
Theorem fetch_failure_tick cfg env s :
  status_result env = None ->
  checkStatus cfg env s = checkWatchdog cfg env s
  /\ fst (checkStatus cfg env s) = Val tt
  /\ lastPrinterState (fst (snd (checkStatus cfg env s)))
     = lastPrinterState (fst s)
  /\ currentPrintId (fst (snd (checkStatus cfg env s)))
     = currentPrintId (fst s).
Proof.
  intros H.
  assert (E : checkStatus cfg env s = checkWatchdog cfg env s).
  { unfold checkStatus, tryCatch, bind, getStatus. now rewrite H. }
  rewrite E. split; [reflexivity|].
  destruct (checkWatchdog_noThrow cfg env s) as [[] Hv].
  destruct (checkWatchdog_sameObservation cfg env s) as [H1 H2].
  auto.
Qed.

(** C9. A status whose job id is 0 is handled as a status without job:
    the monitor stores [null] as the current job identifier, and the tick
    spawns no capture subprocess and does not turn capturing on,
    whatever the previous and the current printer state. *)
Theorem job_id_zero_is_absent cfg env s st :
  status_result env = Some st ->
  job st = Some (mkStatusJob (Some 0)) ->
  let s' := snd (checkStatus cfg env s) in
  jobIdOf st = None
  /\ currentPrintId (fst s') = None
  /\ noSpawn s s'.
Proof.
  intros Hst Hjob. cbv zeta.
  assert (Hnone : jobIdOf st = None).
  { unfold jobIdOf. now rewrite Hjob. }
  rewrite (checkStatus_fetched cfg env st s Hst).
  destruct (processStatus_records cfg env st s) as [_ Hid].
  split; [exact Hnone|]. split; [congruence|].
  now apply processStatus_noSpawn.
Qed.

Lemma fetch_failure_tick_witness :
  status_result Scenario.outage = None
  /\ (checkStatus Scenario.cfg60 Scenario.outage Scenario.resumed
      = checkWatchdog Scenario.cfg60 Scenario.outage Scenario.resumed
      /\ fst (checkStatus Scenario.cfg60 Scenario.outage Scenario.resumed)
         = Val tt
      /\ lastPrinterState
           (fst (snd (checkStatus Scenario.cfg60 Scenario.outage
                        Scenario.resumed)))
         = Some PRINTING
      /\ currentPrintId
           (fst (snd (checkStatus Scenario.cfg60 Scenario.outage
                        Scenario.resumed)))
         = Some 7).
Proof.
  split; [reflexivity|].
  apply (fetch_failure_tick Scenario.cfg60 Scenario.outage Scenario.resumed).
  reflexivity.
Defined.

Lemma job_id_zero_is_absent_witness :
  (status_result (Scenario.withStatus (Some Scenario.statusJobZero) Scenario.smooth)
   = Some Scenario.statusJobZero
   /\ job Scenario.statusJobZero = Some (mkStatusJob (Some 0)))
  /\ let s' :=
       snd (checkStatus Scenario.cfg60
              (Scenario.withStatus (Some Scenario.statusJobZero) Scenario.smooth)
              Scenario.idle) in
     jobIdOf Scenario.statusJobZero = None
     /\ currentPrintId (fst s') = None
     /\ noSpawn Scenario.idle s'.
Proof.
  split; [split; reflexivity|].
  apply (job_id_zero_is_absent Scenario.cfg60
           (Scenario.withStatus (Some Scenario.statusJobZero) Scenario.smooth)
           Scenario.idle Scenario.statusJobZero); reflexivity.
Defined.

End PollTick.

Section Completion.

Import Timelapse Monitor.

(** C3. The watchdog check does nothing when the feature is disabled
    (timeout <= 0), when no capture is active, or when no deadline is set.
    Otherwise it fires exactly when [now >= deadline]; firing is the call
    [handlePrintFinished(this.currentPrintId)], the handler of the
    PRINTING to non-PRINTING transition, run with the last stored job
    identifier. It never throws, leaves the deadline cleared and does not
    touch the stored printer state, so it fires also while PRINTING is
    the last state seen; and when stop and assembly succeed the whole
    sequence (SIGTERM, timer, SIGKILL if needed, encoder, the attempt to
    unlink the frames, notification) is carried out and capturing is
    off. *)
Theorem watchdog_check cfg env m w :
  let s := (m, w) in
  let r := checkWatchdog cfg env s in
  if (watchdogTimeout cfg <=? 0) || negb (isCapturing (timelapseCapture m))
  then r = (Val tt, s)
  else
    match watchdogExpiry m with
    | None => r = (Val tt, s)
    | Some deadline =>
        if now_check env >=? deadline then
          r = handlePrintFinished cfg env (currentPrintId m) s
          /\ fst r = Val tt
          /\ watchdogExpiry (fst (snd r)) = None
          /\ lastPrinterState (fst (snd r)) = lastPrinterState m
          /\ match captureProcess (timelapseCapture m) with
             | Some p =>
                 if completes env w then
                   let file :=
                     outputFileName env (currentPrintFilename m)
                                    (currentPrintId m) in
                   capturingOf (snd r) = false
                   /\ trace (snd (snd r))
                      = trace w
                        ++ [EKill p SIGTERM; ESetTimeout 5000]
                        ++ match stop_outcome env with
                           | GraceElapses => [EKill p SIGKILL]
                           | _ => []
                           end
                        ++ [ESpawnAssemble (outputDirectory cfg) file]
                        ++ clearingEvents env w
                        ++ [ENotify (outputDirectory cfg) file]
                 else True
             | None => True
             end
        else r = (Val tt, s)
    end.
Proof.
  cbv zeta.
  assert (E : checkWatchdog cfg env (m, w)
              = if (watchdogTimeout cfg <=? 0)
                   || negb (isCapturing (timelapseCapture m))
                then (Val tt, (m, w))
                else match watchdogExpiry m with
                     | None => (Val tt, (m, w))
                     | Some deadline =>
                         if now_check env >=? deadline
                         then handlePrintFinished cfg env (currentPrintId m) (m, w)
                         else (Val tt, (m, w))
                     end).
  { unfold checkWatchdog, capturing.
    unfold bind at 1, gets at 1. cbv beta iota.
    unfold bind at 1, gets at 1. cbv beta iota. cbn [fst snd].
    unfold isCurrentlyCapturing.
    destruct ((watchdogTimeout cfg <=? 0)
              || negb (isCapturing (timelapseCapture m))); [reflexivity|].
    destruct (watchdogExpiry m) as [d|]; [|reflexivity].
    destruct (now_check env >=? d); [|reflexivity].
    rewrite tryCatch_noThrow.
    - unfold bind at 1, gets at 1. reflexivity.
    - total. apply handlePrintFinished_noThrow. }
  rewrite E.
  destruct ((watchdogTimeout cfg <=? 0)
            || negb (isCapturing (timelapseCapture m))) eqn:Hg; [reflexivity|].
  destruct (watchdogExpiry m) as [d|]; [|reflexivity].
  destruct (now_check env >=? d); [|reflexivity].
  apply orb_false_elim in Hg as [_ Hc]. apply negb_false_iff in Hc.
  split; [reflexivity|]. split.
  { destruct (handlePrintFinished_noThrow cfg env (currentPrintId m) (m, w))
      as [[] Hv]. exact Hv. }
  split; [apply handlePrintFinished_clears_watchdog|]. split.
  { apply (handlePrintFinished_sameObservation cfg env (currentPrintId m) (m, w)). }
  destruct (captureProcess (timelapseCapture m)) as [p|] eqn:Hp; [|exact I].
  destruct (completes env w) eqn:Hok; [|exact I].
  destruct (handlePrintFinished_sequence cfg env (currentPrintId m) m w p
              Hc Hp Hok) as [H1 [H2 _]].
  split; assumption.
Qed.

(** C5, as amended. [assembleVideo] fails whenever there is no frame
    file at invocation time and leaves the world as it is; the error is
    the no-frames error provided the output directory could be created,
    which is attempted first. In [handlePrintFinished], when the stop or
    the assembly fails, or when no capture was active, no frame file is
    unlinked and the temp directory is as before; the clearing is
    attempted only once the assembly has succeeded, and then it leaves
    the frames from the first one that cannot be unlinked on. *)
Theorem assemble_failure_keeps_frames cfg env jobId m w dir file :
  (if getCapturedFrameCount w =? 0 then
     assembleVideo env dir file w
     = (Exn (if mkdir_out_ok env then NoFramesCaptured else OutputDirFailed), w)
   else True)
  /\ let s' := snd (handlePrintFinished cfg env jobId (m, w)) in
     let stop := stopCapture env (timelapseCapture m, w) in
     let asm :=
       assembleVideo env (outputDirectory cfg)
         (outputFileName env (currentPrintFilename m) jobId) (snd (snd stop)) in
     match isCapturing (timelapseCapture m), fst stop, fst asm with
     | true, Val _, Val _ => frameFiles (snd s') = keptFrames env w
     | _, _, _ => framesKept (m, w) s'
     end.
Proof.
  split.
  - destruct (getCapturedFrameCount w =? 0) eqn:E; [|exact I].
    unfold assembleVideo, bind, gets, throw.
    destruct (mkdir_out_ok env); cbn [negb]; cbv beta iota;
      [now rewrite E|reflexivity].
  - cbv zeta.
    destruct m as [pid fname lst exp first c].
    unfold handlePrintFinished, clearWatchdog, capturing, stopTimelapseCapture,
      generateOutputPath, sendNotification, liftC, liftW, clearFrames,
      isCurrentlyCapturing.
    unfold bind, ret, throw, gets, modify, tryCatch, tryFinally.
    cbn -[stopCapture assembleVideo clearFramesW].
    destruct (isCapturing c) eqn:Hc; cbn -[stopCapture assembleVideo clearFramesW].
    2:{ split; [reflexivity|]. exists []. split; [now rewrite app_nil_r|].
        intros f []. }
    pose proof (stopCapture_tempDir env c w) as Hdir.
    destruct (stopCapture_trace env c w) as [es [Hes Hno]].
    destruct (stopCapture env (c, w)) as [[[]|e] [c1 w1]];
      cbn -[assembleVideo clearFramesW] in *.
    2:{ unfold framesKept. cbn [fst snd]. split; [exact Hdir|].
        exists es. split; assumption. }
    destruct (assembleVideo_world env (outputDirectory cfg)
                (outputFileName env fname jobId) w1) as [Hd2 [_ Hw2]].
    destruct (assembleVideo env (outputDirectory cfg)
                (outputFileName env fname jobId) w1) as [[[]|e] w2];
      cbn -[clearFramesW] in *.
    + rewrite (frameFiles_tempDir _ (clearFramesW env w2)) by reflexivity.
      rewrite clearFramesW_frames. unfold keptFrames.
      rewrite (frameFiles_tempDir w2 w) by congruence. reflexivity.
    + unfold framesKept, onMonitor. cbn [fst snd]. split; [congruence|].
      destruct Hw2 as [->| ->].
      * exists es. split; assumption.
      * exists (es ++ [ESpawnAssemble (outputDirectory cfg)
                         (outputFileName env fname jobId)]).
        split; [cbn; rewrite Hes; now rewrite app_assoc|].
        intros f Hin. apply in_app_or in Hin as [Hin|[Hin|[]]];
          [now apply (Hno f)|discriminate].
Qed.

(** C5, as stated, fails: with no frame and an output directory that
    cannot be created, [assembleVideo] fails with the output-directory
    error, not with the no-frames error. *)
Lemma no_frames_error_masked :
  let env := Scenario.withMkdirOut false Scenario.smooth in
  getCapturedFrameCount Scenario.emptyWorld = 0
  /\ assembleVideo env "/out" "timelapse.mp4" Scenario.emptyWorld
     = (Exn OutputDirFailed, Scenario.emptyWorld)
  /\ OutputDirFailed <> NoFramesCaptured.
Proof. repeat split. discriminate. Qed.

End Completion.

Section FirstPoll.

Import Timelapse Monitor.

(** Tactic: compute, leaving the capture manager's calls, the watchdog
    check and the arithmetic of the watchdog folded. *)
Ltac crunch :=
  cbn -[startCapture clearFramesW canResume getHighestFrameNumber
        checkWatchdog handlePrintFinished Js.addOne
        Z.mul Z.add Z.leb Z.geb Z.ltb].

Lemma canResume_false_frames w : canResume w = false -> frameFiles w = [].
Proof.
  unfold canResume, getCapturedFrameCount.
  destruct (frameFiles w); [reflexivity|]. cbn. discriminate.
Qed.

(** A first poll that does not start a capture: the clearing of the
    frames of an earlier run, if any, is attempted and the observation is
    recorded. *)
Lemma first_poll_no_start cfg env w st :
  isPrinting (Some (printer_state st)) = false \/ jobIdOf st = None ->
  processStatus cfg env st (newMonitor, w)
  = (Val tt,
     (mkMonitor (jobIdOf st) None (Some (printer_state st)) None false
                (mkCapture None false),
      if canResume w then clearFramesW env w else w)).
Proof.
  intros H.
  unfold processStatus, capturing, liftC, clearFrames,
    isCurrentlyCapturing.
  unfold bind, ret, throw, gets, modify, tryCatch, tryFinally.
  destruct (isPrinting (Some (printer_state st))) eqn:Hp;
    destruct (jobIdOf st) as [j|] eqn:Hj;
    try (destruct H; discriminate);
    crunch; destruct (canResume w); crunch;
    rewrite checkWatchdog_unfold; crunch;
    rewrite orb_true_r; reflexivity.
Qed.

Lemma cleared_world env w :
  let w' := if canResume w then clearFramesW env w else w in
  procs w' = procs w
  /\ trace w' = trace w ++ clearingEvents env w
  /\ frameFiles w' = keptFrames env w.
Proof.
  cbv zeta. destruct (canResume w) eqn:Hr.
  - rewrite clearFramesW_procs, clearFramesW_trace_any, clearFramesW_frames.
    repeat split.
  - unfold clearingEvents, unlinkedFrames, keptFrames.
    rewrite (canResume_false_frames w Hr). cbn. rewrite app_nil_r.
    repeat split.
Qed.

(** A first poll that reports PRINTING with a job identifier: the tick
    is [handlePrintStarted], with resume when a frame file exists, then
    the recording of the observation, then the watchdog check. *)
Lemma first_poll_tick cfg env w st j :
  isPrinting (Some (printer_state st)) = true ->
  jobIdOf st = Some j ->
  processStatus cfg env st (newMonitor, w)
  = checkWatchdog cfg env
      (onMonitor (setCurrentPrintId (Some j))
         (onMonitor (setLastPrinterState (Some (printer_state st)))
            (snd (handlePrintStarted cfg env j (canResume w)
                    (setIsFirstCheck false newMonitor, w))))).
Proof.
  intros Hp Hj. unfold processStatus. rewrite Hp, Hj.
  unfold bind at 1, gets at 1. cbv beta iota.
  unfold bind at 1, gets at 1. cbv beta iota.
  cbn [fst snd newMonitor isFirstCheck].
  match goal with |- bind ?X _ _ = _ => set (x := X) end.
  assert (Hx : noThrow x).
  { subst x. total; apply handlePrintStarted_noThrow. }
  rewrite (bind_noThrow x) by exact Hx.
  unfold bind at 1, modify at 1. cbv beta iota.
  unfold bind at 1, modify at 1. cbv beta iota.
  f_equal. f_equal. f_equal. subst x.
  unfold bind, modify, gets. cbn [fst snd].
  unfold onMonitor. cbn [fst snd].
  now destruct (canResume w).
Qed.

(** A start that meets no obstacle: what [handlePrintStarted] leaves,
    for a resume over existing frame files and for a fresh start. *)
Lemma successful_start cfg env j r m w name launched :
  isCapturing (timelapseCapture m) = false ->
  job_result env = JobInfo name ->
  mkdir_temp_ok env = true ->
  spawn_outcome env = SpawnReturns launched ->
  (r = true -> canResume w = true) ->
  snd (handlePrintStarted cfg env j r (m, w))
  = let m1 := match name with
              | Some n => if Js.truthy n
                          then setCurrentPrintFilename (Some n) m else m
              | None => m
              end in
    let w1 := if r then w
              else clearFramesW env (mkdirTemp (clearFramesW env w)) in
    let n := if r then Js.addOne (getHighestFrameNumber env w)
             else Js.Fin 1 in
    let w2 := emit [ESpawnCapture n] w1 in
    let m2 := setTimelapseCapture
                (mkCapture (Some (List.length (procs w2))) true) m1 in
    (if watchdogTimeout cfg <=? 0 then m2
     else setWatchdogExpiry
            (Some (now_arm env + watchdogTimeout cfg * 1000)) m2,
     setProcs (procs w2 ++ [if launched then Running else SpawnFailed]) w2).
Proof.
  intros Hc Hjob Hmk Hsp Hr. cbv zeta.
  destruct m as [pid fname lst exp first c]. cbn [timelapseCapture] in Hc.
  unfold handlePrintStarted, capturing, getJob, startWatchdog,
    liftC, clearFrames, isCurrentlyCapturing.
  rewrite Hjob.
  unfold bind, ret, throw, gets, modify, tryCatch, tryFinally.
  crunch. rewrite Hc.
  destruct r.
  - destruct name as [n|]; [destruct (Js.truthy n)|]; crunch;
      rewrite (Hr eq_refl); crunch;
      rewrite startCapture_launch by first [assumption|reflexivity];
      cbv zeta; rewrite Hsp;
      rewrite canResume_mkdirTemp, (Hr eq_refl), (canResume_dir w (Hr eq_refl));
      crunch;
      destruct (watchdogTimeout cfg <=? 0); reflexivity.
  - destruct name as [n|]; [destruct (Js.truthy n)|]; crunch;
      rewrite startCapture_launch by first [assumption|reflexivity];
      cbv zeta; rewrite Hsp; crunch;
      destruct (watchdogTimeout cfg <=? 0); reflexivity.
Qed.

(** C4, as amended. On the first poll of a fresh monitor, when the
    device reports PRINTING with a job identifier: if [getJob] rejects,
    the temp directory cannot be created or [spawn] throws, no capture
    starts and the watchdog is not armed. Otherwise [spawn] has returned
    a handle and, provided the deadline armed at the start has not
    already passed when the watchdog is checked at the end of the tick,
    capturing is on and the watchdog is armed (when enabled); with
    existing frame files the subprocess was launched at
    [getHighestFrameNumber() + 1] and no file was deleted; without, it
    was launched at 1. If that deadline has already passed, the watchdog
    fires within the tick and its deadline is cleared. If the device does
    not report PRINTING with a job identifier, no capture starts and the
    clearing of the frames of an earlier run is attempted: they are
    unlinked up to the first one that cannot be. *)
Theorem first_poll cfg env w st :
  status_result env = Some st ->
  let s' := snd (checkStatus cfg env (newMonitor, w)) in
  match isPrinting (Some (printer_state st)), jobIdOf st with
  | true, Some j =>
      if Ticks.startFails env then
        capturingOf s' = false
        /\ procs (snd s') = procs w
        /\ watchdogExpiry (fst s') = None
      else if (watchdogTimeout cfg <=? 0)
              || (now_check env <? now_arm env + watchdogTimeout cfg * 1000)
      then
        capturingOf s' = true
        /\ (exists launched,
              spawn_outcome env = SpawnReturns launched
              /\ procs (snd s')
                 = procs w ++ [if launched then Running else SpawnFailed])
        /\ watchdogExpiry (fst s')
           = (if watchdogTimeout cfg <=? 0 then None
              else Some (now_arm env + watchdogTimeout cfg * 1000))
        /\ if canResume w
           then trace (snd s')
                = trace w
                  ++ [ESpawnCapture (Js.addOne (getHighestFrameNumber env w))]
                /\ tempDir (snd s') = tempDir w
           else trace (snd s') = trace w ++ [ESpawnCapture (Js.Fin 1)]
      else watchdogExpiry (fst s') = None
  | _, _ =>
      capturingOf s' = false
      /\ procs (snd s') = procs w
      /\ trace (snd s') = trace w ++ clearingEvents env w
      /\ frameFiles (snd s') = keptFrames env w
  end.
Proof.
  intros Hst. cbv zeta. rewrite (checkStatus_fetched cfg env st _ Hst).
  destruct (isPrinting (Some (printer_state st))) eqn:Hp.
  2:{ rewrite first_poll_no_start by auto. cbn [fst snd].
      destruct (cleared_world env w) as [H1 [H2 H3]]. auto. }
  destruct (jobIdOf st) as [j|] eqn:Hj.
  2:{ rewrite first_poll_no_start by auto. cbn [fst snd].
      destruct (cleared_world env w) as [H1 [H2 H3]]. auto. }
  rewrite (first_poll_tick cfg env w st j Hp Hj).
  destruct (Ticks.startFails env) eqn:Hfail.
  { destruct (failed_start cfg env j (canResume w)
                (setIsFirstCheck false newMonitor) w eq_refl Hfail)
      as [_ [Hc [He Hpr]]].
    destruct (snd (handlePrintStarted cfg env j (canResume w)
                     (setIsFirstCheck false newMonitor, w))) as [m1 w1].
    unfold capturingOf in *. cbn [fst snd] in *.
    rewrite checkWatchdog_unfold. cbn [fst snd onMonitor].
    unfold setCurrentPrintId, setLastPrinterState.
    cbn [timelapseCapture watchdogExpiry]. rewrite Hc, orb_true_r.
    cbn [fst snd timelapseCapture watchdogExpiry]. auto. }
  unfold Ticks.startFails in Hfail.
  destruct (job_result env) as [|name] eqn:Hjob; [discriminate|].
  destruct (spawn_outcome env) as [|launched] eqn:Hsp; [discriminate|].
  apply negb_false_iff in Hfail. rename Hfail into Hmk.
  rewrite (successful_start cfg env j (canResume w)
             (setIsFirstCheck false newMonitor) w name launched
             eq_refl Hjob Hmk Hsp (fun H => H)).
  cbv zeta. rewrite checkWatchdog_unfold.
  set (m1 := match name with
             | Some n => if Js.truthy n
                         then setCurrentPrintFilename (Some n)
                                (setIsFirstCheck false newMonitor)
                         else setIsFirstCheck false newMonitor
             | None => setIsFirstCheck false newMonitor
             end).
  assert (Hm1 : watchdogExpiry m1 = None).
  { subst m1. destruct name as [n|]; [destruct (Js.truthy n)|]; reflexivity. }
  assert (Hfresh : canResume w = false ->
            let w1 := clearFramesW env (mkdirTemp (clearFramesW env w)) in
            procs w1 = procs w /\ trace w1 = trace w).
  { intros Hr. cbv zeta.
    rewrite clearFramesW_procs, mkdirTemp_procs, clearFramesW_procs.
    split; [reflexivity|].
    rewrite clearFramesW_trace, clearFramesW_trace_any.
    unfold clearingEvents, unlinkedFrames, keptFrames.
    rewrite clearFramesW_frames. unfold keptFrames.
    rewrite (canResume_false_frames w Hr). cbn. now rewrite !app_nil_r. }
  assert (Hstarted :
            let w1 := if canResume w then w
                      else clearFramesW env (mkdirTemp (clearFramesW env w)) in
            let n := if canResume w
                     then Js.addOne (getHighestFrameNumber env w)
                     else Js.Fin 1 in
            (exists launched0,
               SpawnReturns launched = SpawnReturns launched0
               /\ procs w1 ++ [if launched then Running else SpawnFailed]
                  = procs w ++ [if launched0 then Running else SpawnFailed])
            /\ if canResume w
               then trace w1 ++ [ESpawnCapture n]
                    = trace w
                      ++ [ESpawnCapture
                            (Js.addOne (getHighestFrameNumber env w))]
                    /\ tempDir w1 = tempDir w
               else trace w1 ++ [ESpawnCapture n]
                    = trace w ++ [ESpawnCapture (Js.Fin 1)]).
  { cbv zeta. destruct (canResume w) eqn:Hr.
    - split; [exists launched; split; reflexivity|]. split; reflexivity.
    - destruct (Hfresh eq_refl) as [H1 H2]. cbv zeta in H1, H2.
      rewrite H1, H2. split; [exists launched; split; reflexivity|].
      reflexivity. }
  cbv zeta in Hstarted. destruct Hstarted as [Hprocs Htrace].
  destruct (watchdogTimeout cfg <=? 0) eqn:Ht; crunch.
  - (* the watchdog is disabled *)
    rewrite Hm1. split; [reflexivity|]. split; [exact Hprocs|].
    split; [reflexivity|exact Htrace].
  - destruct (now_check env <? now_arm env + watchdogTimeout cfg * 1000)
      eqn:Hck.
    + rewrite (not_expired cfg env Hck). crunch.
      split; [reflexivity|]. split; [exact Hprocs|].
      split; [reflexivity|exact Htrace].
    + rewrite (expired cfg env Hck).
      apply handlePrintFinished_clears_watchdog.
Qed.

Lemma first_poll_witness :
  status_result Scenario.smooth = Some Scenario.status7
  /\ let s' := snd (checkStatus Scenario.cfg60 Scenario.smooth
                       (newMonitor, Scenario.framesWorld)) in
     capturingOf s' = true
     /\ (exists launched,
           spawn_outcome Scenario.smooth = SpawnReturns launched
           /\ procs (snd s') = [if launched then Running else SpawnFailed])
     /\ watchdogExpiry (fst s') = Some 61000
     /\ trace (snd s') = [ESpawnCapture (Js.Fin 4)]
     /\ tempDir (snd s') = tempDir Scenario.framesWorld.
Proof.
  split; [reflexivity|].
  apply (first_poll Scenario.cfg60 Scenario.smooth Scenario.framesWorld
           Scenario.status7).
  reflexivity.
Defined.

(** C4, as stated, fails. On a first poll that reports PRINTING with job
    7 over three frames of an earlier run, no capture starts when
    [getJob] rejects: nothing is spawned and the watchdog is not armed.
    And on a first poll that reports IDLE, the frames of the earlier run
    are not cleared when the second one cannot be unlinked: it and the
    one after it stay, and a later start would resume from them. *)
Lemma first_poll_claim_fails :
  (let env := Scenario.withJob JobThrows Scenario.smooth in
   let s' := snd (checkStatus Scenario.cfg60 env
                    (newMonitor, Scenario.framesWorld)) in
   status_result env = Some Scenario.status7
   /\ canResume Scenario.framesWorld = true
   /\ capturingOf s' = false
   /\ trace (snd s') = []
   /\ watchdogExpiry (fst s') = None)
  /\ (let env := Scenario.withStatus (Some (mkStatus IDLE None))
                   Scenario.stuck in
      let s' := snd (checkStatus Scenario.cfg60 env
                       (newMonitor, Scenario.framesWorld)) in
      tempDir (snd s') = Some ["img_00002.jpg"; "img_00003.jpg"]
      /\ canResume (snd s') = true).
Proof. repeat split. Qed.

(** C10, as amended. On the first poll of a fresh monitor, a device that
    reports PRINTING without a job identifier is handled as an inactive
    one: no capture starts, the clearing of the frames of an earlier run
    is attempted, which unlinks them up to the first one that cannot be
    unlinked, and the world and the monitor end as they do for an IDLE
    report, the recorded printer state apart. *)
Theorem first_poll_printing_without_job cfg env w st :
  status_result env = Some st ->
  printer_state st = PRINTING ->
  jobIdOf st = None ->
  let s' := snd (checkStatus cfg env (newMonitor, w)) in
  let idle :=
    snd (checkStatus cfg
           (Scenario.withStatus (Some (mkStatus IDLE (job st))) env)
           (newMonitor, w)) in
  capturingOf s' = false
  /\ noSpawn (newMonitor, w) s'
  /\ trace (snd s') = trace w ++ clearingEvents env w
  /\ frameFiles (snd s') = keptFrames env w
  /\ snd s' = snd idle
  /\ fst s' = setLastPrinterState (Some PRINTING) (fst idle).
Proof.
  intros Hst Hp Hj. cbv zeta.
  rewrite (checkStatus_fetched cfg env st _ Hst).
  rewrite (checkStatus_fetched cfg
             (Scenario.withStatus (Some (mkStatus IDLE (job st))) env)
             (mkStatus IDLE (job st)) _ eq_refl).
  rewrite !first_poll_no_start by auto. cbn [fst snd].
  destruct (cleared_world env w) as [H1 [H2 H3]].
  split; [reflexivity|]. split.
  { unfold noSpawn. cbn [fst snd]. rewrite H1, H2, spawnCount_app,
      spawnCount_clearing. repeat split; auto. }
  split; [exact H2|]. split; [exact H3|]. split; [reflexivity|].
  unfold setLastPrinterState. cbn. rewrite Hp.
  unfold jobIdOf. reflexivity.
Qed.

Lemma first_poll_printing_without_job_witness :
  (status_result (Scenario.withStatus (Some Scenario.statusNoJob) Scenario.smooth)
   = Some Scenario.statusNoJob
   /\ printer_state Scenario.statusNoJob = PRINTING
   /\ jobIdOf Scenario.statusNoJob = None)
  /\ let env := Scenario.withStatus (Some Scenario.statusNoJob) Scenario.smooth in
     let s' := snd (checkStatus Scenario.cfg60 env
                       (newMonitor, Scenario.framesWorld)) in
     let idle :=
       snd (checkStatus Scenario.cfg60
              (Scenario.withStatus (Some (mkStatus IDLE None)) env)
              (newMonitor, Scenario.framesWorld)) in
     capturingOf s' = false
     /\ noSpawn (newMonitor, Scenario.framesWorld) s'
     /\ trace (snd s')
        = map EUnlink ["img_00001.jpg"; "img_00002.jpg"; "img_00003.jpg"]
     /\ frameFiles (snd s') = []
     /\ snd s' = snd idle
     /\ fst s' = setLastPrinterState (Some PRINTING) (fst idle).
Proof.
  split; [repeat split|].
  apply (first_poll_printing_without_job Scenario.cfg60
           (Scenario.withStatus (Some Scenario.statusNoJob) Scenario.smooth)
           Scenario.framesWorld Scenario.statusNoJob); reflexivity.
Defined.

(** C10, as stated, fails. On a first poll that reports PRINTING
    without a job identifier over three frames of an earlier run, the
    second of which cannot be unlinked, the frames are not cleared: the
    second and the third stay, and a later start would resume from
    them. *)
Lemma first_poll_clearing_can_fail :
  let env := Scenario.withStatus (Some Scenario.statusNoJob) Scenario.stuck in
  let s' := snd (checkStatus Scenario.cfg60 env
                   (newMonitor, Scenario.framesWorld)) in
  status_result env = Some Scenario.statusNoJob
  /\ jobIdOf Scenario.statusNoJob = None
  /\ trace (snd s')
     = [EUnlink "img_00001.jpg"; EUnlinkFailed "img_00002.jpg"]
  /\ tempDir (snd s') = Some ["img_00002.jpg"; "img_00003.jpg"]
  /\ canResume (snd s') = true.
Proof. repeat split. Qed.

End FirstPoll.

(** * End-to-end runs *)

Section Runs.

Import Timelapse Monitor Scenario.

(** First poll inactive, no earlier frames: nothing starts. *)
Example run_idle_start :
  checkStatus cfg60 (report IDLE 0) (newMonitor, emptyWorld)
  = (Val tt,
     (mkMonitor (Some 9) None (Some IDLE) None false newCapture, emptyWorld)).
Proof. reflexivity. Qed.

(** Idle, then PRINTING with job 9: a fresh capture at frame 1, stale
    frames unlinked first; a heartbeat re-extends the deadline; a
    non-PRINTING state stops, assembles, unlinks and notifies. *)
Example run_whole_job :
  let s1 := snd (checkStatus cfg60 (report IDLE 0) (newMonitor, framesWorld)) in
  let s2 := snd (checkStatus cfg60 (report PRINTING 10000) s1) in
  let s3 := snd (checkStatus cfg60 (report PRINTING 20000)
                   (writeFrames ["img_00001.jpg"; "img_00002.jpg"] s2)) in
  let s4 := snd (checkStatus cfg60 (report FINISHED 30000) s3) in
  watchdogExpiry (fst s2) = Some 70000
  /\ watchdogExpiry (fst s3) = Some 80000
  /\ fst s4 = mkMonitor (Some 9) None (Some FINISHED) None false newCapture
  /\ tempDir (snd s4) = Some []
  /\ trace (snd s4)
     = [EUnlink "img_00001.jpg"; EUnlink "img_00002.jpg";
        EUnlink "img_00003.jpg";
        ESpawnCapture (Js.Fin 1);
        EKill 0 SIGTERM; ESetTimeout 5000;
        ESpawnAssemble "/out" "timelapse_benchy_2024-01-02T03-04-05.mp4";
        EUnlink "img_00001.jpg"; EUnlink "img_00002.jpg";
        ENotify "/out" "timelapse_benchy_2024-01-02T03-04-05.mp4"].
Proof. repeat split. Qed.

(** A capture resumed at time 1000 with a 60 s watchdog, then an outage:
    a failing fetch before the deadline changes nothing, one after it
    forces the completion although PRINTING is the last state seen. *)
Example run_watchdog :
  let early := withNowCheck 60999 (withStatus None smooth) in
  let late := withStop GraceElapses (withNowCheck 61000 (withStatus None smooth)) in
  checkStatus cfg60 early resumed = (Val tt, resumed)
  /\ let s' := snd (checkStatus cfg60 late resumed) in
     fst s' = mkMonitor (Some 7) None (Some PRINTING) None false newCapture
     /\ trace (snd s')
        = [ESpawnCapture (Js.Fin 4);
           EKill 0 SIGTERM; ESetTimeout 5000; EKill 0 SIGKILL;
           ESpawnAssemble "/out" "timelapse_benchy_2024-01-02T03-04-05.mp4";
           EUnlink "img_00001.jpg"; EUnlink "img_00002.jpg";
           EUnlink "img_00003.jpg";
           ENotify "/out" "timelapse_benchy_2024-01-02T03-04-05.mp4"].
Proof. repeat split. Qed.

(** The assembly fails for want of frames: nothing is unlinked, no
    notification is sent, capturing is off. *)
Example run_failed_assembly :
  let s1 := snd (checkStatus cfg60 (report PRINTING 0) (newMonitor, emptyWorld)) in
  let s2 := snd (checkStatus cfg60 (report FINISHED 10000)
                   (writeFrames ["notes.txt"] s1)) in
  capturingOf s2 = false
  /\ tempDir (snd s2) = Some ["notes.txt"]
  /\ trace (snd s2)
     = [ESpawnCapture (Js.Fin 1); EKill 0 SIGTERM; ESetTimeout 5000].
Proof. repeat split. Qed.

(** File names the frame pattern accepts, and the numbers read off them. *)
Example run_frame_names :
  map isFrame ["img_00001.jpg"; "img_.jpg"; "ximg_1.jpg"; "img_1.jpeg"]
  = [true; true; false; false]
  /\ map frameNumber ["img_00012.jpg"; "img_abc.jpg"; "img_x_img_7.jpg"]
     = [Js.Fin 12; Js.Fin 0; Js.Fin 7].
Proof. split; reflexivity. Qed.

End Runs.

(** * Further properties of the capture manager *)

Section FrameFiles.

Import Timelapse TimelapseInfo.

Lemma Num_max_cases a b : Js.Num_max a b = a \/ Js.Num_max a b = b.
Proof.
  destruct a as [x|], b as [y|]; cbn; auto.
  destruct (Z.max_spec x y) as [[_ ->]|[_ ->]]; auto.
Qed.

Lemma Math_max_attained xs : forall x, In (Js.Math_max x xs) (x :: xs).
Proof.
  unfold Js.Math_max. induction xs as [|y ys IH]; intros x; cbn; [auto|].
  destruct (IH (Js.Num_max x y)) as [H|H].
  - rewrite <- H. destruct (Num_max_cases x y) as [-> | ->]; auto.
  - auto.
Qed.

(** X1. [getHighestFrameNumber()] is 0 when the temp directory holds no
    frame file (or is missing), and 0 again when it holds more frame
    files than a call takes arguments, since the [RangeError] of
    [Math.max(...frameNumbers)] is caught; otherwise it is the number
    read off one of the frame files, and no frame file has a greater
    number. *)
Theorem getHighestFrameNumber_is_max env w :
  match frameFiles w with
  | [] => getHighestFrameNumber env w = Js.Fin 0
  | _ :: _ =>
      if max_arguments env <? getCapturedFrameCount w
      then getHighestFrameNumber env w = Js.Fin 0
      else
        (exists f, In f (frameFiles w)
                   /\ frameNumber f = getHighestFrameNumber env w)
        /\ (forall f, In f (frameFiles w) ->
                      Js.Num_le (frameNumber f) (getHighestFrameNumber env w))
  end.
Proof.
  destruct (frameFiles w) as [|f0 fs] eqn:E.
  - unfold getHighestFrameNumber. now rewrite E.
  - destruct (max_arguments env <? getCapturedFrameCount w) eqn:Hmax.
    + now apply highest_overflow.
    + split.
      * unfold getHighestFrameNumber, getCapturedFrameCount in *.
        rewrite E in *. cbn [map].
        rewrite <- (length_map frameNumber) in Hmax. cbn [map] in Hmax.
        rewrite Hmax.
        pose proof (Math_max_attained (map frameNumber fs) (frameNumber f0))
          as H.
        change (frameNumber f0 :: map frameNumber fs)
          with (map frameNumber (f0 :: fs)) in H.
        apply in_map_iff in H as [f [Hf Hin]]. exists f. auto.
      * intros f Hin. apply highest_bounds_frames; [exact Hmax|].
        now rewrite E.
Qed.

Lemma takeWhile_In {A} (p : A -> bool) l x :
  In x (takeWhile p l) -> In x l /\ p x = true.
Proof.
  induction l as [|y t IH]; cbn; [tauto|].
  destruct (p y) eqn:E; [|intros []].
  intros [<-|H]; [auto|]. destruct (IH H). auto.
Qed.

Lemma takeWhile_dropWhile_app {A} (p : A -> bool) l :
  takeWhile p l ++ dropWhile p l = l.
Proof.
  induction l as [|y t IH]; cbn; [reflexivity|].
  destruct (p y); cbn; [now rewrite IH|reflexivity].
Qed.

(** X2. [clearFrames()] unlinks the frame files in directory order up
    to the first one whose [unlinkSync] throws, and stops there: the
    frame files are the ones unlinked followed by the ones left, every
    unlinked one could be unlinked, the first one left could not, and
    every other file is kept. [canResume()] is false afterwards exactly
    when no frame file is left, which is the case when no [unlinkSync]
    throws; a second attempt with the same outcomes unlinks nothing. A
    missing directory is left alone. *)
Theorem clearFrames_exact env w :
  let w' := clearFramesW env w in
  trace w' = trace w ++ clearingEvents env w
  /\ frameFiles w = unlinkedFrames env w ++ frameFiles w'
  /\ (forall f, In f (unlinkedFrames env w) -> unlink_ok env f = true)
  /\ match frameFiles w' with
     | f :: _ => unlink_ok env f = false /\ canResume w' = true
     | [] => canResume w' = false
     end
  /\ (forall f, isFrame f = false -> (In f (dirFiles w') <-> In f (dirFiles w)))
  /\ (forallb (unlink_ok env) (frameFiles w) = true ->
      frameFiles w' = []
      /\ clearingEvents env w = map EUnlink (frameFiles w))
  /\ unlinkedFrames env w' = []
  /\ match tempDir w with
     | None => w' = w
     | Some _ => procs w' = procs w /\ pending w' = pending w
     end.
Proof.
  cbv zeta. split; [apply clearFramesW_trace_any|].
  rewrite !clearFramesW_frames.
  split.
  { unfold unlinkedFrames, keptFrames.
    now rewrite takeWhile_dropWhile_app. }
  split.
  { intros f Hf. now apply takeWhile_In in Hf. }
  split.
  { unfold canResume, getCapturedFrameCount.
    rewrite clearFramesW_frames. unfold keptFrames.
    induction (frameFiles w) as [|f fs IH]; cbn; [reflexivity|].
    destruct (unlink_ok env f) eqn:E; [exact IH|].
    split; [exact E|reflexivity]. }
  split.
  { intros f Hf. unfold dirFiles, clearFramesW.
    destruct (tempDir w) as [files|] eqn:E; [|rewrite E; tauto].
    destruct (unlinkFrames_spec (unlink_ok env) files) as [_ [_ H]].
    destruct (unlinkFrames (unlink_ok env) files) as [es left].
    cbn in *.
    assert (Hin : forall l, In f l
                  <-> In f (filter (fun g => negb (isFrame g)) l)).
    { intros l. rewrite filter_In, Hf. cbn. tauto. }
    rewrite (Hin left), (Hin files), H. tauto. }
  split.
  { intros Hall. destruct (clearing_succeeds env w Hall) as [H1 H2]. auto. }
  split.
  { unfold unlinkedFrames. rewrite clearFramesW_frames. unfold keptFrames.
    apply takeWhile_dropWhile. }
  unfold clearFramesW. destruct (tempDir w) as [files|]; [|reflexivity].
  destruct (unlinkFrames (unlink_ok env) files); split; reflexivity.
Qed.

(** *** Frame names *)

(** X3. A file named [img_], one or more decimal digits, [.jpg] passes
    the frame filter, and the number [getHighestFrameNumber] reads off it
    is the double nearest to the value of the digits: that value itself
    when it is below 2^53, never a negative number, and the same with
    leading zeros. *)
Theorem frame_name_parses d :
  Js.allChars Js.isDigit d = true ->
  Js.truthy d = true ->
  let value := Js.parseDigits 0 d in
  isFrame ("img_" ++ d ++ ".jpg") = true
  /\ frameNumber ("img_" ++ d ++ ".jpg") = Js.roundDouble value
  /\ (value < 2 ^ 53 -> frameNumber ("img_" ++ d ++ ".jpg") = Js.Fin value)
  /\ Js.Num_le (Js.Fin 0) (frameNumber ("img_" ++ d ++ ".jpg"))
  /\ forall k,
       frameNumber ("img_" ++ (string_of_list_ascii (repeat "0"%char k) ++ d)
                    ++ ".jpg")
       = frameNumber ("img_" ++ d ++ ".jpg").
Proof.
  intros Hd Hne. cbv zeta.
  destruct (digits_name d Hd Hne) as [H1 [H2 H3]].
  split; [exact H1|]. split; [exact H2|]. split.
  { intros Hv. rewrite H2. now apply roundDouble_small. }
  split.
  { rewrite H2. unfold Js.parseInt.
    destruct (Z.lt_ge_cases (Js.parseDigits 0 d) (2 ^ 53)) as [Hs|Hl].
    - rewrite roundDouble_small by exact Hs. exact H3.
    - pose proof (roundDouble_large _ Hl) as Hr.
      destruct (Js.roundDouble (Js.parseDigits 0 d)); cbn in *; [lia|exact I]. }
  intros k.
  destruct (digits_name (string_of_list_ascii (repeat "0"%char k) ++ d))
    as [_ [E _]].
  - now rewrite allChars_app, zeros_digits, Hd.
  - destruct k; [exact Hne|reflexivity].
  - rewrite E, H2. unfold Js.parseInt. now rewrite parseDigits_zeros.
Qed.

Lemma frame_name_parses_witness :
  (Js.allChars Js.isDigit "9007199254740993" = true
   /\ Js.truthy "9007199254740993" = true)
  /\ isFrame "img_9007199254740993.jpg" = true
  /\ frameNumber "img_9007199254740993.jpg" = Js.Fin 9007199254740992
  /\ (9007199254740993 < 2 ^ 53 ->
      frameNumber "img_9007199254740993.jpg" = Js.Fin 9007199254740993)
  /\ Js.Num_le (Js.Fin 0) (frameNumber "img_9007199254740993.jpg")
  /\ forall k,
       frameNumber ("img_" ++ (string_of_list_ascii (repeat "0"%char k)
                               ++ "9007199254740993") ++ ".jpg")
       = frameNumber "img_9007199254740993.jpg".
Proof.
  split; [split; reflexivity|].
  apply (frame_name_parses "9007199254740993"); reflexivity.
Defined.


(** *** Frame information *)

Lemma strLe_cases a b :
  strLe a b = true <-> a = b \/ String_as_OT.lt a b.
Proof.
  unfold strLe. destruct (String_as_OT.compare_spec a b) as [E|L|G].
  - split; auto.
  - split; auto.
  - split; [discriminate|]. intros [->|L].
    + exfalso. eapply (StrictOrder_Irreflexive (R := String_as_OT.lt)), G.
    + exfalso. eapply (StrictOrder_Irreflexive (R := String_as_OT.lt)).
      eapply (StrictOrder_Transitive (R := String_as_OT.lt)); eassumption.
Qed.

Lemma strLe_trans a b c :
  strLe a b = true -> strLe b c = true -> strLe a c = true.
Proof.
  rewrite !strLe_cases. intros [->|L1] [->|L2]; auto.
  right. eapply (StrictOrder_Transitive (R := String_as_OT.lt)); eassumption.
Qed.

Lemma strLe_total a b : strLe a b = false -> strLe b a = true.
Proof.
  unfold strLe at 1. destruct (String_as_OT.compare_spec a b) as [E|L|G];
    try discriminate.
  intros _. apply strLe_cases. auto.
Qed.

Lemma strLe_refl a : strLe a a = true.
Proof. apply strLe_cases. auto. Qed.

Lemma insertSorted_In x l y : In y (insertSorted x l) <-> y = x \/ In y l.
Proof.
  induction l as [|z t IH]; cbn; [intuition|].
  destruct (strLe x z); cbn; rewrite ?IH; intuition.
Qed.

Lemma sort_In l y : In y (sort l) <-> In y l.
Proof.
  induction l as [|x t IH]; cbn; [tauto|].
  rewrite insertSorted_In, IH. intuition.
Qed.

Lemma insertSorted_sorted x l :
  StronglySorted (fun a b => strLe a b = true) l ->
  StronglySorted (fun a b => strLe a b = true) (insertSorted x l).
Proof.
  induction 1 as [|z t Hs IH Hall]; cbn.
  - constructor; constructor.
  - destruct (strLe x z) eqn:E.
    + constructor; [constructor; assumption|].
      constructor; [exact E|].
      rewrite Forall_forall in *. intros y Hy.
      eapply strLe_trans; [exact E|auto].
    + constructor; [exact IH|].
      rewrite Forall_forall in *. intros y Hy.
      apply insertSorted_In in Hy as [->|Hy]; [now apply strLe_total|auto].
Qed.

Lemma sort_sorted l : StronglySorted (fun a b => strLe a b = true) (sort l).
Proof.
  induction l as [|x t IH]; cbn; [constructor|now apply insertSorted_sorted].
Qed.

Lemma sorted_last_max l :
  StronglySorted (fun a b => strLe a b = true) l ->
  forall y, In y l -> strLe y (last l "") = true.
Proof.
  induction 1 as [|z t Hs IH Hall]; intros y Hy; [destruct Hy|].
  destruct t as [|z' t'].
  - destruct Hy as [->|[]]. apply strLe_refl.
  - change (last (z :: z' :: t') "") with (last (z' :: t') "").
    destruct Hy as [->|Hy]; [|auto].
    rewrite Forall_forall in Hall.
    eapply strLe_trans; [apply (Hall z'); now left|].
    apply IH. now left.
Qed.

Lemma last_In (l : list string) d : l <> [] -> In (last l d) l.
Proof.
  induction l as [|x t IH]; [congruence|]. intros _.
  destruct t as [|y t']; [now left|].
  right. apply IH. discriminate.
Qed.

(** X5. [getFrameInfo()] counts what [getCapturedFrameCount()] counts,
    reports no last frame exactly when there is no frame file, and
    otherwise reports a frame file of the directory that no other frame
    file follows in code-unit order. *)
Theorem getFrameInfo_last w :
  count (getFrameInfo w) = getCapturedFrameCount w
  /\ match lastFrame (getFrameInfo w) with
     | None => frameFiles w = []
     | Some f =>
         In f (frameFiles w)
         /\ forall g, In g (frameFiles w) -> strLe g f = true
     end.
Proof.
  unfold getFrameInfo, getCapturedFrameCount, frameFiles.
  destruct (tempDir w) as [files|]; [|split; reflexivity].
  destruct (filter isFrame files) as [|f0 fs] eqn:E; [split; reflexivity|].
  cbn [count lastFrame]. split; [reflexivity|]. split.
  - apply sort_In. apply last_In.
    intros H. assert (Hin : In f0 (sort (f0 :: fs))) by (apply sort_In; now left).
    rewrite H in Hin. destruct Hin.
  - intros g Hg. apply sorted_last_max; [apply sort_sorted|now apply sort_In].
Qed.

End FrameFiles.

Section CaptureLifeCycle.

Import Timelapse.

(** X6. In the capture manager's transition system [isCapturing] turns
    from false to true only in a step that spawned a subprocess and
    stored its fresh handle: no event, timer, stop or clearing of frames
    turns capturing on. *)
Theorem capturing_on_only_by_spawn s s' :
  step s s' ->
  isCapturing (fst s) = false ->
  isCapturing (fst s') = true ->
  exists st,
    procs (snd s') = procs (snd s) ++ [st]
    /\ captureProcess (fst s') = Some (List.length (procs (snd s))).
Proof.
  intros Hstep Hoff Hon. destruct Hstep as
    [env resume [c w] _|env [c w] _|env [c w] _|[c w] files f Hdir|[c w] p Hp
    |[c w] p _ Hp|[c w] _ Htimer]; cbn [fst snd] in *.
  - destruct (startCapture_cases env resume c w) as [[Hc Hw]|[st [Hc Hw]]].
    + rewrite Hc in Hon. congruence.
    + exists st. rewrite Hc, Hw. auto.
  - destruct (stopCapture_cases env c w) as [[Hc|Hc] _];
      rewrite Hc in Hon; [congruence|discriminate].
  - cbn in Hon. congruence.
  - cbn in Hon. congruence.
  - discriminate.
  - unfold exitEvent in Hon. cbn [fst snd] in Hon.
    destruct (existsb _ _); discriminate.
  - discriminate.
Qed.

Lemma capturing_on_only_by_spawn_witness :
  (step (Scenario.newCapture, Scenario.framesWorld) Scenario.midCapture
   /\ isCapturing (fst (Scenario.newCapture, Scenario.framesWorld)) = false
   /\ isCapturing (fst Scenario.midCapture) = true)
  /\ exists st,
       procs (snd Scenario.midCapture)
       = procs (snd (Scenario.newCapture, Scenario.framesWorld)) ++ [st]
       /\ captureProcess (fst Scenario.midCapture)
          = Some (List.length
                    (procs (snd (Scenario.newCapture, Scenario.framesWorld)))).
Proof.
  assert (H : step (Scenario.newCapture, Scenario.framesWorld)
                   Scenario.midCapture) by (apply step_start; reflexivity).
  split; [split; [exact H|split; reflexivity]|].
  apply (capturing_on_only_by_spawn _ _ H); reflexivity.
Defined.

(** X7. A capture that was stopped can be started again: after
    [stopCapture] has resolved on a capturing manager, a [startCapture]
    whose temp directory and spawn succeed is accepted, stores a handle
    different from the one just released, and sets [isCapturing]. *)
Theorem stop_then_start env env' resume c w p :
  isCapturing c = true ->
  captureProcess c = Some p ->
  (p < List.length (procs w))%nat ->
  stop_outcome env <> KillThrows ->
  mkdir_temp_ok env' = true ->
  spawn_outcome env' <> SpawnThrows ->
  let stopped := stopCapture env (c, w) in
  let started := startCapture env' resume (snd stopped) in
  fst stopped = Val tt
  /\ fst started = Val tt
  /\ isCapturing (fst (snd started)) = true
  /\ exists q, captureProcess (fst (snd started)) = Some q /\ q <> p.
Proof.
  intros Hc Hp Hlt Hstop Hmk Hsp. cbv zeta.
  assert (H : exists w1,
             stopCapture env (c, w) = (Val tt, (mkCapture None false, w1))
             /\ List.length (procs w1) = List.length (procs w)).
  { unfold stopCapture, onGraceTimer. cbn [fst snd]. rewrite Hc, Hp.
    destruct (stop_outcome env); [congruence| |]; cbn; rewrite ?Hp;
      eexists; (split; [reflexivity|]); cbn; now rewrite ?setNth_length. }
  destruct H as [w1 [-> Hlen]]. cbn [fst snd]. split; [reflexivity|].
  rewrite startCapture_launch by (auto; reflexivity). cbv zeta.
  destruct (spawn_outcome env') as [|launched]; [congruence|].
  cbn [fst snd captureProcess isCapturing]. split; [reflexivity|].
  split; [reflexivity|]. eexists. split; [reflexivity|].
  destruct (resume && canResume (mkdirTemp w1)); cbn;
    rewrite ?clearFramesW_procs, ?mkdirTemp_procs; lia.
Qed.

Lemma stop_then_start_witness :
  (isCapturing (fst Scenario.midCapture) = true
   /\ captureProcess (fst Scenario.midCapture) = Some 0%nat
   /\ (0 < List.length (procs (snd Scenario.midCapture)))%nat
   /\ stop_outcome Scenario.smooth <> KillThrows
   /\ mkdir_temp_ok Scenario.smooth = true
   /\ spawn_outcome Scenario.smooth <> SpawnThrows)
  /\ let stopped := stopCapture Scenario.smooth Scenario.midCapture in
     let started := startCapture Scenario.smooth true (snd stopped) in
     fst stopped = Val tt
     /\ fst started = Val tt
     /\ isCapturing (fst (snd started)) = true
     /\ exists q, captureProcess (fst (snd started)) = Some q /\ q <> 0%nat.
Proof.
  split.
  - repeat split; try reflexivity; try discriminate. cbn. lia.
  - apply (stop_then_start Scenario.smooth Scenario.smooth true
             (fst Scenario.midCapture) (snd Scenario.midCapture) 0%nat);
      try reflexivity; try discriminate. cbn. lia.
Defined.

End CaptureLifeCycle.

(** * Further properties of the print monitor *)

(** Tactic: name [x] the transition handling at the head of
    [processStatus]. *)
Ltac head_transition x :=
  unfold Monitor.processStatus;
  unfold bind at 1; unfold gets at 1; cbv beta iota;
  unfold bind at 1; unfold gets at 1; cbv beta iota;
  match goal with |- context [bind ?X _] => set (x := X) end.

Section TickFacts.

Import Timelapse Monitor Ticks.

Variable cfg : Config.

Lemma handlePrintStarted_guarded env j r s :
  capturingOf s = true -> handlePrintStarted cfg env j r s = (Val tt, s).
Proof.
  intros H. unfold handlePrintStarted, capturing, bind, gets, ret.
  unfold capturingOf in H. unfold isCurrentlyCapturing. now rewrite H.
Qed.

(** The transition handling of a tick never spawns unless the start
    condition holds. *)
Lemma processStatus_noSpawn_unless env st s :
  status_result env = Some st ->
  startCondition s env = false ->
  noSpawn s (snd (processStatus cfg env st s)).
Proof.
  intros Hst Hcond. unfold startCondition in Hcond. rewrite Hst in Hcond.
  destruct (jobIdOf st) as [j|] eqn:Hj.
  2:{ now apply processStatus_noSpawn. }
  revert Hcond. head_transition x. intros Hcond.
  assert (Hx : noSpawn s (snd (x s))).
  { subst x. rewrite Hj.
    destruct (isPrinting (Some (printer_state st))) eqn:Hp; cbn [andb] in Hcond.
    - destruct (capturingOf s) eqn:Hc.
      + (* already capturing: the guard of handlePrintStarted *)
        destruct (isFirstCheck (fst s)).
        * unfold bind at 1, modify at 1. cbv beta iota.
          unfold bind at 1, gets at 1. cbv beta iota.
          destruct (canResume _);
            rewrite handlePrintStarted_guarded by exact Hc;
            repeat split; auto.
        * destruct (negb (isPrinting (lastPrinterState (fst s)))); cbn [andb].
          -- rewrite handlePrintStarted_guarded by exact Hc. apply noSpawn_refl.
          -- destruct (isPrinting (lastPrinterState (fst s)) && negb true);
               [apply handlePrintFinished_noSpawn|].
             unfold capturing.
             apply (preserves_bind noSpawn noSpawn_trans);
               [apply (preserves_gets noSpawn noSpawn_refl)|].
             intros c. destruct (c && true);
               [apply resetWatchdog_noSpawn
               |apply (preserves_ret noSpawn noSpawn_refl)].
      + cbn [negb] in Hcond. rewrite andb_true_r in Hcond.
        apply orb_false_elim in Hcond as [Hf Hprev]. rewrite Hf, Hprev.
        cbn [andb]. apply negb_false_iff in Hprev. rewrite Hprev. cbn [andb negb].
        unfold capturing.
        apply (preserves_bind noSpawn noSpawn_trans);
          [apply (preserves_gets noSpawn noSpawn_refl)|].
        intros c. destruct (c && true);
          [apply resetWatchdog_noSpawn
          |apply (preserves_ret noSpawn noSpawn_refl)].
    - rewrite andb_false_r.
      match goal with |- noSpawn s (snd (?m s)) =>
        assert (Hm : preserves noSpawn m) end.
      { unfold capturing.
        pres noSpawn_refl noSpawn_trans;
          auto using clear_noSpawn, handlePrintFinished_noSpawn,
            resetWatchdog_noSpawn;
          now apply onMonitor_noSpawn. }
      apply Hm. }
  rewrite (bind_noThrow x).
  - eapply noSpawn_trans; [exact Hx|].
    match goal with |- noSpawn ?a (snd (?m ?a)) =>
      assert (Hm : preserves noSpawn m) end.
    { pres noSpawn_refl noSpawn_trans;
        auto using checkWatchdog_noSpawn; now apply onMonitor_noSpawn. }
    apply Hm.
  - subst x. unfold capturing. total;
      auto using clear_noThrow, handlePrintStarted_noThrow,
        handlePrintFinished_noThrow, resetWatchdog_noThrow.
Qed.

(** X8. A tick spawns a capture subprocess only under the start
    condition: the fetch succeeded with PRINTING and a job identifier,
    on the first poll or after a state other than PRINTING, with no
    capture running. On every other tick (failed fetch, other state, no
    job identifier, PRINTING already seen, capture already running) no
    spawn is issued, no subprocess is created and capturing is not
    turned on. *)
Theorem spawn_only_on_start_transition env s :
  startCondition s env = false ->
  noSpawn s (snd (checkStatus cfg env s)).
Proof.
  intros Hcond. destruct (status_result env) as [st|] eqn:Hst.
  - rewrite (checkStatus_fetched cfg env st s Hst).
    now apply processStatus_noSpawn_unless.
  - assert (E : checkStatus cfg env s = checkWatchdog cfg env s).
    { unfold checkStatus, tryCatch, bind, getStatus. now rewrite Hst. }
    rewrite E. apply checkWatchdog_noSpawn.
Qed.


(** X9. A start that fails is swallowed by [handlePrintStarted]: when
    [getJob] rejects, the temp directory cannot be created or [spawn]
    throws, the method still returns normally, no capture is running, no
    subprocess exists, and the watchdog deadline is as before: the
    watchdog is armed only after a successful start. When it is [getJob]
    that rejects, nothing at all has changed. *)
Theorem failed_start_is_swallowed env j r s :
  capturingOf s = false ->
  startFails env = true ->
  let res := handlePrintStarted cfg env j r s in
  fst res = Val tt
  /\ capturingOf (snd res) = false
  /\ watchdogExpiry (fst (snd res)) = watchdogExpiry (fst s)
  /\ procs (snd (snd res)) = procs (snd s)
  /\ match job_result env with
     | JobThrows => snd res = s
     | JobInfo _ => True
     end.
Proof.
  intros Hc Hfail. cbv zeta. destruct s as [m w].
  unfold capturingOf in *. cbn [fst snd] in *.
  unfold startFails in Hfail.
  unfold handlePrintStarted, capturing, getJob, startWatchdog, liftC,
    clearFrames, isCurrentlyCapturing.
  unfold bind, ret, throw, gets, modify, tryCatch.
  cbn [fst snd]. rewrite Hc.
  destruct (job_result env) as [|name].
  { cbn. repeat split; auto. }
  assert (Hstart : forall resume c' w',
            isCapturing c' = false ->
            exists e w'',
              startCapture env resume (c', w') = (Exn e, (c', w''))
              /\ procs w'' = procs w').
  { intros resume c' w' Hc'. destruct (spawn_outcome env) as [|l] eqn:Hsp.
    - destruct (mkdir_temp_ok env) eqn:Hmk.
      + rewrite startCapture_launch by assumption. cbv zeta. rewrite Hsp.
        eexists. eexists. split; [reflexivity|].
        destruct (resume && canResume (mkdirTemp w')); cbn;
          now rewrite ?clearFramesW_procs, ?mkdirTemp_procs.
      + rewrite startCapture_mkdir_fails by assumption.
        eexists. eexists. split; reflexivity.
    - apply negb_true_iff in Hfail.
      rewrite startCapture_mkdir_fails by assumption.
      eexists. eexists. split; reflexivity. }
  destruct m as [pid fname lst exp first c]. cbn [timelapseCapture] in Hc.
  destruct name as [n|]; [destruct (Js.truthy n)|];
    cbn -[startCapture clearFramesW canResume];
    destruct (r && canResume w); [|destruct (negb r)| |destruct (negb r)
                                  | |destruct (negb r)];
    cbn -[startCapture clearFramesW canResume];
    match goal with
    | |- context [startCapture env r (c, ?W)] =>
        destruct (Hstart r c W Hc) as [e [w2 [-> Hp]]]
    end;
    cbn [fst snd]; unfold setTimelapseCapture; cbn;
    rewrite ?Hp, ?clearFramesW_procs;
    repeat split; auto.
Qed.

(** X10. The watchdog fires at most once per arming: after a check
    that fired, the deadline is gone and any further check, at any later
    time, does nothing until the watchdog is armed again. *)
Theorem watchdog_fires_once env env' s d :
  watchdogTimeout cfg > 0 ->
  capturingOf s = true ->
  watchdogExpiry (fst s) = Some d ->
  now_check env >= d ->
  let s' := snd (checkWatchdog cfg env s) in
  watchdogExpiry (fst s') = None
  /\ checkWatchdog cfg env' s' = (Val tt, s').
Proof.
  intros Ht Hc He Hnow. cbv zeta.
  assert (E : checkWatchdog cfg env s
              = handlePrintFinished cfg env (currentPrintId (fst s)) s).
  { unfold checkWatchdog, capturing.
    unfold bind at 1, gets at 1. cbv beta iota.
    unfold bind at 1, gets at 1. cbv beta iota.
    unfold capturingOf in Hc. unfold isCurrentlyCapturing.
    rewrite Hc, He.
    replace (watchdogTimeout cfg <=? 0) with false
      by (symmetry; apply Z.leb_gt; lia).
    replace (now_check env >=? d) with true
      by (symmetry; rewrite Z.geb_leb; apply Z.leb_le; lia).
    cbn [orb negb]. rewrite tryCatch_noThrow.
    - reflexivity.
    - total. apply handlePrintFinished_noThrow. }
  rewrite E.
  pose proof (handlePrintFinished_clears_watchdog cfg env
                (currentPrintId (fst s)) s) as Hnone.
  split; [exact Hnone|].
  unfold checkWatchdog, capturing.
  unfold bind at 1, gets at 1. cbv beta iota.
  unfold bind at 1, gets at 1. cbv beta iota.
  rewrite Hnone. now destruct (_ || _).
Qed.


(** Tactic: compute a tick, leaving the capture manager's calls and the
    arithmetic of the watchdog folded. *)
Ltac tick :=
  cbn -[startCapture stopCapture assembleVideo clearFramesW canResume
        getHighestFrameNumber Z.mul Z.add Z.leb Z.geb Z.ltb].


(** X12. A heartbeat does nothing but extend the deadline: on a tick
    past the first, with PRINTING seen before and now, and a capture
    running, the tick only records the observation and, when the
    watchdog is enabled, sets the deadline to now plus the timeout; the
    world is untouched. *)
Theorem heartbeat_only_resets env m w st :
  status_result env = Some st ->
  isFirstCheck m = false ->
  isPrinting (lastPrinterState m) = true ->
  isPrinting (Some (printer_state st)) = true ->
  isCapturing (timelapseCapture m) = true ->
  ((watchdogTimeout cfg <=? 0)
   || (now_check env <? now_arm env + watchdogTimeout cfg * 1000)) = true ->
  checkStatus cfg env (m, w)
  = (Val tt,
     (setCurrentPrintId (jobIdOf st)
        (setLastPrinterState (Some (printer_state st))
           (if watchdogTimeout cfg <=? 0 then m
            else setWatchdogExpiry
                   (Some (now_arm env + watchdogTimeout cfg * 1000)) m)),
      w)).
Proof.
  intros Hst Hfirst Hprev Hp Hc Hwd.
  rewrite (checkStatus_fetched cfg env st _ Hst).
  destruct m as [pid fname lst exp first [h cap]]. cbn in Hfirst, Hprev, Hc.
  subst first cap.
  unfold processStatus, capturing, resetWatchdog, checkWatchdog,
    isCurrentlyCapturing.
  rewrite Hp.
  unfold bind, ret, throw, gets, modify, tryCatch, tryFinally.
  tick. rewrite Hprev. tick.
  destruct (jobIdOf st); tick;
    destruct (watchdogTimeout cfg <=? 0) eqn:Ht; tick; rewrite ?Ht; tick;
    try reflexivity;
    rewrite orb_false_l in Hwd; rewrite (not_expired cfg env Hwd); reflexivity.
Qed.


(** **** What a tick keeps *)

Lemma firstDone_refl s : firstDone s s.
Proof. intros H. exact H. Qed.

Lemma firstDone_trans a b c : firstDone a b -> firstDone b c -> firstDone a c.
Proof. unfold firstDone. auto. Qed.

Lemma liftC_firstDone {A} (m : M Timelapse.St A) : preserves firstDone (liftC m).
Proof.
  intros [pm w]. unfold liftC, firstDone. cbn [fst snd].
  now destruct (m (timelapseCapture pm, w)) as [r [c' w']].
Qed.

Lemma liftW_firstDone {A} (m : M World A) : preserves firstDone (liftW m).
Proof.
  intros [pm w]. unfold liftW, firstDone. cbn [fst snd].
  now destruct (m w) as [r w'].
Qed.

Lemma getJob_firstDone env : preserves firstDone (getJob env).
Proof. intros s. unfold getJob. destruct (job_result env); exact (fun H => H). Qed.

Lemma getStatus_firstDone env : preserves firstDone (getStatus env).
Proof.
  intros s. unfold getStatus. destruct (status_result env); exact (fun H => H).
Qed.

Lemma checkStatus_firstDone env : preserves firstDone (checkStatus cfg env).
Proof.
  unfold checkStatus, processStatus, checkWatchdog, handlePrintStarted,
    handlePrintFinished, resetWatchdog, startWatchdog, clearWatchdog,
    stopTimelapseCapture, generateOutputPath, sendNotification, capturing.
  pres firstDone_refl firstDone_trans;
    auto using liftC_firstDone, liftW_firstDone, getJob_firstDone,
      getStatus_firstDone;
    intros; try apply preserves_modify; intros; unfold firstDone;
    cbn; auto.
Qed.

(** X13. A print whose start was missed is never captured: once
    PRINTING is the recorded state, ticks on which the device still
    reports PRINTING, or cannot be reached, never spawn a capture
    subprocess, however many there are; PRINTING stays recorded
    throughout. A capture can start again only after a state other than
    PRINTING has been seen. *)
Theorem no_start_while_print_persists envs : forall s,
  isFirstCheck (fst s) = false ->
  isPrinting (lastPrinterState (fst s)) = true ->
  Forall (fun env => stillPrinting env = true) envs ->
  let s' := runTicks cfg envs s in
  noSpawn s s'
  /\ isFirstCheck (fst s') = false
  /\ isPrinting (lastPrinterState (fst s')) = true.
Proof.
  induction envs as [|env envs IH]; intros s Hf Hp Hall; cbv zeta.
  - cbn. split; [apply noSpawn_refl|auto].
  - inversion Hall as [|e es Henv Hrest]; subst.
    cbn [runTicks fold_left].
    set (s1 := snd (checkStatus cfg env s)).
    assert (H1 : noSpawn s s1).
    { subst s1. destruct (status_result env) as [st|] eqn:Hst.
      - rewrite (checkStatus_fetched cfg env st s Hst).
        apply processStatus_noSpawn_unless; [exact Hst|].
        unfold startCondition. rewrite Hst, Hf, Hp. cbn.
        now rewrite !andb_false_r.
      - assert (E : checkStatus cfg env s = checkWatchdog cfg env s).
        { unfold checkStatus, tryCatch, bind, getStatus. now rewrite Hst. }
        rewrite E. apply checkWatchdog_noSpawn. }
    assert (H2 : isFirstCheck (fst s1) = false).
    { apply (checkStatus_firstDone env s), Hf. }
    assert (H3 : isPrinting (lastPrinterState (fst s1)) = true).
    { subst s1. unfold stillPrinting in Henv.
      destruct (status_result env) as [st|] eqn:Hst.
      - rewrite (checkStatus_fetched cfg env st s Hst).
        destruct (processStatus_records cfg env st s) as [-> _]. exact Henv.
      - assert (E : checkStatus cfg env s = checkWatchdog cfg env s).
        { unfold checkStatus, tryCatch, bind, getStatus. now rewrite Hst. }
        rewrite E.
        destruct (checkWatchdog_sameObservation cfg env s) as [-> _].
        exact Hp. }
    destruct (IH s1 H2 H3 Hrest) as [H4 [H5 H6]].
    split; [eapply noSpawn_trans; eassumption|]. split; assumption.
Qed.


(** **** States other than PRINTING *)

Lemma handlePrintFinished_last env j v s :
  handlePrintFinished cfg env j (onMonitor (setLastPrinterState v) s)
  = (fst (handlePrintFinished cfg env j s),
     onMonitor (setLastPrinterState v) (snd (handlePrintFinished cfg env j s))).
Proof.
  destruct s as [m w]. destruct m as [pid fname lst exp first c].
  unfold handlePrintFinished, clearWatchdog, capturing, stopTimelapseCapture,
    generateOutputPath, sendNotification, liftC, liftW, clearFrames,
    isCurrentlyCapturing.
  unfold bind, ret, throw, gets, modify, tryCatch, tryFinally.
  cbn -[stopCapture assembleVideo clearFramesW].
  destruct (isCapturing c); cbn -[stopCapture assembleVideo clearFramesW];
    [|reflexivity].
  destruct (stopCapture env (c, w)) as [[[]|e] [c1 w1]];
    cbn -[assembleVideo clearFramesW]; [|reflexivity].
  destruct (assembleVideo env (outputDirectory cfg)
              (outputFileName env fname j) w1) as [[[]|e] w2];
    reflexivity.
Qed.

Lemma checkWatchdog_last env v s :
  checkWatchdog cfg env (onMonitor (setLastPrinterState v) s)
  = (fst (checkWatchdog cfg env s),
     onMonitor (setLastPrinterState v) (snd (checkWatchdog cfg env s))).
Proof.
  rewrite !checkWatchdog_unfold.
  destruct s as [m w]. cbn [fst snd onMonitor setLastPrinterState
                             timelapseCapture watchdogExpiry currentPrintId].
  destruct (_ || _); [reflexivity|].
  destruct (watchdogExpiry m); [|reflexivity].
  destruct (now_check env >=? z); [|reflexivity].
  apply (handlePrintFinished_last env (currentPrintId m) v (m, w)).
Qed.

Lemma inactiveTransition_unfold env j s :
  inactiveTransition cfg env j s
  = (if isFirstCheck (fst s)
     then (modify (onMonitor (setIsFirstCheck false)) ;;
           r <- gets (fun s : St => canResume (snd s)) ;;
           if r then liftC (clearFrames env) else ret tt)%m
     else if isPrinting (lastPrinterState (fst s))
          then handlePrintFinished cfg env j
          else ret tt) s.
Proof.
  unfold inactiveTransition.
  unfold bind at 1, gets at 1. cbv beta iota.
  unfold bind at 1, gets at 1. reflexivity.
Qed.

Lemma processStatus_inactive env st s :
  isPrinting (Some (printer_state st)) = false ->
  processStatus cfg env st s
  = checkWatchdog cfg env
      (onMonitor (setCurrentPrintId (jobIdOf st))
         (onMonitor (setLastPrinterState (Some (printer_state st)))
            (snd (inactiveTransition cfg env (jobIdOf st) s)))).
Proof.
  intros Hp. head_transition x.
  assert (Hx : noThrow x).
  { subst x. unfold capturing. total;
      auto using clear_noThrow, handlePrintStarted_noThrow,
        handlePrintFinished_noThrow, resetWatchdog_noThrow. }
  rewrite (bind_noThrow x) by exact Hx.
  unfold bind at 1, modify at 1. cbv beta iota.
  unfold bind at 1, modify at 1. cbv beta iota.
  assert (E : snd (x s) = snd (inactiveTransition cfg env (jobIdOf st) s)).
  { subst x. rewrite inactiveTransition_unfold.
    rewrite Hp. rewrite andb_false_r. cbn [negb]. rewrite andb_true_r.
    destruct (isFirstCheck (fst s)); [reflexivity|].
    destruct (isPrinting (lastPrinterState (fst s))); [reflexivity|].
    unfold capturing, bind, gets, ret. cbv beta iota.
    now rewrite andb_false_r. }
  now rewrite E.
Qed.

(** X15. Every state other than PRINTING is handled alike: two status
    reports that differ only in which non-PRINTING state they carry
    (FINISHED, STOPPED, ERROR, IDLE, ...) lead, on any monitor and in the
    same environment, to the same result, the same world and the same
    monitor, except for the printer state that is recorded. *)
Theorem inactive_states_alike env st1 st2 s :
  isPrinting (Some (printer_state st1)) = false ->
  isPrinting (Some (printer_state st2)) = false ->
  jobIdOf st1 = jobIdOf st2 ->
  let r1 := checkStatus cfg (Scenario.withStatus (Some st1) env) s in
  let r2 := checkStatus cfg (Scenario.withStatus (Some st2) env) s in
  r1 = (fst r2,
        onMonitor (setLastPrinterState (Some (printer_state st1))) (snd r2)).
Proof.
  intros H1 H2 Hj. cbv zeta.
  rewrite (checkStatus_fetched cfg (Scenario.withStatus (Some st1) env)
             st1 s eq_refl).
  rewrite (checkStatus_fetched cfg (Scenario.withStatus (Some st2) env)
             st2 s eq_refl).
  rewrite !processStatus_inactive by assumption. rewrite Hj.
  change (inactiveTransition cfg (Scenario.withStatus (Some st1) env))
    with (inactiveTransition cfg (Scenario.withStatus (Some st2) env)).
  set (t := snd (inactiveTransition cfg (Scenario.withStatus (Some st2) env)
                   (jobIdOf st2) s)).
  change (checkWatchdog cfg (Scenario.withStatus (Some st1) env))
    with (checkWatchdog cfg (Scenario.withStatus (Some st2) env)).
  set (e2 := Scenario.withStatus (Some st2) env).
  assert (Hc : forall v,
            onMonitor (setCurrentPrintId (jobIdOf st2))
              (onMonitor (setLastPrinterState v) t)
            = onMonitor (setLastPrinterState v)
                (onMonitor (setCurrentPrintId (jobIdOf st2)) t)).
  { intros v. destruct t as [[pid fname lst exp first c] w]. reflexivity. }
  rewrite !Hc, !checkWatchdog_last. cbn [fst snd].
  reflexivity.
Qed.

End TickFacts.

Section TickExamples.

Import Timelapse Monitor Ticks.

Lemma spawn_only_on_start_transition_witness :
  startCondition Scenario.resumed Scenario.smooth = false
  /\ noSpawn Scenario.resumed
       (snd (checkStatus Scenario.cfg60 Scenario.smooth Scenario.resumed)).
Proof.
  split; [reflexivity|].
  apply (spawn_only_on_start_transition Scenario.cfg60 Scenario.smooth
           Scenario.resumed).
  reflexivity.
Defined.

Lemma watchdog_fires_once_witness :
  (watchdogTimeout Scenario.cfg60 > 0
   /\ capturingOf Scenario.resumed = true
   /\ watchdogExpiry (fst Scenario.resumed) = Some 61000
   /\ now_check Scenario.outage >= 61000)
  /\ let s' := snd (checkWatchdog Scenario.cfg60 Scenario.outage
                       Scenario.resumed) in
     watchdogExpiry (fst s') = None
     /\ checkWatchdog Scenario.cfg60 Scenario.outage s' = (Val tt, s').
Proof.
  split.
  - repeat split; try reflexivity; cbn; lia.
  - apply (watchdog_fires_once Scenario.cfg60 Scenario.outage Scenario.outage
             Scenario.resumed 61000); try reflexivity; cbn; lia.
Defined.

Lemma failed_start_is_swallowed_witness :
  (capturingOf Scenario.idle = false
   /\ startFails (Scenario.withSpawn SpawnThrows Scenario.smooth) = true)
  /\ let res := handlePrintStarted Scenario.cfg60
                  (Scenario.withSpawn SpawnThrows Scenario.smooth) 7 false
                  Scenario.idle in
     fst res = Val tt
     /\ capturingOf (snd res) = false
     /\ watchdogExpiry (fst (snd res)) = watchdogExpiry (fst Scenario.idle)
     /\ procs (snd (snd res)) = procs (snd Scenario.idle)
     /\ True.
Proof.
  split; [split; reflexivity|].
  apply (failed_start_is_swallowed Scenario.cfg60
           (Scenario.withSpawn SpawnThrows Scenario.smooth) 7 false
           Scenario.idle); reflexivity.
Defined.


Lemma heartbeat_only_resets_witness :
  (status_result (Scenario.report PRINTING 20000)
   = Some (mkStatus PRINTING (Some (mkStatusJob (Some 9))))
   /\ isFirstCheck (fst Scenario.resumed) = false
   /\ isPrinting (lastPrinterState (fst Scenario.resumed)) = true
   /\ isCapturing (timelapseCapture (fst Scenario.resumed)) = true)
  /\ checkStatus Scenario.cfg60 (Scenario.report PRINTING 20000)
       Scenario.resumed
     = (Val tt,
        (setCurrentPrintId (Some 9)
           (setWatchdogExpiry (Some 80000) (fst Scenario.resumed)),
         snd Scenario.resumed)).
Proof.
  split; [repeat split|].
  apply (heartbeat_only_resets Scenario.cfg60 (Scenario.report PRINTING 20000)
           (fst Scenario.resumed) (snd Scenario.resumed)
           (mkStatus PRINTING (Some (mkStatusJob (Some 9)))));
    reflexivity.
Defined.

Lemma no_start_while_print_persists_witness :
  (isFirstCheck (fst Scenario.resumed) = false
   /\ isPrinting (lastPrinterState (fst Scenario.resumed)) = true
   /\ Forall (fun env => stillPrinting env = true)
             [Scenario.outage; Scenario.smooth])
  /\ let s' := runTicks Scenario.cfg60 [Scenario.outage; Scenario.smooth]
                 Scenario.resumed in
     noSpawn Scenario.resumed s'
     /\ isFirstCheck (fst s') = false
     /\ isPrinting (lastPrinterState (fst s')) = true.
Proof.
  assert (H : Forall (fun env => stillPrinting env = true)
                [Scenario.outage; Scenario.smooth])
    by (repeat constructor).
  split; [repeat split; exact H|].
  apply (no_start_while_print_persists Scenario.cfg60
           [Scenario.outage; Scenario.smooth] Scenario.resumed);
    [reflexivity|reflexivity|exact H].
Defined.

Lemma inactive_states_alike_witness :
  (isPrinting (Some (printer_state (mkStatus ERROR None))) = false
   /\ isPrinting (Some (printer_state (mkStatus FINISHED None))) = false
   /\ jobIdOf (mkStatus ERROR None) = jobIdOf (mkStatus FINISHED None))
  /\ let r1 := checkStatus Scenario.cfg60
                 (Scenario.withStatus (Some (mkStatus ERROR None))
                    Scenario.smooth) Scenario.resumed in
     let r2 := checkStatus Scenario.cfg60
                 (Scenario.withStatus (Some (mkStatus FINISHED None))
                    Scenario.smooth) Scenario.resumed in
     r1 = (fst r2, onMonitor (setLastPrinterState (Some ERROR)) (snd r2)).
Proof.
  split; [repeat split|].
  apply (inactive_states_alike Scenario.cfg60 Scenario.smooth
           (mkStatus ERROR None) (mkStatus FINISHED None) Scenario.resumed);
    reflexivity.
Defined.

End TickExamples.

(** * The output file name *)

Section OutputNameFacts.

Import Monitor OutputName.

Lemma allChars_append p a b :
  Js.allChars p (a ++ b) = Js.allChars p a && Js.allChars p b.
Proof.
  induction a as [|c a IH]; cbn; [reflexivity|].
  now rewrite IH, andb_assoc.
Qed.

Lemma sanitize_allowed s : Js.allChars allowed (sanitize s) = true.
Proof.
  unfold sanitize. induction s as [|c s IH]; cbn [Js.mapChars Js.allChars];
    [reflexivity|].
  rewrite IH, andb_true_r.
  destruct (Js.charIn [60; 62; 58; 34; 47; 92; 124; 63; 42]%nat c) eqn:E.
  - reflexivity.
  - unfold allowed. now rewrite E.
Qed.

(** X16. The sanitising step of [generateOutputPath] leaves none of the
    nine characters it targets (among them slash and backslash), keeps
    the length, changes nothing in a string that has none of them, and
    is idempotent. *)
Theorem sanitize_safe s :
  Js.allChars allowed (sanitize s) = true
  /\ String.length (sanitize s) = String.length s
  /\ (if Js.allChars allowed s then sanitize s = s else sanitize s <> s)
  /\ sanitize (sanitize s) = sanitize s.
Proof.
  assert (Hid : forall t, Js.allChars allowed t = true -> sanitize t = t).
  { unfold sanitize, allowed. induction t as [|c t IH];
      cbn [Js.mapChars Js.allChars]; [reflexivity|].
    intros H. apply andb_prop in H as [Hc Ht]. apply negb_true_iff in Hc.
    now rewrite Hc, (IH Ht). }
  split; [apply sanitize_allowed|]. split.
  { unfold sanitize. induction s as [|c s IH];
      cbn [Js.mapChars String.length]; [reflexivity|].
    now rewrite IH. }
  split.
  - destruct (Js.allChars allowed s) eqn:E; [now apply Hid|].
    intros H. pose proof (sanitize_allowed s) as Hs. rewrite H in Hs.
    congruence.
  - apply Hid, sanitize_allowed.
Qed.

Lemma stripExtension_keeps_dotted t ext :
  Js.allChars extChar (t ++ String "." ext) = false.
Proof.
  rewrite allChars_append. cbn. now rewrite andb_false_r.
Qed.

(** X17. The extension stripping of [generateOutputPath] removes exactly
    the last dot and what follows it, when what follows is not empty and
    holds no dot and no slash; a name without dot or slash is left as it
    is; and a name that is nothing but such an extension, like [.gcode],
    becomes the empty string. *)
Theorem stripExtension_last_dot s ext :
  Js.truthy ext = true ->
  Js.allChars extChar ext = true ->
  stripExtension (s ++ "." ++ ext) = s
  /\ stripExtension ("." ++ ext) = ""
  /\ stripExtension ext = ext.
Proof.
  intros Hne Hext. split; [|split].
  - induction s as [|c s IH]; cbn [append stripExtension].
    + change (Js.charIn [46%nat] ".") with true.
      fold extChar. change (fun x => negb (Js.charIn [47%nat; 46%nat] x))
        with extChar.
      now rewrite Hne, Hext.
    + change (fun x => negb (Js.charIn [47%nat; 46%nat] x)) with extChar.
      rewrite stripExtension_keeps_dotted, andb_false_r.
      cbn [append] in IH. now rewrite IH.
  - cbn [append stripExtension].
    change (Js.charIn [46%nat] ".") with true.
    change (fun x => negb (Js.charIn [47%nat; 46%nat] x)) with extChar.
    now rewrite Hne, Hext.
  - clear Hne. induction ext as [|c e IH]; cbn [stripExtension];
      [reflexivity|].
    cbn [Js.allChars] in Hext. apply andb_prop in Hext as [Hc He].
    assert (Hdot : Js.charIn [46%nat] c = false).
    { unfold extChar in Hc. apply negb_true_iff in Hc.
      unfold Js.charIn in *. cbn [existsb] in *.
      apply orb_false_elim in Hc as [_ Hc]. exact Hc. }
    rewrite Hdot. cbn [andb]. now rewrite (IH He).
Qed.

Lemma stripExtension_last_dot_witness :
  (Js.truthy "gcode" = true /\ Js.allChars extChar "gcode" = true)
  /\ stripExtension ("benchy.v2" ++ "." ++ "gcode") = "benchy.v2"
  /\ stripExtension ("." ++ "gcode") = ""
  /\ stripExtension "gcode" = "gcode".
Proof.
  split; [split; reflexivity|].
  apply (stripExtension_last_dot "benchy.v2" "gcode"); reflexivity.
Defined.

Lemma allChars_impl (p q : ascii -> bool) s :
  (forall c, p c = true -> q c = true) ->
  Js.allChars p s = true -> Js.allChars q s = true.
Proof.
  intros Hpq. induction s as [|c s IH]; cbn; [reflexivity|].
  intros H. apply andb_prop in H as [Hc Hs]. now rewrite (Hpq c Hc), IH.
Qed.

Lemma allChars_substring p s : forall n m,
  Js.allChars p s = true -> Js.allChars p (String.substring n m s) = true.
Proof.
  induction s as [|c s IH]; intros n m H.
  - destruct n, m; reflexivity.
  - cbn [Js.allChars] in H. apply andb_prop in H as [Hc Hs].
    destruct n as [|n]; destruct m as [|m]; cbn [String.substring Js.allChars];
      try reflexivity; try (now apply IH).
    now rewrite Hc, IH.
Qed.

Lemma digit_allowed c : Js.isDigit c = true -> allowed c = true.
Proof.
  destruct c as [[] [] [] [] [] [] [] []]; vm_compute; congruence.
Qed.

Lemma stamp_allowed c :
  isoChar c = true ->
  allowed (if Js.charIn [58; 46]%nat c then "-"%char else c) = true.
Proof.
  destruct c as [[] [] [] [] [] [] [] []]; vm_compute; congruence.
Qed.

Lemma timestampOf_allowed iso :
  Js.allChars isoChar iso = true ->
  Js.allChars allowed (timestampOf iso) = true.
Proof.
  intros H. unfold timestampOf, Js.sliceEnd. apply allChars_substring.
  induction iso as [|c iso IH]; cbn [Js.mapChars Js.allChars];
    [reflexivity|].
  cbn [Js.allChars] in H. apply andb_prop in H as [Hc Hs].
  now rewrite (stamp_allowed c Hc), IH.
Qed.

Lemma toString_allowed n : Js.allChars allowed (Js.toString n) = true.
Proof.
  unfold Js.toString.
  assert (Hu : forall u, Js.allChars allowed (NilZero.string_of_uint u) = true).
  { intros u. destruct u; try reflexivity;
      apply (allChars_impl Js.isDigit); try apply digit_allowed;
      apply (uint_digits (_ u)). }
  destruct n; cbn [Z.to_int NilZero.string_of_int]; try apply Hu;
    cbn [Js.allChars]; now rewrite Hu.
Qed.

Lemma prefix_app a b : String.prefix a (a ++ b) = true.
Proof.
  induction a as [|c a IH]; cbn; [now destruct b|].
  destruct (ascii_dec c c); [exact IH|congruence].
Qed.

(** X18. The output file is always a single component directly under
    the output directory: whatever the print's display name and job
    identifier, when the clock string has the characters of an ISO time
    stamp the name [generateOutputPath] builds contains no slash, no
    backslash and none of the other characters that are sanitised,
    starts with [timelapse_] and ends with [.mp4]. *)
Theorem output_name_is_one_component env jobId s :
  Js.allChars isoChar (iso_now env) = true ->
  exists file,
    generateOutputPath env jobId s = (Val file, s)
    /\ Js.allChars allowed file = true
    /\ Js.startsWith file "timelapse_" = true
    /\ Js.endsWith file ".mp4" = true.
Proof.
  intros Hiso. eexists. split; [reflexivity|].
  pose proof (timestampOf_allowed _ Hiso) as Hts.
  unfold outputFileName, jobSuffix.
  assert (Hjob : Js.allChars allowed
                   match jobId with
                   | Some j => if j =? 0 then ""%string
                               else ("_job" ++ Js.toString j)%string
                   | None => ""%string
                   end = true).
  { destruct jobId as [j|]; [destruct (j =? 0)|]; try reflexivity.
    rewrite allChars_append, toString_allowed. reflexivity. }
  split; [|split].
  - destruct (currentPrintFilename (fst s)) as [n|];
      [destruct (Js.truthy n)|];
      rewrite !allChars_append, ?sanitize_allowed, ?Hts, ?Hjob; reflexivity.
  - unfold Js.startsWith.
    destruct (currentPrintFilename (fst s)) as [n|];
      [destruct (Js.truthy n)|]; apply prefix_app.
  - destruct (currentPrintFilename (fst s)) as [n|];
      [destruct (Js.truthy n)|];
      rewrite <- !append_assoc_string; apply endsWith_app.
Qed.

Lemma output_name_is_one_component_witness :
  Js.allChars isoChar (iso_now Scenario.smooth) = true
  /\ exists file,
       generateOutputPath Scenario.smooth (Some 7)
         (setCurrentPrintFilename (Some "a/b:c.gcode") newMonitor,
          Scenario.emptyWorld)
       = (Val file,
          (setCurrentPrintFilename (Some "a/b:c.gcode") newMonitor,
           Scenario.emptyWorld))
       /\ Js.allChars allowed file = true
       /\ Js.startsWith file "timelapse_" = true
       /\ Js.endsWith file ".mp4" = true.
Proof.
  split; [reflexivity|].
  apply (output_name_is_one_component Scenario.smooth (Some 7)
           (setCurrentPrintFilename (Some "a/b:c.gcode") newMonitor,
            Scenario.emptyWorld)).
  reflexivity.
Defined.

End OutputNameFacts.

(** ** Starting and stopping the service *)

Section ServiceFacts.

Import Timelapse Monitor Service.

Lemma checkStatus_noThrow cfg env : noThrow (checkStatus cfg env).
Proof.
  unfold checkStatus. apply noThrow_tryCatch.
  intros _. apply checkWatchdog_noThrow.
Qed.

(** X19. [startMonitoring] cannot fail because of its first poll: on a
    monitor that is not yet monitoring it always returns normally, after
    exactly one poll tick, with the flag set and the interval timer armed
    at [pollInterval * 1000] ms, whatever the printer, the camera and the
    file system do; on a monitor that is already monitoring it throws
    [MonitorError] and changes nothing. *)
Theorem startMonitoring_outcome cfg poll env sv w :
  startMonitoring cfg poll env (sv, w) =
  if isMonitoring sv then (MonitorError, (sv, w))
  else
    let s' := snd (checkStatus cfg env (core sv, w)) in
    (Done, (mkService true (Some (poll * 1000)) (fst s'), snd s')).
Proof.
  unfold startMonitoring. cbn [fst snd core].
  destruct (isMonitoring sv); [reflexivity|].
  destruct (checkStatus_noThrow cfg env (core sv, w)) as [a Ha].
  destruct (checkStatus cfg env (core sv, w)) as [[[]|e] [m w']];
    cbn in *; [reflexivity|discriminate].
Qed.



End ServiceFacts.

(** ** The configuration file *)

Section ConfigFacts.

Import ConfigFile.

Lemma badString_false v k :
  badString (prop v k) = false <-> nonEmptyText v k.
Proof.
  unfold badString, nonEmptyText, textAt, truthy, isString. split.
  - destruct (prop v k) as [[| | |s| |]|]; cbn;
      rewrite ?orb_true_r; try discriminate.
    intros H. exists s. split; [reflexivity|].
    destruct (String.eqb_spec s ""); [discriminate|assumption].
  - intros [s [H Hs]].
    destruct (prop v k) as [[| | |s'| |]|]; try discriminate.
    injection H as ->. cbn.
    destruct (String.eqb_spec s ""); [contradiction|reflexivity].
Qed.

Lemma badNumber_false v k :
  badNumber (prop v k) = false <-> positiveNumber v k.
Proof.
  unfold badNumber, positiveNumber, numberAt, truthy, isNumber, leZero.
  split.
  - destruct (prop v k) as [[| |q| | |]|]; cbn;
      rewrite ?orb_true_r; try discriminate.
    intros H. exists q. split; [reflexivity|].
    apply orb_false_elim in H. destruct H as [_ H].
    apply Qnot_le_lt. intros Hle. apply Qle_bool_iff in Hle. congruence.
  - intros [q [H Hq]].
    destruct (prop v k) as [[| |q'| | |]|]; try discriminate.
    injection H as ->. cbn.
    assert (Hne : Qeq_bool q 0 = false).
    { destruct (Qeq_bool q 0) eqn:E; [|reflexivity].
      apply Qeq_bool_iff in E. rewrite E in Hq.
      now apply Qlt_irrefl in Hq. }
    assert (Hle : Qle_bool q 0 = false).
    { destruct (Qle_bool q 0) eqn:E; [|reflexivity].
      apply Qle_bool_iff in E. now apply Qle_not_lt in E. }
    now rewrite Hne, Hle.
Qed.

Lemma section_present v k :
  nonEmptyText v k -> truthy v = true.
Proof.
  intros [s [H _]]. unfold textAt, prop in H.
  destruct v as [[| | | | |]|]; try discriminate. reflexivity.
Qed.

Lemma validateConfig_sound c c' :
  validateConfig c = inr c' -> c' = c /\ wellFormed c.
Proof.
  unfold validateConfig, wellFormed. cbv zeta.
  repeat match goal with
         | |- context [if ?b then inl _ else _] =>
             let E := fresh "E" in
             destruct b eqn:E; [discriminate|]
         end.
  intros H. injection H as <-. split; [reflexivity|].
  repeat match goal with
         | H : badString _ = false |- _ => apply badString_false in H
         | H : badNumber _ = false |- _ => apply badNumber_false in H
         end.
  repeat split; assumption.
Qed.

Lemma validateConfig_complete c :
  wellFormed c -> validateConfig c = inr c.
Proof.
  unfold wellFormed. cbv zeta.
  intros (H1 & H2 & H3 & H4 & H5 & H6 & H7 & H8 & H9 & H10 & H11).
  pose proof (section_present _ _ H1) as S1.
  pose proof (section_present _ _ H5) as S2.
  pose proof (section_present _ _ H10) as S3.
  assert (S0 : truthy (Some c) = true).
  { destruct H11 as [q [H _]]. unfold numberAt, prop in H.
    destruct c; try discriminate. reflexivity. }
  apply badString_false in H1, H3, H4, H5, H8, H9, H10.
  apply badNumber_false in H2, H6, H7, H11.
  unfold validateConfig. cbv zeta.
  now rewrite S0, S1, S2, S3, H1, H2, H3, H4, H5, H6, H7, H8, H9, H10, H11.
Qed.

(** X21. [validateConfig] accepts exactly the well-formed
    configurations, and returns an accepted one unchanged: host, user
    name, password, RTSP URL, both directories and the notification
    command are non-empty strings, and the port, the capture interval,
    the output frame rate and the poll interval are numbers above zero.
    Nothing else is demanded. *)
Theorem validateConfig_accepts c c' :
  validateConfig c = inr c' <-> c' = c /\ wellFormed c.
Proof.
  split.
  - apply validateConfig_sound.
  - intros [-> H]. now apply validateConfig_complete.
Qed.

Lemma validateConfig_accepts_witness :
  wellFormed exampleConfig
  /\ validateConfig exampleConfig = inr exampleConfig.
Proof.
  assert (H : wellFormed exampleConfig).
  { unfold wellFormed, nonEmptyText, positiveNumber. cbv zeta.
    repeat split; eexists; (split; [reflexivity|]);
      first [discriminate | reflexivity]. }
  split; [exact H|].
  apply (proj2 (validateConfig_accepts exampleConfig exampleConfig)).
  split; [reflexivity|exact H].
Defined.

Lemma prop_other k k' v fields :
  k' <> k ->
  prop (Some (JObj ((k, v) :: fields))) k' = prop (Some (JObj fields)) k'.
Proof.
  intros H. cbn. destruct (String.eqb_spec k' k); [contradiction|reflexivity].
Qed.

(** X22. The validator reads four top-level keys only: setting any
    other key of the configuration object to any value, [watchdogTimeout]
    included, changes neither whether the configuration is accepted nor
    the message of the error. *)
Theorem unchecked_keys_ignored k v fields :
  ~ In k checkedKeys ->
  verdict (validateConfig (JObj ((k, v) :: fields)))
  = verdict (validateConfig (JObj fields)).
Proof.
  intros H. unfold checkedKeys in H. cbn in H.
  unfold validateConfig. cbv zeta.
  rewrite !(prop_other k _ v fields)
    by (intros E; apply H; rewrite E; tauto).
  cbn [truthy negb].
  repeat match goal with
         | |- context [if ?b then inl _ else _] => destruct b
         end; reflexivity.
Qed.

Lemma unchecked_keys_ignored_witness :
  ~ In "watchdogTimeout" checkedKeys
  /\ verdict (validateConfig
                (JObj (("watchdogTimeout", JStr "soon") :: exampleFields)))
     = verdict (validateConfig (JObj exampleFields)).
Proof.
  assert (H : ~ In "watchdogTimeout" checkedKeys).
  { intros [H|[H|[H|[H|[]]]]]; discriminate. }
  split; [exact H|].
  apply (unchecked_keys_ignored "watchdogTimeout" (JStr "soon")
           exampleFields H).
Defined.

(** X23. [loadConfig] returns a configuration only when the file was
    read and parsed and the parsed value is well formed, and then it
    returns that value; every failure, of reading, of parsing or of
    validation, leaves it as a [ConfigError]. *)
Theorem loadConfig_outcomes path file :
  match loadConfig path file with
  | inr c => file = Parsed c /\ wellFormed c
  | inl e => (exists msg, e = ConfigError msg)
             /\ match file with
                | Parsed c => ~ wellFormed c
                | _ => True
                end
  end.
Proof.
  unfold loadConfig, loadBody.
  destruct file as [msg|msg|c]; try (split; eauto).
  destruct (validateConfig c) as [e|c'] eqn:E.
  - assert (Hbad : ~ wellFormed c).
    { intros Hw. apply validateConfig_complete in Hw. congruence. }
    assert (He : exists msg, e = ConfigError msg).
    { revert E. unfold validateConfig. cbv zeta.
      repeat match goal with
             | |- context [if ?b then inl _ else _] =>
                 destruct b; [intros [= <-]; eauto|]
             end.
      discriminate. }
    destruct He as [msg ->]. split; eauto.
  - apply validateConfig_sound in E. destruct E as [-> Hw]. auto.
Qed.

End ConfigFacts.
